(** * Brand-score: the trust-scoring engine of [langraph_1.py]

    A shallow embedding of the scoring core of the brand analyser: the
    score aggregator ([BrandTrustScorer._calculate_final_score]), the
    reasoning-client adaptor ([BrandTrustScorer._call_component_analyzer])
    with its structured extractor, the per-dimension analysers, the
    orchestrator nodes of [BrandAnalyzer], and of the collectors the parts
    that are code of the file rather than calls to a service:
    [fetch_reviews], [google_subreddit_search] and the website analysis
    ([check_ssl_certificate], [analyze_website_trust],
    [calculate_trust_score], [analyze_brand_website_node]).

    Conventions of the embedding.
    - A Python [float] is an IEEE-754 binary64 number, modelled by the
      Standard Library's [spec_float] at precision 53 and [emax] 1024;
      arithmetic is [SFadd], [SFmul], [SFdiv] (round to nearest, ties to
      even), exactly as the hardware computes it.
    - A Python value (the dynamically typed payloads and the records that
      [json.loads] returns) is a [pyval]; a [dict] is an association list,
      which keeps the insertion order the code iterates in.
    - A Python [str] is a [string] of 8-bit characters (code points below
      256).
    - Code that can raise returns a [result]; the exception class is kept.
    - The reasoning service is the environment: one [reply] per call.
      So are the search service, the requests of the website analysis
      and its two regex extractors. *)

From Stdlib Require Import ZArith List String Ascii Lia Bool.
From Stdlib Require Import SpecFloat DecimalString.
Import ListNotations.

Set Warnings "-register-all".

Open Scope string_scope.
Open Scope Z_scope.

(* ================================================================== *)
(** ** Python floats *)
(* ================================================================== *)

Module PyFloat.

Definition float := spec_float.

Definition prec : Z := 53.
Definition emax : Z := 1024.

Definition fadd : float -> float -> float := SFadd prec emax.
Definition fsub : float -> float -> float := SFsub prec emax.
Definition fmul : float -> float -> float := SFmul prec emax.
Definition fdiv : float -> float -> float := SFdiv prec emax.
Definition flt : float -> float -> bool := SFltb.
Definition fle : float -> float -> bool := SFleb.
Definition feq : float -> float -> bool := SFeqb.

(** [float(n)] for an [int]: the nearest double; the caller turns an
    infinite result into [OverflowError]. *)
Definition float_of_Z (z : Z) : float := binary_normalize prec emax z 0 false.

(** The double nearest to [(-1)^neg * m * 10^e10] (what [strtod] returns
    for a decimal literal, and what the Python reader does with [0.55]). *)
Definition float_of_decimal (neg : bool) (m : Z) (e10 : Z) : float :=
  match m with
  | Zpos p =>
      match e10 with
      | Zneg k =>
          fdiv (S754_finite neg p 0) (S754_finite false (Pos.pow 10 k) 0)
      | _ =>
          binary_normalize prec emax
            (if neg then - (m * 10 ^ e10) else m * 10 ^ e10) 0 false
      end
  | _ => S754_zero neg
  end.

(** The literals of the source. *)
Definition f0_0 : float := Eval vm_compute in float_of_decimal false 0 0.
Definition f5_0 : float := Eval vm_compute in float_of_decimal false 50 (-1).
Definition f6_0 : float := Eval vm_compute in float_of_decimal false 60 (-1).
Definition f10_0 : float := Eval vm_compute in float_of_decimal false 100 (-1).
Definition f8_5 : float := Eval vm_compute in float_of_decimal false 85 (-1).
Definition f7_0 : float := Eval vm_compute in float_of_decimal false 70 (-1).
Definition f5_5 : float := Eval vm_compute in float_of_decimal false 55 (-1).
Definition f4_0 : float := Eval vm_compute in float_of_decimal false 40 (-1).
Definition f1_0 : float := Eval vm_compute in float_of_decimal false 10 (-1).

(** [min(a, b)] and [max(a, b)] of two arguments, as the interpreter
    evaluates them: the first argument is kept unless the second compares
    strictly smaller (larger).  A NaN never compares, so it is dropped
    when it comes second. *)
Definition py_min (a b : float) : float := if flt b a then b else a.
Definition py_max (a b : float) : float := if flt a b then b else a.

(** The integer nearest to [m * 2^e], ties to the even integer. *)
Definition rne_scaled (m : Z) (e : Z) : Z :=
  match e with
  | Zneg k =>
      let d := Z.pow_pos 2 k in
      let q := m / d in
      let r := m mod d in
      match Z.compare (2 * r) d with
      | Lt => q
      | Gt => q + 1
      | Eq => if Z.even q then q else q + 1
      end
  | _ => m * 2 ^ e
  end.

(** [round(x, ndigits)] on a float: the interpreter prints [x] correctly
    rounded to [ndigits] decimals (ties on the exact binary value go to the
    even digit) and reads the decimal back, which gives the double nearest
    to it.  Zeros, infinities and NaN are returned as they are. *)
Definition py_round (x : float) (ndigits : positive) : float :=
  match x with
  | S754_finite s m e =>
      match rne_scaled (Zpos m * Zpos (Pos.pow 10 ndigits)) e with
      | Zpos q => fdiv (S754_finite s q 0) (S754_finite false (Pos.pow 10 ndigits) 0)
      | _ => S754_zero s
      end
  | _ => x
  end.

(** [int(x)] of a finite float truncates towards zero. *)
Definition py_int (x : float) : option Z :=
  match x with
  | S754_zero _ => Some 0
  | S754_finite s m e =>
      let a := match e with
               | Zneg k => Zpos m / Z.pow_pos 2 k
               | _ => Zpos m * 2 ^ e
               end in
      Some (if s then - a else a)
  | _ => None
  end.

(** [sum(xs)]: the accumulator starts at the integer [0], which the first
    addition converts to [+0.0]. *)
Definition py_sum (xs : list float) : float := fold_left fadd xs f0_0.

(** A double in the strict sense: a [spec_float] that the format can
    hold. *)
Definition is_double (x : float) : Prop := valid_binary prec emax x = true.

End PyFloat.

Import PyFloat.

(* ================================================================== *)
(** ** Python values, exceptions and the operations the scorer uses *)
(* ================================================================== *)

Module Py.

Inductive exn : Type :=
| TypeError
| ValueError
| OverflowError
| AttributeError
| KeyError
| ZeroDivisionError.

Inductive result (A : Type) : Type :=
| Ok (a : A)
| Raise (e : exn).

Arguments Ok {A} a.
Arguments Raise {A} e.

Definition bind {A B : Type} (r : result A) (k : A -> result B) : result B :=
  match r with
  | Ok a => k a
  | Raise e => Raise e
  end.

Declare Scope py_scope.
Delimit Scope py_scope with py.
Notation "x <- c1 ;; c2" := (bind c1 (fun x => c2))
  (at level 61, c1 at next level, right associativity) : py_scope.
Open Scope py_scope.

Definition raised {A : Type} (r : result A) : bool :=
  match r with
  | Ok _ => false
  | Raise _ => true
  end.

Inductive pyval : Type :=
| PNone
| PBool (b : bool)
| PInt (z : Z)
| PFloat (f : float)
| PStr (s : string)
| PList (l : list pyval)
| PDict (d : list (string * pyval)).

Definition dict : Type := list (string * pyval).

(** [d.get(k)]: [None] stands for a missing key. *)
Fixpoint dict_get (d : dict) (k : string) : option pyval :=
  match d with
  | [] => None
  | (k', v) :: d' => if String.eqb k k' then Some v else dict_get d' k
  end.

(** [d.get(k, default)]. *)
Definition dict_get_default (d : dict) (k : string) (default : pyval) : pyval :=
  match dict_get d k with
  | Some v => v
  | None => default
  end.

(** [k in d] for a dict. *)
Definition dict_has (d : dict) (k : string) : bool :=
  match dict_get d k with
  | Some _ => true
  | None => false
  end.

(** [d[k] = v]: an existing key keeps its place, a new one goes last. *)
Fixpoint dict_set (d : dict) (k : string) (v : pyval) : dict :=
  match d with
  | [] => [(k, v)]
  | (k', v') :: d' =>
      if String.eqb k k' then (k', v) :: d' else (k', v') :: dict_set d' k v
  end.

(** Truth value of an object ([if x:], [not x], [x and y]). *)
Definition truthy (v : pyval) : bool :=
  match v with
  | PNone => false
  | PBool b => b
  | PInt z => negb (z =? 0)
  | PFloat f =>
      match f with
      | S754_zero _ => false
      | _ => true
      end
  | PStr s =>
      match s with
      | EmptyString => false
      | _ => true
      end
  | PList l =>
      match l with
      | [] => false
      | _ => true
      end
  | PDict d =>
      match d with
      | [] => false
      | _ => true
      end
  end.

(** [sub in s] on strings. *)
Fixpoint is_substring (sub s : string) : bool :=
  if String.prefix sub s then true
  else match s with
       | EmptyString => false
       | String _ s' => is_substring sub s'
       end.

(** [key in x] for a string [key]: a dict looks among its keys, a string
    looks for a substring, a list compares its elements with [key]; the
    other values are not containers. *)
Definition py_contains (key : string) (x : pyval) : result bool :=
  match x with
  | PDict d => Ok (dict_has d key)
  | PStr s => Ok (is_substring key s)
  | PList l =>
      Ok (existsb (fun v => match v with
                            | PStr s => String.eqb s key
                            | _ => false
                            end) l)
  | _ => Raise TypeError
  end.

(** [x[key]] for a string [key]. *)
Definition py_getitem (x : pyval) (key : string) : result pyval :=
  match x with
  | PDict d =>
      match dict_get d key with
      | Some v => Ok v
      | None => Raise KeyError
      end
  | _ => Raise TypeError
  end.

(** *** [float(s)] for a string *)

Definition is_space (c : ascii) : bool :=
  let n := N_of_ascii c in
  (((9 <=? n) && (n <=? 13)) || ((28 <=? n) && (n <=? 32))
   || (n =? 133) || (n =? 160))%N%bool.

Definition is_digit (c : ascii) : bool :=
  let n := N_of_ascii c in ((48 <=? n) && (n <=? 57))%N.

Definition digit_val (c : ascii) : Z := Z.of_N (N_of_ascii c) - 48.

Fixpoint lstrip (s : list ascii) : list ascii :=
  match s with
  | c :: s' => if is_space c then lstrip s' else s
  | [] => []
  end.

Definition strip (s : list ascii) : list ascii :=
  rev (lstrip (rev (lstrip s))).

(** A run of digits in which single underscores may separate digits:
    the value read so far, the number of digits, and the rest. *)
Fixpoint scan_digits (allow_us : bool) (acc : Z) (n : Z) (s : list ascii)
  : Z * Z * list ascii :=
  match s with
  | c :: s' =>
      if is_digit c then scan_digits allow_us (10 * acc + digit_val c) (n + 1) s'
      else if (allow_us && Ascii.eqb c "_")%bool then
        match s' with
        | d :: s'' =>
            if is_digit d
            then scan_digits allow_us (10 * acc + digit_val d) (n + 1) s''
            else (acc, n, s)
        | [] => (acc, n, s)
        end
      else (acc, n, s)
  | [] => (acc, n, s)
  end.

(** [digitpart]: at least one digit, starting with a digit. *)
Definition digitpart (allow_us : bool) (acc : Z) (s : list ascii)
  : option (Z * Z * list ascii) :=
  match s with
  | c :: _ => if is_digit c then Some (scan_digits allow_us acc 0 s) else None
  | [] => None
  end.

Definition scan_sign (s : list ascii) : bool * list ascii :=
  match s with
  | "-"%char :: s' => (true, s')
  | "+"%char :: s' => (false, s')
  | _ => (false, s)
  end.

(** The optional exponent part; [None] when an exponent starts and is
    malformed. *)
Definition scan_exponent (allow_us : bool) (s : list ascii)
  : option (Z * list ascii) :=
  match s with
  | c :: s' =>
      if (Ascii.eqb c "e" || Ascii.eqb c "E")%bool then
        let '(neg, s'') := scan_sign s' in
        match digitpart allow_us 0 s'' with
        | Some (e, _, rest) => Some (if neg then - e else e, rest)
        | None => None
        end
      else Some (0, s)
  | [] => Some (0, s)
  end.

Definition lower (c : ascii) : ascii :=
  let n := N_of_ascii c in
  if ((65 <=? n) && (n <=? 90))%N then ascii_of_N (n + 32) else c.

Definition lower_string (s : list ascii) : string :=
  string_of_list_ascii (map lower s).

(** [floatnumber]: [[digitpart] "." digitpart | digitpart ["."]] followed
    by an optional exponent, up to the end of the text. *)
Definition scan_floatnumber (neg : bool) (s : list ascii) : option float :=
  let finish (m nfrac : Z) (rest : list ascii) :=
    match scan_exponent true rest with
    | Some (e, []) => Some (float_of_decimal neg m (e - nfrac))
    | _ => None
    end in
  match digitpart true 0 s with
  | Some (i, _, rest) =>
      match rest with
      | "."%char :: rest' =>
          match digitpart true i rest' with
          | Some (m, nfrac, rest'') => finish m nfrac rest''
          | None => finish i 0 rest'
          end
      | _ => finish i 0 rest
      end
  | None =>
      match s with
      | "."%char :: rest' =>
          match digitpart true 0 rest' with
          | Some (m, nfrac, rest'') => finish m nfrac rest''
          | None => None
          end
      | _ => None
      end
  end.

(** [float(s)]: surrounding whitespace is dropped; [None] is
    [ValueError]. *)
Definition float_of_string (s : string) : option float :=
  let '(neg, body) := scan_sign (strip (list_ascii_of_string s)) in
  let l := lower_string body in
  if (String.eqb l "inf" || String.eqb l "infinity")%bool
  then Some (S754_infinity neg)
  else if String.eqb l "nan" then Some S754_nan
  else scan_floatnumber neg body.

(** [float(x)]. *)
Definition py_float (x : pyval) : result float :=
  match x with
  | PFloat f => Ok f
  | PInt z =>
      match float_of_Z z with
      | S754_infinity _ => Raise OverflowError
      | f => Ok f
      end
  | PBool b => Ok (if b then f1_0 else f0_0)
  | PStr s =>
      match float_of_string s with
      | Some f => Ok f
      | None => Raise ValueError
      end
  | _ => Raise TypeError
  end.

(** [len(x)]. *)
Definition py_len (x : pyval) : result Z :=
  match x with
  | PStr s => Ok (Z.of_nat (String.length s))
  | PList l => Ok (Z.of_nat (List.length l))
  | PDict d => Ok (Z.of_nat (List.length d))
  | _ => Raise TypeError
  end.

(** [for x in v]: the items a [for] loop visits. *)
Definition py_iter (v : pyval) : result (list pyval) :=
  match v with
  | PList l => Ok l
  | PDict d => Ok (map (fun kv => PStr (fst kv)) d)
  | PStr s => Ok (map (fun c => PStr (String c EmptyString)) (list_ascii_of_string s))
  | _ => Raise TypeError
  end.

(** [isinstance(v, dict)]. *)
Definition is_dict (v : pyval) : bool :=
  match v with
  | PDict _ => true
  | _ => false
  end.

(** [x.get(key, default)]: only a dict has the method. *)
Definition py_get (x : pyval) (key : string) (default : pyval) : result pyval :=
  match x with
  | PDict d => Ok (dict_get_default d key default)
  | _ => Raise AttributeError
  end.

(** [x[:3]]. *)
Definition py_slice3 (x : pyval) : result pyval :=
  match x with
  | PList l => Ok (PList (firstn 3 l))
  | PStr s => Ok (PStr (string_of_list_ascii (firstn 3 (list_ascii_of_string s))))
  | _ => Raise TypeError
  end.

(** [float(n)] inside arithmetic on an [int]. *)
Definition int_to_float (z : Z) : result float :=
  match float_of_Z z with
  | S754_infinity _ => Raise OverflowError
  | f => Ok f
  end.

(** [a + b]: numbers ([bool] counts as [int]), two strings, two lists. *)
Definition py_add (a b : pyval) : result pyval :=
  let as_int (v : pyval) : option Z :=
    match v with
    | PInt z => Some z
    | PBool b => Some (if b then 1 else 0)
    | _ => None
    end in
  match a, b with
  | PStr s, PStr t => Ok (PStr (s ++ t))
  | PList l, PList m => Ok (PList (l ++ m)%list)
  | PFloat f, PFloat g => Ok (PFloat (fadd f g))
  | PFloat f, _ =>
      match as_int b with
      | Some z => g <- int_to_float z ;; Ok (PFloat (fadd f g))
      | None => Raise TypeError
      end
  | _, PFloat g =>
      match as_int a with
      | Some z => f <- int_to_float z ;; Ok (PFloat (fadd f g))
      | None => Raise TypeError
      end
  | _, _ =>
      match as_int a, as_int b with
      | Some x, Some y => Ok (PInt (x + y))
      | _, _ => Raise TypeError
      end
  end.

(** [a / n] for a positive [int] [n] (a length): true division. *)
Definition py_truediv (a : pyval) (n : positive) : result pyval :=
  let int_div (z : Z) : result pyval :=
    match z with
    | Z0 => Ok (PFloat (S754_zero false))
    | Zpos p =>
        match fdiv (S754_finite false p 0) (S754_finite false n 0) with
        | S754_infinity _ => Raise OverflowError
        | f => Ok (PFloat f)
        end
    | Zneg p =>
        match fdiv (S754_finite true p 0) (S754_finite false n 0) with
        | S754_infinity _ => Raise OverflowError
        | f => Ok (PFloat f)
        end
    end in
  match a with
  | PFloat f => Ok (PFloat (fdiv f (float_of_Z (Zpos n))))
  | PInt z => int_div z
  | PBool b => int_div (if b then 1 else 0)
  | _ => Raise TypeError
  end.

(** [text and len(text.strip()) > 10]: the test that keeps a review
    text.  A false value is skipped; a true value that is no string has no
    [strip]. *)
Definition long_text (v : pyval) : result (option string) :=
  if truthy v then
    match v with
    | PStr s =>
        Ok (if (10 <? Z.of_nat (List.length (strip (list_ascii_of_string s))))%Z
            then Some s else None)
    | _ => Raise AttributeError
    end
  else Ok None.

(** [str.count(c)] for a one-character pattern. *)
Definition count_char (c : ascii) (s : string) : nat :=
  List.length (filter (Ascii.eqb c) (list_ascii_of_string s)).

(** [c * n] for a one-character string. *)
Definition repeat_char (c : ascii) (n : nat) : string :=
  string_of_list_ascii (repeat c n).

(** [s.strip()]. *)
Definition strip_string (s : string) : string :=
  string_of_list_ascii (strip (list_ascii_of_string s)).

(** Monadic fold of a loop body over the items of a [for]. *)
Fixpoint for_each {A S : Type} (body : S -> A -> result S) (items : list A) (st : S)
  : result S :=
  match items with
  | [] => Ok st
  | x :: items' =>
      match body st x with
      | Ok st' => for_each body items' st'
      | Raise e => Raise e
      end
  end.

End Py.

Import Py.
Open Scope py_scope.

(* ================================================================== *)
(** ** The structured extractor: [re.findall] and [json.loads] *)
(* ================================================================== *)

Module Re.

(** The regular expressions of the source are sequences of literal
    characters, starred character classes (greedy [X*] or lazy [X*?]) and
    one capturing group. *)
Inductive atom : Type :=
| Lit (c : ascii)
| Star (greedy : bool) (cls : ascii -> bool)
| GroupOpen
| GroupClose.

Definition regex : Type := list atom.

Definition lits (s : string) : regex := map Lit (list_ascii_of_string s).

(** Backtracking match of [re] at the head of the text, in the order the
    [re] module explores: a greedy star tries the longest run first, a lazy
    one the shortest.  [grp] tells whether the group is open and [acc]
    holds what it has captured, last character first.  The result is the
    captured text and the text after the match. *)
Fixpoint match_here (re : regex) : list ascii -> bool -> list ascii ->
                                   option (list ascii * list ascii) :=
  match re with
  | [] => fun s _ acc => Some (rev acc, s)
  | Lit c :: re' => fun s grp acc =>
      match s with
      | c' :: s' =>
          if Ascii.eqb c c'
          then match_here re' s' grp (if grp then c' :: acc else acc)
          else None
      | [] => None
      end
  | GroupOpen :: re' => fun s _ acc => match_here re' s true acc
  | GroupClose :: re' => fun s _ acc => match_here re' s false acc
  | Star true cls :: re' => fun s grp =>
      (fix greedy (s : list ascii) (acc : list ascii) {struct s} :=
         match s with
         | c :: s' =>
             if cls c then
               match greedy s' (if grp then c :: acc else acc) with
               | Some r => Some r
               | None => match_here re' s grp acc
               end
             else match_here re' s grp acc
         | [] => match_here re' s grp acc
         end) s
  | Star false cls :: re' => fun s grp =>
      (fix lazy (s : list ascii) (acc : list ascii) {struct s} :=
         match match_here re' s grp acc with
         | Some r => Some r
         | None =>
             match s with
             | c :: s' =>
                 if cls c then lazy s' (if grp then c :: acc else acc) else None
             | [] => None
             end
         end) s
  end.

(** [re.findall(re, text)] for a pattern with one group: the captures of
    the successive non-overlapping matches, leftmost first.  [skip] counts
    the characters still covered by the previous match.  (None of the four
    patterns matches the empty string.) *)
Fixpoint findall_from (re : regex) (skip : nat) (s : list ascii)
  : list (list ascii) :=
  match s with
  | [] => []
  | _ :: s' =>
      match skip with
      | S k => findall_from re k s'
      | O =>
          match match_here re s false [] with
          | Some (cap, rest) =>
              cap :: findall_from re (List.length s - List.length rest - 1) s'
          | None => findall_from re 0 s'
          end
      end
  end.

Definition findall (re : regex) (text : string) : list string :=
  map string_of_list_ascii (findall_from re 0 (list_ascii_of_string text)).

(** The character classes. *)
Definition any (_ : ascii) : bool := true.
Definition space (c : ascii) : bool := is_space c.
Definition not_brace (c : ascii) : bool :=
  negb (Ascii.eqb c "{" || Ascii.eqb c "}").
Definition not_quote (c : ascii) : bool := negb (Ascii.eqb c "034").

End Re.

Module Json.

Definition is_ws (c : ascii) : bool :=
  (Ascii.eqb c " " || Ascii.eqb c "009" || Ascii.eqb c "010" || Ascii.eqb c "013")%bool.

Inductive token : Type :=
| TLBrace | TRBrace | TLBracket | TRBracket | TColon | TComma
| TStr (s : string)
| TVal (v : pyval).

Definition hex_val (c : ascii) : option Z :=
  let n := Z.of_N (N_of_ascii c) in
  if ((48 <=? n)%Z && (n <=? 57)%Z)%bool then Some (n - 48)
  else if ((97 <=? n)%Z && (n <=? 102)%Z)%bool then Some (n - 87)
  else if ((65 <=? n)%Z && (n <=? 70)%Z)%bool then Some (n - 55)
  else None.

(** The body of a string literal after its opening quote: the decoded
    text and the number of characters read, closing quote included.
    Control characters are refused (strict mode).  A [\uXXXX] escape above
    U+00FF has no character in the 8-bit model and is refused too. *)
Fixpoint scan_string (s : list ascii) (acc : list ascii) (n : nat)
  : option (string * nat) :=
  match s with
  | [] => None
  | c :: s' =>
      if Ascii.eqb c "034" then Some (string_of_list_ascii (rev acc), S n)
      else if Ascii.eqb c "\" then
        match s' with
        | e :: s'' =>
            let simple (d : ascii) := scan_string s'' (d :: acc) (S (S n)) in
            if Ascii.eqb e "034" then simple "034"%char
            else if Ascii.eqb e "\" then simple "\"%char
            else if Ascii.eqb e "/" then simple "/"%char
            else if Ascii.eqb e "b" then simple "008"%char
            else if Ascii.eqb e "f" then simple "012"%char
            else if Ascii.eqb e "n" then simple "010"%char
            else if Ascii.eqb e "r" then simple "013"%char
            else if Ascii.eqb e "t" then simple "009"%char
            else if Ascii.eqb e "u" then
              match s'' with
              | h1 :: h2 :: h3 :: h4 :: s5 =>
                  match hex_val h1, hex_val h2, hex_val h3, hex_val h4 with
                  | Some a, Some b, Some c', Some d =>
                      let cp := ((a * 16 + b) * 16 + c') * 16 + d in
                      if (cp <? 256)%Z
                      then scan_string s5 (ascii_of_N (Z.to_N cp) :: acc) (6 + n)
                      else None
                  | _, _, _, _ => None
                  end
              | _ => None
              end
            else None
        | [] => None
        end
      else if (N_of_ascii c <? 32)%N then None
      else scan_string s' (c :: acc) (S n)
  end.

Fixpoint starts_with (p s : list ascii) : bool :=
  match p, s with
  | [], _ => true
  | a :: p', b :: s' => (Ascii.eqb a b && starts_with p' s')%bool
  | _ :: _, [] => false
  end.

(** A number literal as far as it goes: an optional minus, an integer
    part ([0], or a non-zero digit and more digits), an optional fraction
    (a point and digits) and an optional exponent.  It is an [int] when it
    has neither fraction nor exponent, else the [float] of its text. *)
Definition scan_number (s : list ascii) : option (pyval * nat) :=
  let '(neg, s1) := match s with
                    | "-"%char :: s' => (true, s')
                    | _ => (false, s)
                    end in
  let int_part :=
    match s1 with
    | "0"%char :: s' => Some (0, 1, s')
    | _ => digitpart false 0 s1
    end in
  match int_part with
  | None => None
  | Some (i, ni, s2) =>
      let '(m, nf, s3) :=
        match s2 with
        | "."%char :: s' =>
            match digitpart false i s' with
            | Some (m, nf, s'') => (m, nf, s'')
            | None => (i, 0, s2)
            end
        | _ => (i, 0, s2)
        end in
      let '(e, has_exp, s4) :=
        match s3 with
        | c :: s' =>
            if (Ascii.eqb c "e" || Ascii.eqb c "E")%bool then
              match digitpart false 0 (snd (scan_sign s')) with
              | Some (e, _, s'') => (if fst (scan_sign s') then - e else e, true, s'')
              | None => (0, false, s3)
              end
            else (0, false, s3)
        | [] => (0, false, s3)
        end in
      let used := (List.length s - List.length s4)%nat in
      if ((nf =? 0) && negb has_exp)%bool
      then Some (PInt (if neg then - i else i), used)
      else Some (PFloat (float_of_decimal neg m (e - nf)), used)
  end.

(** The token that starts at the head of [s] (not whitespace) and its
    length.  The order of the tests is the scanner's. *)
Definition scan_token (s : list ascii) : option (token * nat) :=
  let word (w : string) (v : pyval) :=
    if starts_with (list_ascii_of_string w) s
    then Some (TVal v, String.length w) else None in
  match s with
  | [] => None
  | c :: s' =>
      if Ascii.eqb c "034" then
        match scan_string s' [] 1 with
        | Some (str, n) => Some (TStr str, n)
        | None => None
        end
      else if Ascii.eqb c "{" then Some (TLBrace, 1%nat)
      else if Ascii.eqb c "}" then Some (TRBrace, 1%nat)
      else if Ascii.eqb c "[" then Some (TLBracket, 1%nat)
      else if Ascii.eqb c "]" then Some (TRBracket, 1%nat)
      else if Ascii.eqb c ":" then Some (TColon, 1%nat)
      else if Ascii.eqb c "," then Some (TComma, 1%nat)
      else if Ascii.eqb c "n" then word "null" PNone
      else if Ascii.eqb c "t" then word "true" (PBool true)
      else if Ascii.eqb c "f" then word "false" (PBool false)
      else
        match scan_number s with
        | Some r => Some (TVal (fst r), snd r)
        | None =>
            if Ascii.eqb c "N" then word "NaN" (PFloat S754_nan)
            else if Ascii.eqb c "I" then word "Infinity" (PFloat (S754_infinity false))
            else if Ascii.eqb c "-" then word "-Infinity" (PFloat (S754_infinity true))
            else None
        end
  end.

(** The tokens of a text; [None] when some character starts no token. *)
Fixpoint lex (skip : nat) (s : list ascii) : option (list token) :=
  match s with
  | [] => Some []
  | c :: s' =>
      match skip with
      | S k => lex k s'
      | O =>
          if is_ws c then lex 0 s'
          else
            match scan_token s with
            | Some (t, n) =>
                match lex (n - 1) s' with
                | Some ts => Some (t :: ts)
                | None => None
                end
            | None => None
            end
      end
  end.

(** The decoder as a stack machine over the tokens.  A frame is an open
    container with what it holds so far; the mode says what may come
    next. *)
Inductive frame : Type :=
| FObj (acc : dict) (key : option string)
| FArr (acc : list pyval).

Inductive mode : Type :=
| ExpectValue (or_end : bool)
| ExpectKey (or_end : bool)
| ExpectColon
| ExpectCommaOrEnd
| Done (v : pyval).

Definition deliver (v : pyval) (stack : list frame) : option (mode * list frame) :=
  match stack with
  | [] => Some (Done v, [])
  | FObj acc (Some k) :: st => Some (ExpectCommaOrEnd, FObj (dict_set acc k v) None :: st)
  | FObj _ None :: _ => None
  | FArr acc :: st => Some (ExpectCommaOrEnd, FArr (v :: acc) :: st)
  end.

Definition step (m : mode) (stack : list frame) (t : token)
  : option (mode * list frame) :=
  match m, t with
  | ExpectValue _, TVal v => deliver v stack
  | ExpectValue _, TStr s => deliver (PStr s) stack
  | ExpectValue _, TLBrace => Some (ExpectKey true, FObj [] None :: stack)
  | ExpectValue _, TLBracket => Some (ExpectValue true, FArr [] :: stack)
  | ExpectValue true, TRBracket =>
      match stack with
      | FArr acc :: st => deliver (PList (rev acc)) st
      | _ => None
      end
  | ExpectKey _, TStr k =>
      match stack with
      | FObj acc None :: st => Some (ExpectColon, FObj acc (Some k) :: st)
      | _ => None
      end
  | ExpectKey true, TRBrace =>
      match stack with
      | FObj acc None :: st => deliver (PDict acc) st
      | _ => None
      end
  | ExpectColon, TColon => Some (ExpectValue false, stack)
  | ExpectCommaOrEnd, TComma =>
      match stack with
      | FObj _ _ :: _ => Some (ExpectKey false, stack)
      | FArr _ :: _ => Some (ExpectValue false, stack)
      | [] => None
      end
  | ExpectCommaOrEnd, TRBrace =>
      match stack with
      | FObj acc None :: st => deliver (PDict acc) st
      | _ => None
      end
  | ExpectCommaOrEnd, TRBracket =>
      match stack with
      | FArr acc :: st => deliver (PList (rev acc)) st
      | _ => None
      end
  | _, _ => None
  end.

Fixpoint run (m : mode) (stack : list frame) (ts : list token) : option pyval :=
  match ts with
  | [] =>
      match m with
      | Done v => Some v
      | _ => None
      end
  | t :: ts' =>
      match step m stack t with
      | Some (m', stack') => run m' stack' ts'
      | None => None
      end
  end.

(** [json.loads(text)]; [None] is [JSONDecodeError]. *)
Definition loads (text : string) : option pyval :=
  match lex 0 (list_ascii_of_string text) with
  | Some ts => run (ExpectValue false) [] ts
  | None => None
  end.

End Json.


(* ================================================================== *)
(** ** The reasoning service *)
(* ================================================================== *)

(** One extracted review text: [{"text", "rating", "source"}]. *)
Inductive review_source : Type := Google | Reddit.

Record review_text : Type := mk_review_text {
  text : string;
  rating : pyval;
  source : review_source
}.

(** The prompts are fixed templates; the sentiment prompt is filled with
    the review texts.  The service is an arbitrary function of the prompt
    and the data, so the wording of the templates is not kept. *)
Inductive prompt : Type :=
| RatingsPrompt
| LegitimacyPrompt
| SentimentPrompt (reviews : list review_text)
| SocialMediaPrompt
| SupportPrompt.

(** What one call of [generate_content] does: it raises (the connection
    fails, or the data cannot be serialised), it returns no response
    object, or it returns a response with a text (possibly empty). *)
Inductive outcome : Type :=
| Raised
| NoResponse
| Responded (text : string).

Definition service : Type := prompt -> pyval -> outcome.

(* ================================================================== *)
(** ** The scorer *)
(* ================================================================== *)

(** The decimal text of an integer ([str(n)] inside an f-string). *)
Definition str_of_int (z : Z) : string := NilZero.string_of_int (Z.to_int z).

(** A weight table: the dimensions in the order the dict literal lists
    them, each with its weight. *)
Definition weight_table : Type := list (string * float).

(** One entry of ["component_breakdown"]. *)
Record breakdown_entry : Type := mk_breakdown_entry {
  score : float;
  weight : string;
  contribution : float
}.

(** The record [_calculate_final_score] returns. *)
Record trust_score : Type := mk_trust_score {
  final_score : float;
  component_breakdown : list (string * breakdown_entry);
  score_interpretation : string;
  component_results : dict
}.

(** The part of [BrandAnalysisState] the scorer reads; [None] is a key
    the state does not have. *)
Record collected : Type := mk_collected {
  google_reviews : option pyval;
  reddit_reviews : option pyval;
  website_trust_data : option pyval
}.

Module BrandTrustScorer.

(** [self.model]: [None] when no API key is configured or the client
    cannot be built. *)
Definition scorer : Type := option service.

(** [_fallback_scoring(data)]. *)
Definition _fallback_scoring (data : pyval) : pyval :=
  PDict [ ("score", PFloat f6_0);
          ("confidence_level", PStr "Low");
          ("key_factors", PList [PStr "Fallback scoring due to API unavailability"]);
          ("method", PStr "fallback") ].

(** [json_patterns]: a fenced block labelled json, any fenced block, a
    flat key-value block, the widest brace-delimited span. *)
Definition fence : string := "```".

Definition json_patterns : list Re.regex :=
  [ (Re.lits "```json" ++ [Re.Star true Re.space; Re.GroupOpen; Re.Lit "{";
       Re.Star false Re.any; Re.Lit "}"; Re.GroupClose; Re.Star true Re.space]
       ++ Re.lits fence)%list;
    (Re.lits fence ++ [Re.Star true Re.space; Re.GroupOpen; Re.Lit "{";
       Re.Star false Re.any; Re.Lit "}"; Re.GroupClose; Re.Star true Re.space]
       ++ Re.lits fence)%list;
    [ Re.GroupOpen; Re.Lit "{"; Re.Star true Re.not_brace; Re.Lit "034";
      Re.Star true Re.not_quote; Re.Lit "034"; Re.Star true Re.not_brace;
      Re.Lit ":"; Re.Star true Re.not_brace; Re.Lit "}"; Re.GroupClose ];
    [ Re.GroupOpen; Re.Lit "{"; Re.Star true Re.any; Re.Lit "}"; Re.GroupClose ] ].

(** The repair pass: missing closing braces, then missing closing
    brackets, are appended. *)
Definition fix_json (m : string) : string :=
  let fixed_json :=
    if (count_char "}" m <? count_char "{" m)%nat
    then m ++ repeat_char "}" (count_char "{" m - count_char "}" m)
    else m in
  if (count_char "]" fixed_json <? count_char "[" fixed_json)%nat
  then fixed_json ++ repeat_char "]" (count_char "[" fixed_json - count_char "]" fixed_json)
  else fixed_json.

(** One candidate: strict parse, and on failure one parse of the repaired
    text. *)
Definition parse_candidate (m : string) : option pyval :=
  match Json.loads m with
  | Some v => Some v
  | None => Json.loads (fix_json m)
  end.

(** The inner loop: the first candidate that parses ends it. *)
Fixpoint first_parsed (matches : list string) : option pyval :=
  match matches with
  | [] => None
  | m :: ms =>
      match parse_candidate m with
      | Some v => Some v
      | None => first_parsed ms
      end
  end.

Definition is_true (parsed_result : option pyval) : bool :=
  match parsed_result with
  | Some v => truthy v
  | None => false
  end.

(** The outer loop over the patterns.  [parsed_result] keeps its value
    from one pattern to the next; the loop ends at the first true one. *)
Fixpoint extract (patterns : list Re.regex) (response_text : string)
                 (parsed_result : option pyval) : option pyval :=
  match patterns with
  | [] => parsed_result
  | p :: ps =>
      let parsed_result' :=
        match first_parsed (Re.findall p response_text) with
        | Some v => Some v
        | None => parsed_result
        end in
      if is_true parsed_result' then parsed_result'
      else extract ps response_text parsed_result'
  end.

(** [_call_component_analyzer(prompt, data)]. *)
Definition _call_component_analyzer (self : scorer) (p : prompt) (data : pyval)
  : pyval :=
  match self with
  | None => _fallback_scoring data
  | Some model =>
      match model p data with
      | Raised => _fallback_scoring data
      | NoResponse => _fallback_scoring data
      | Responded text =>
          if truthy (PStr text) then
            let response_text := strip_string text in
            let parsed_result := extract json_patterns response_text None in
            match parsed_result with
            | Some v => if truthy v then v else _fallback_scoring data
            | None => _fallback_scoring data
            end
          else _fallback_scoring data
      end
  end.

(** [_prepare_ratings_data(google_reviews)]. *)
Definition ratings_loop_body (totals : pyval * pyval) (product_data : pyval)
  : result (pyval * pyval) :=
  let '(total_reviews, total_rating) := totals in
  match product_data with
  | PDict d =>
      match dict_get d "overall_rating" with
      | Some overall =>
          if truthy overall then
            has_total <- py_contains "total_reviews" overall ;;
            if has_total then
              n <- py_get overall "total_reviews" (PInt 0) ;;
              total_reviews' <- py_add total_reviews n ;;
              has_average <- py_contains "average_rating" overall ;;
              if has_average then
                a <- py_get overall "average_rating" (PInt 0) ;;
                total_rating' <- py_add total_rating a ;;
                Ok (total_reviews', total_rating')
              else Ok (total_reviews', total_rating)
            else Ok totals
          else Ok totals
      | None => Ok totals
      end
  | _ => Ok totals
  end.

Definition _prepare_ratings_data (google_reviews : pyval) : result pyval :=
  if negb (truthy google_reviews) then
    Ok (PDict [ ("total_reviews", PInt 0); ("average_rating", PInt 0);
                ("message", PStr "No Google reviews data available") ])
  else
    items <- py_iter google_reviews ;;
    totals <- for_each ratings_loop_body items (PInt 0, PInt 0) ;;
    n <- py_len google_reviews ;;
    average <- py_truediv (snd totals) (Z.to_pos n) ;;
    Ok (PDict [ ("total_reviews", fst totals); ("average_rating", average);
                ("products_analyzed", PInt n) ]).

(** [_prepare_support_data(all_reviews)]. *)
Definition _prepare_support_data (all_reviews : pyval) : result pyval :=
  n <- py_len all_reviews ;;
  Ok (PDict [ ("total_reviews_analyzed", PInt n);
              ("data_sources", PList [PStr "Google reviews"; PStr "Reddit reviews"]);
              ("message", PStr "Support mentions available for analysis") ]).

(** [analyze_ratings(google_reviews)]. *)
Definition analyze_ratings (self : scorer) (google_reviews : pyval) : result pyval :=
  ratings_data <- _prepare_ratings_data google_reviews ;;
  Ok (_call_component_analyzer self RatingsPrompt ratings_data).

(** [analyze_business_legitimacy(website_trust_data)]. *)
Definition analyze_business_legitimacy (self : scorer) (website_trust_data : pyval)
  : result pyval :=
  Ok (_call_component_analyzer self LegitimacyPrompt website_trust_data).

(** The loops of [analyze_review_sentiment] that fill
    [all_review_texts]. *)
Definition google_review_body (texts : list review_text) (review : pyval)
  : result (list review_text) :=
  match review with
  | PDict r =>
      let content := dict_get_default r "content" (PStr "") in
      let rating := dict_get_default r "rating" (PInt 0) in
      keep <- long_text content ;;
      match keep with
      | Some s => Ok (texts ++ [mk_review_text s rating Google])%list
      | None => Ok texts
      end
  | _ => Ok texts
  end.

Definition google_product_body (texts : list review_text) (product_data : pyval)
  : result (list review_text) :=
  match product_data with
  | PDict d =>
      match dict_get d "reviews" with
      | Some reviews =>
          items <- py_iter reviews ;;
          for_each google_review_body items texts
      | None => Ok texts
      end
  | _ => Ok texts
  end.

Definition reddit_comment_body (texts : list review_text) (comment : pyval)
  : result (list review_text) :=
  comment_text <- py_get comment "body" (PStr "") ;;
  keep <- long_text comment_text ;;
  match keep with
  | Some s => Ok (texts ++ [mk_review_text s (PStr "N/A") Reddit])%list
  | None => Ok texts
  end.

Definition reddit_post_body (texts : list review_text) (reddit_post : pyval)
  : result (list review_text) :=
  match reddit_post with
  | PDict d =>
      let post_text := dict_get_default d "post_text" (PStr "") in
      keep <- long_text post_text ;;
      let texts' :=
        match keep with
        | Some s => (texts ++ [mk_review_text s (PStr "N/A") Reddit])%list
        | None => texts
        end in
      let comments := dict_get_default d "comments" (PList []) in
      first3 <- py_slice3 comments ;;
      items <- py_iter first3 ;;
      for_each reddit_comment_body items texts'
  | _ => Ok texts
  end.

Definition extract_review_texts (google_reviews reddit_reviews : pyval)
  : result (list review_text) :=
  gs <- py_iter google_reviews ;;
  texts <- for_each google_product_body gs [] ;;
  rs <- py_iter reddit_reviews ;;
  for_each reddit_post_body rs texts.

(** The record returned when no review text is found. *)
Definition no_review_default : pyval :=
  PDict [ ("review_sentiment_score", PFloat f5_0);
          ("confidence_level", PStr "Low");
          ("key_factors", PList [PStr "No review text available for sentiment analysis"]);
          ("analysis_summary",
           PDict [ ("total_reviews_analyzed", PInt 0);
                   ("sentiment_distribution", PStr "No reviews available");
                   ("major_themes", PDict [("positive", PList []); ("negative", PList [])]);
                   ("product_consistency", PStr "No data");
                   ("severity_assessment", PStr "No reviews to assess") ]) ].

(** [analyze_review_sentiment(google_reviews, reddit_reviews)].  When the
    result of the call lacks ["review_sentiment_score"] the function prints
    that it uses the fallback and runs off its end: it returns [None]. *)
Definition analyze_review_sentiment (self : scorer) (google_reviews reddit_reviews : pyval)
  : result pyval :=
  all_review_texts <- extract_review_texts google_reviews reddit_reviews ;;
  match all_review_texts with
  | [] => Ok no_review_default
  | _ :: _ =>
      let limited_reviews := all_review_texts in
      let n := PInt (Z.of_nat (List.length all_review_texts)) in
      let result :=
        _call_component_analyzer self (SentimentPrompt limited_reviews)
          (PDict [("total_reviews", n); ("reviews_analyzed", n)]) in
      if truthy result then
        match py_contains "review_sentiment_score" result with
        | Ok true => Ok result
        | _ => Ok PNone
        end
      else Ok PNone
  end.

(** [analyze_social_media(reddit_reviews)]. *)
Definition analyze_social_media (self : scorer) (reddit_reviews : pyval) : result pyval :=
  let reddit_reviews := if truthy reddit_reviews then reddit_reviews else PList [] in
  n <- py_len reddit_reviews ;;
  let social_data := PDict [("reddit_reviews", reddit_reviews); ("reddit_count", PInt n)] in
  Ok (_call_component_analyzer self SocialMediaPrompt social_data).

(** [analyze_customer_support(google_reviews, reddit_reviews)]: the second
    definition in the class body, which is the one in force. *)
Definition analyze_customer_support (self : scorer) (google_reviews reddit_reviews : pyval)
  : result pyval :=
  all_reviews <- py_add google_reviews reddit_reviews ;;
  support_data <- _prepare_support_data all_reviews ;;
  Ok (_call_component_analyzer self SupportPrompt support_data).

(** The table of [calculate_trust_score]. *)
Definition weights : weight_table :=
  [ ("ratings", float_of_decimal false 55 (-2));
    ("business_legitimacy", float_of_decimal false 10 (-2));
    ("review_sentiment", float_of_decimal false 20 (-2));
    ("social_media", float_of_decimal false 10 (-2));
    ("customer_support", float_of_decimal false 5 (-2)) ].

Definition interpret_score (score : float) : string :=
  if fle f8_5 score then "Excellent - Strong buy confidence"
  else if fle f7_0 score then "Good - Generally trustworthy"
  else if fle f5_5 score then "Average - Proceed with research"
  else if fle f4_0 score then "Below Average - Significant concerns"
  else "Poor - High risk, consider alternatives".

(** [max(0.0, min(10.0, float(v)))]. *)
Definition clamp_score (v : pyval) : result float :=
  f <- py_float v ;;
  Ok (py_max f0_0 (py_min f10_0 f)).

(** The body of the extraction loop for one dimension: the value stored
    in [scores[component]]. *)
Definition extract_score (component_scores : dict) (component : string)
  : result float :=
  let component_result := dict_get_default component_scores component (PDict []) in
  has_error <- py_contains "error" component_result ;;
  if has_error then Ok f5_0
  else
    let score_key := component ++ "_score" in
    has_key <- py_contains score_key component_result ;;
    if has_key then
      v <- py_getitem component_result score_key ;;
      clamp_score v
    else
      has_score <- py_contains "score" component_result ;;
      if has_score then
        v <- py_getitem component_result "score" ;;
        clamp_score v
      else Ok f5_0.

(** The extraction loop: [scores], in the order of the table; the first
    failing dimension raises. *)
Fixpoint extract_scores (component_scores : dict) (ws : weight_table)
  : result (list (string * float)) :=
  match ws with
  | [] => Ok []
  | (component, _) :: ws' =>
      s <- extract_score component_scores component ;;
      rest <- extract_scores component_scores ws' ;;
      Ok ((component, s) :: rest)
  end.

(** [scores[component]] and [weights[component]] for a key of the table. *)
Fixpoint lookup {A : Type} (l : list (string * A)) (k : string) (default : A) : A :=
  match l with
  | [] => default
  | (k', v) :: l' => if String.eqb k k' then v else lookup l' k default
  end.

(** The generator under [sum]: [scores[component] * weights[component]]
    for each key of the table. *)
Definition weighted_terms (scores : list (string * float)) (ws : weight_table)
  : list float :=
  map (fun cw => fmul (lookup scores (fst cw) f0_0) (lookup ws (fst cw) f0_0)) ws.

(** The text of the ["weight"] field: [f"{int(w*100)}%"]. *)
Definition weight_label (w : float) : result string :=
  match py_int (fmul w (float_of_Z 100)) with
  | Some n => Ok (str_of_int n ++ "%")
  | None =>
      match w with
      | S754_nan => Raise ValueError
      | _ => Raise OverflowError
      end
  end.

Fixpoint breakdown (scores : list (string * float)) (ws all : weight_table)
  : result (list (string * breakdown_entry)) :=
  match ws with
  | [] => Ok []
  | (component, _) :: ws' =>
      let s := lookup scores component f0_0 in
      let w := lookup all component f0_0 in
      label <- weight_label w ;;
      rest <- breakdown scores ws' all ;;
      Ok ((component, mk_breakdown_entry s label (py_round (fmul s w) 2)) :: rest)
  end.

(** [_calculate_final_score(component_scores, weights)].  For an empty
    table Python's [sum] is the integer [0]; it is [+0.0] here. *)
Definition _calculate_final_score (component_scores : dict) (ws : weight_table)
  : result trust_score :=
  scores <- extract_scores component_scores ws ;;
  let final := py_sum (weighted_terms scores ws) in
  bd <- breakdown scores ws ws ;;
  Ok (mk_trust_score (py_round final 1) bd (interpret_score final) component_scores).

(** [state.get(key, default)] for the three collected entries. *)
Definition get_or (v : option pyval) (default : pyval) : pyval :=
  match v with
  | Some x => x
  | None => default
  end.

(** The five component results of [calculate_trust_score], in the order
    they are computed. *)
Definition component_scores_of (self : scorer) (state : collected) : result dict :=
  let google := get_or (google_reviews state) (PList []) in
  let reddit := get_or (reddit_reviews state) (PList []) in
  let website := get_or (website_trust_data state) (PDict []) in
  r1 <- analyze_ratings self google ;;
  r2 <- analyze_business_legitimacy self website ;;
  r3 <- analyze_review_sentiment self google reddit ;;
  r4 <- analyze_social_media self reddit ;;
  r5 <- analyze_customer_support self google reddit ;;
  Ok [ ("ratings", r1); ("business_legitimacy", r2); ("review_sentiment", r3);
       ("social_media", r4); ("customer_support", r5) ].

(** [calculate_trust_score(state)]. *)
Definition calculate_trust_score (self : scorer) (state : collected)
  : result trust_score :=
  component_scores <- component_scores_of self state ;;
  _calculate_final_score component_scores weights.

End BrandTrustScorer.

(** The first definition of the class, which the second one replaces when
    the module is loaded: only its weight table is of interest. *)
Module BrandTrustScorerShadowed.

Definition weights : weight_table :=
  [ ("ratings", float_of_decimal false 50 (-2));
    ("business_legitimacy", float_of_decimal false 15 (-2));
    ("review_sentiment", float_of_decimal false 15 (-2));
    ("social_media", float_of_decimal false 10 (-2));
    ("customer_support", float_of_decimal false 10 (-2)) ].

End BrandTrustScorerShadowed.

(** Every weight table the program configures. *)
Definition configured_weight_tables : list weight_table :=
  [ BrandTrustScorerShadowed.weights; BrandTrustScorer.weights ].

(* ================================================================== *)
(** ** The workflow state *)
(* ================================================================== *)

(** The entries of [state["errors"]]; the message of an exception is not
    kept, its class is. *)
Inductive error_entry : Type :=
| BrandNameRequired
| TrustScoringFailed (e : exn)
| ReportGenerationFailed (e : exn).

(** [state["trust_score"]]: the record of the scorer, or
    [{"error": str(e), "final_score": 0.0}]. *)
Inductive trust_score_entry : Type :=
| Scored (t : trust_score)
| ScoringError (e : exn).

(** [trust_score.get("final_score", default)]. *)
Definition final_score_of (ts : option trust_score_entry) (default : float) : float :=
  match ts with
  | Some (Scored t) => final_score t
  | Some (ScoringError _) => f0_0
  | None => default
  end.

Record component_detail : Type := mk_component_detail {
  detail_score : pyval;
  confidence : pyval;
  key_factors : pyval;
  detail_weight : string
}.

(** The summary of [generate_comprehensive_report].  Component names are
    kept as they are (the source title-cases them for display), and a
    strength or concern is kept as its fields (the source formats them
    into one line). *)
Record summary : Type := mk_summary {
  summary_brand_name : pyval;
  overall_score : float;
  recommendation : string;
  data_sources_analyzed : Z * Z * bool;
  component_scores : list (string * breakdown_entry);
  detailed_component_analysis : list (string * component_detail);
  key_strengths : list (string * float * string);
  areas_of_concern : list (string * float * string);
  data_collection_status : list (string * string);
  trust_score_details : option trust_score_entry;
  trust_score_summary : option (float * list (string * breakdown_entry) * dict)
}.

(** [state["final_report"]]: the summary, or the degraded report of the
    [except] branch. *)
Inductive report : Type :=
| FullReport (s : summary)
| DegradedReport (e : exn) (brand : pyval) (ts : option trust_score_entry).

Record state : Type := mk_state {
  brand_name : pyval;
  twitter_handle : pyval;
  website : pyval;
  data : collected;
  trust_score_value : option trust_score_entry;
  final_report : option report;
  collection_status : option (list (string * string));
  errors : option (list error_entry)
}.

(* ================================================================== *)
(** ** The collectors *)
(* ================================================================== *)

(** *** Google reviews *)

Module GoogleReviews.

(** [GoogleSearch(params).get_dict()] for a product and a sort order: the
    results, or an exception. *)
Definition search : Type := pyval -> string -> result pyval.

(** [results.get("reviews_results", {}).get("reviews", [])]. *)
Definition reviews_of (results : pyval) : result pyval :=
  reviews_results <- py_get results "reviews_results" (PDict []) ;;
  py_get reviews_results "reviews" (PList []).

(** The first part of the [try] block, up to the assignment of
    [overall_ratings]. *)
Definition overall_ratings_of (results : pyval) : result pyval :=
  product_results <- py_get results "product_results" (PDict []) ;;
  reviews_results <- py_get results "reviews_results" (PDict []) ;;
  average_rating <- py_get product_results "rating" PNone ;;
  total_reviews <- py_get product_results "reviews" PNone ;;
  ratings_breakdown <- py_get reviews_results "ratings" (PList []) ;;
  product_title <- py_get product_results "title" (PStr "") ;;
  Ok (PDict [ ("average_rating", average_rating); ("total_reviews", total_reviews);
              ("ratings_breakdown", ratings_breakdown); ("product_title", product_title) ]).

(** The loop over the other sort orders, entered when the first page has
    no review: it ends at the first order that gives a true [reviews]. *)
Fixpoint retry (s : search) (product_id : pyval) (orders : list string) (reviews : pyval)
  : result pyval :=
  match orders with
  | [] => Ok reviews
  | sort_order :: orders' =>
      results <- s product_id sort_order ;;
      reviews' <- reviews_of results ;;
      if truthy reviews' then Ok reviews' else retry s product_id orders' reviews'
  end.

(** The body of the loop over the reviews: the record of one review, kept
    when its content is long enough. *)
Definition review_data_of (r : pyval) : result (option pyval) :=
  date <- py_get r "date" PNone ;;
  rating <- py_get r "rating" PNone ;;
  source <- py_get r "source" PNone ;;
  content <- py_get r "content" (PStr "") ;;
  images <- py_get r "images" (PList []) ;;
  helpful_count <- py_get r "helpful_count" PNone ;;
  user <- py_get r "user" (PDict []) ;;
  keep <- long_text content ;;
  Ok match keep with
     | Some _ =>
         Some (PDict [ ("date", date); ("rating", rating); ("source", source);
                       ("content", content); ("images", images);
                       ("helpful_count", helpful_count); ("user", user) ])
     | None => None
     end.

(** The loop itself; an exception ends it and leaves what was
    collected. *)
Fixpoint collect (reviews : list pyval) (all_reviews : list pyval) : list pyval :=
  match reviews with
  | [] => all_reviews
  | r :: reviews' =>
      match review_data_of r with
      | Ok (Some review_data) => collect reviews' (all_reviews ++ [review_data])
      | Ok None => collect reviews' all_reviews
      | Raise _ => all_reviews
      end
  end.

(** [fetch_reviews(product_id, min_pages, max_pages)]; the page limits
    are not used. *)
Definition fetch_reviews (s : search) (product_id : pyval) : pyval :=
  let returned (overall_ratings : pyval) (all_reviews : list pyval) (page_count : Z) :=
    PDict [ ("product_id", product_id); ("overall_rating", overall_ratings);
            ("reviews", PList all_reviews); ("pages_scraped", PInt page_count) ] in
  match s product_id "relevance" with
  | Raise _ => returned PNone [] 0
  | Ok results =>
      match overall_ratings_of results with
      | Raise _ => returned PNone [] 1
      | Ok overall_ratings =>
          match
            (reviews <- reviews_of results ;;
             page_reviews_count <- py_len reviews ;;
             reviews <- (if page_reviews_count =? 0
                         then retry s product_id
                                ["most_relevant"; "newest"; "oldest"; "highest_rating";
                                 "lowest_rating"] reviews
                         else Ok reviews) ;;
             py_iter reviews)
          with
          | Raise _ => returned overall_ratings [] 1
          | Ok items => returned overall_ratings (collect items []) 1
          end
      end
  end.

End GoogleReviews.

(** *** The search for subreddits *)

Module Reddit.

(** [[A-Za-z0-9_]]. *)
Definition is_word (c : ascii) : bool :=
  let n := N_of_ascii c in
  (((65 <=? n) && (n <=? 90)) || ((97 <=? n) && (n <=? 122))
   || ((48 <=? n) && (n <=? 57)) || (n =? 95))%N%bool.

(** The longest run of word characters at the head of a text. *)
Fixpoint word_run (s : list ascii) : list ascii :=
  match s with
  | c :: s' => if is_word c then c :: word_run s' else []
  | [] => []
  end.

(** [pattern.findall(text)] for the pattern [/r/([A-Za-z0-9_]+)] compiled
    with [re.IGNORECASE]: the names after each [/r/] or [/R/], leftmost
    first, a match starting where the previous one ended.  [skip] counts
    the characters still covered by the previous match. *)
Fixpoint findall_from (skip : nat) (s : list ascii) : list string :=
  match s with
  | [] => []
  | c :: s' =>
      match skip with
      | S k => findall_from k s'
      | O =>
          let name :=
            match s' with
            | r :: c' :: rest =>
                if (Ascii.eqb c "/" && (Ascii.eqb r "r" || Ascii.eqb r "R")
                    && Ascii.eqb c' "/")%bool
                then word_run rest else []
            | _ => []
            end in
          match name with
          | [] => findall_from 0 s'
          | _ :: _ =>
              string_of_list_ascii name :: findall_from (2 + List.length name) s'
          end
      end
  end.

(** [pattern.findall(text)]: the text has to be a string. *)
Definition findall (text : pyval) : result (list string) :=
  match text with
  | PStr s => Ok (findall_from 0 (list_ascii_of_string s))
  | _ => Raise TypeError
  end.

(** Where the loops stand: they go on with [seen] and [subreddits], or
    the function has returned. *)
Inductive flow : Type :=
| Continue (seen : list string) (subreddits : list string)
| Return (subreddits : list string).

(** The innermost loop, over the matches of one text. *)
Fixpoint over_matches (k : Z) (ms : list string) (seen subreddits : list string) : flow :=
  match ms with
  | [] => Continue seen subreddits
  | m :: ms' =>
      let key := lower_string (list_ascii_of_string m) in
      if existsb (String.eqb key) seen then over_matches k ms' seen subreddits
      else
        let seen' := (seen ++ [key])%list in
        let subreddits' := (subreddits ++ [m])%list in
        if (k <=? Z.of_nat (List.length subreddits'))
        then Return subreddits'
        else over_matches k ms' seen' subreddits'
  end.

(** The loop over the two texts of one result. *)
Fixpoint over_texts (k : Z) (texts : list pyval) (seen subreddits : list string)
  : result flow :=
  match texts with
  | [] => Ok (Continue seen subreddits)
  | t :: texts' =>
      ms <- findall t ;;
      match over_matches k ms seen subreddits with
      | Continue seen' subreddits' => over_texts k texts' seen' subreddits'
      | Return r => Ok (Return r)
      end
  end.

(** The loop over the organic results. *)
Fixpoint over_results (k : Z) (results : list pyval) (seen subreddits : list string)
  : result flow :=
  match results with
  | [] => Ok (Continue seen subreddits)
  | r :: results' =>
      link <- py_get r "link" (PStr "") ;;
      title <- py_get r "title" (PStr "") ;;
      f <- over_texts k [link; title] seen subreddits ;;
      match f with
      | Continue seen' subreddits' => over_results k results' seen' subreddits'
      | Return x => Ok (Return x)
      end
  end.

(** [google_subreddit_search(query, k)], given whether the API key is set
    and what the request returns ([resp.json()], or an exception). *)
Definition google_subreddit_search (api_key : bool) (response : result pyval) (k : Z)
  : list string :=
  if negb api_key then []
  else
    match
      (data <- response ;;
       organic_results <- py_get data "organic_results" (PList []) ;;
       results <- py_iter organic_results ;;
       over_results k results [] [])
    with
    | Ok (Continue _ subreddits) => subreddits
    | Ok (Return subreddits) => subreddits
    | Raise _ => []
    end.

End Reddit.

(** *** The website analysis *)

(** What the requests of [check_ssl_certificate] meet: the verified
    request goes through and ends at [final_url]; it fails on the
    certificate, and the direct connection that follows finds a
    certificate, finds none, or fails; it fails to connect, and the plain
    HTTP request that follows goes through or not; or it fails
    otherwise. *)
Inductive certificate_probe : Type :=
| CertificateFound
| NoCertificate
| ProbeFailed.

Inductive https_probe : Type :=
| Reached (final_url : string)
| SslFailure (message : string) (detail : certificate_probe)
| ConnectionFailure (http_reachable : bool)
| OtherFailure (message : string).

(** The world of the website analysis: the requests of the certificate
    check and the page fetch for a URL.  The two regex extractors
    ([extract_contact_info], [detect_page_sections]) are pure functions of
    the page text; they are not modelled and stand here as arbitrary
    functions.  [exception_text] is [str(e)]. *)
Record web_environment : Type := mk_web_environment {
  probe_https : string -> https_probe;
  fetch_website_content : string -> option string;
  extract_contact_info : string -> pyval;
  detect_page_sections : string -> pyval;
  exception_text : exn -> string
}.

Module Website.

(** [check_ssl_certificate(url)], given what its requests meet. *)
Definition check_ssl_certificate (p : https_probe) : pyval :=
  let ssl_info (status : string) (https_enabled certificate_valid : bool) (error : pyval) :=
    PDict [ ("status", PStr status); ("https_enabled", PBool https_enabled);
            ("certificate_valid", PBool certificate_valid); ("error", error) ] in
  match p with
  | Reached final_url =>
      if String.prefix "https://" final_url
      then ssl_info "Valid TLS certificate (HTTPS enabled)" true true PNone
      else ssl_info "No HTTPS (redirected to HTTP)" false false PNone
  | SslFailure message detail =>
      ssl_info match detail with
               | CertificateFound => "Certificate exists but verification failed"
               | NoCertificate => "No certificate found"
               | ProbeFailed => "SSL connection failed"
               end
               true false (PStr message)
  | ConnectionFailure http_reachable =>
      if http_reachable
      then ssl_info "No HTTPS (HTTP only)" false false PNone
      else ssl_info "Website unreachable" false false (PStr "Connection failed")
  | OtherFailure message =>
      ssl_info ("SSL check failed: " ++ message) false false (PStr message)
  end.

(** [x > n] for an [int] literal [n]. *)
Definition py_gt_int (x : pyval) (n : Z) : result bool :=
  match x with
  | PInt z => Ok (n <? z)
  | PBool b => Ok (n <? (if b then 1 else 0))
  | PFloat f => Ok (flt (float_of_Z n) f)
  | _ => Raise TypeError
  end.

(** [if record.get(key): score += points]. *)
Definition field_points (record : pyval) (key : string) (points score : Z) : result Z :=
  v <- py_get record key PNone ;;
  Ok (if truthy v then score + points else score).

(** [if sections.get(name, {}).get("found"): score += points]. *)
Definition section_points (sections : pyval) (name : string) (points score : Z)
  : result Z :=
  section <- py_get sections name (PDict []) ;;
  field_points section "found" points score.

(** The four parts of [calculate_trust_score], each from the score so
    far to the next. *)
Definition ssl_points (trust_data : pyval) (score : Z) : result Z :=
  ssl_info <- py_get trust_data "ssl_info" (PDict []) ;;
  certificate_valid <- py_get ssl_info "certificate_valid" PNone ;;
  if truthy certificate_valid then Ok (score + 25)
  else
    https_enabled <- py_get ssl_info "https_enabled" PNone ;;
    if truthy https_enabled then Ok (score + 10) else Ok score.

Definition contact_points (trust_data : pyval) (score : Z) : result Z :=
  contact_info <- py_get trust_data "contact_info" (PDict []) ;;
  score <- field_points contact_info "phone" 15 score ;;
  score <- field_points contact_info "address" 15 score ;;
  field_points contact_info "email" 5 score.

Definition page_points (trust_data : pyval) (score : Z) : result Z :=
  sections <- py_get trust_data "page_sections" (PDict []) ;;
  score <- section_points sections "about_us" 12 score ;;
  score <- section_points sections "privacy_policy" 8 score ;;
  score <- section_points sections "terms" 5 score ;;
  score <- section_points sections "support" 3 score ;;
  section_points sections "social_media" 2 score.

Definition content_points (trust_data : pyval) (score : Z) : result Z :=
  details <- py_get trust_data "analysis_details" (PDict []) ;;
  content_length <- py_get details "content_length" (PInt 0) ;;
  over_5000 <- py_gt_int content_length 5000 ;;
  if over_5000 then Ok (score + 10)
  else
    over_2000 <- py_gt_int content_length 2000 ;;
    if over_2000 then Ok (score + 5)
    else
      over_500 <- py_gt_int content_length 500 ;;
      if over_500 then Ok (score + 2) else Ok score.

(** The score before the cap. *)
Definition score_points (trust_data : pyval) : result Z :=
  score <- ssl_points trust_data 0 ;;
  score <- contact_points trust_data score ;;
  score <- page_points trust_data score ;;
  content_points trust_data score.

(** [calculate_trust_score(trust_data)], the function of the module (the
    scorer has a method of the same name). *)
Definition calculate_trust_score (trust_data : pyval) : result Z :=
  score <- score_points trust_data ;;
  Ok (Z.min score 100).

(** The URL with its scheme. *)
Definition with_scheme (website : string) : string :=
  if (String.prefix "http://" website || String.prefix "https://" website)%bool
  then website else "https://" ++ website.

Definition status_of (score : Z) : string :=
  if 80 <=? score then "Excellent"
  else if 60 <=? score then "Good"
  else if 40 <=? score then "Partial"
  else "Failed".

(** [analyze_website_trust(brand_name, website)]. *)
Definition analyze_website_trust (web : web_environment) (brand_name website : string)
  : result pyval :=
  let website := with_scheme website in
  let ssl_info := check_ssl_certificate (probe_https web website) in
  let fetched :=
    match fetch_website_content web website with
    | Some markdown_content =>
        if truthy (PStr markdown_content) then Some markdown_content else None
    | None => None
    end in
  let '(contact_info, page_sections, analysis_details) :=
    match fetched with
    | Some markdown_content =>
        let n := String.length markdown_content in
        (extract_contact_info web markdown_content,
         detect_page_sections web markdown_content,
         PDict [ ("content_length", PInt (Z.of_nat n));
                 ("content_sample",
                  PStr (if (500 <? n)%nat
                        then String.substring 0 500 markdown_content ++ "..."
                        else markdown_content)) ])
    | None =>
        (PDict [], PDict [], PDict [("error", PStr "Failed to fetch website content")])
    end in
  let trust_data :=
    [ ("brand_name", PStr brand_name); ("website_url", PStr website);
      ("ssl_info", ssl_info); ("contact_info", contact_info);
      ("page_sections", page_sections); ("trust_score", PInt 0);
      ("status", PStr "Failed"); ("analysis_details", analysis_details) ] in
  score <- calculate_trust_score (PDict trust_data) ;;
  Ok (PDict (dict_set (dict_set trust_data "trust_score" (PInt score))
                      "status" (PStr (status_of score)))).

(** [x.strip()] on a state entry: only a string has the method. *)
Definition py_strip (x : pyval) : result string :=
  match x with
  | PStr s => Ok (strip_string s)
  | _ => Raise AttributeError
  end.

(** [analyze_brand_website_node(state)]: the entry it stores under
    [website_trust_data]. *)
Definition analyze_brand_website_node (web : web_environment) (st : state) : pyval :=
  match
    (brand_name <- py_strip (brand_name st) ;;
     website <- py_strip (website st) ;;
     if negb (truthy (PStr brand_name)) then
       Ok (PDict [("status", PStr "Failed"); ("error", PStr "Missing brand name")])
     else if negb (truthy (PStr website)) then
       Ok (PDict [("status", PStr "Skipped"); ("error", PStr "No website URL provided")])
     else analyze_website_trust web brand_name website)
  with
  | Ok website_data => website_data
  | Raise e =>
      PDict [ ("status", PStr "Failed"); ("error", PStr (exception_text web e));
              ("trust_score", PInt 0) ]
  end.

End Website.

(* ================================================================== *)
(** ** The report generator *)
(* ================================================================== *)

Module ReportGenerator.

Definition f7_5 : float := Eval vm_compute in float_of_decimal false 75 (-1).

Definition breakdown_of (ts : option trust_score_entry) : list (string * breakdown_entry) :=
  match ts with
  | Some (Scored t) => component_breakdown t
  | _ => []
  end.

Definition results_of (ts : option trust_score_entry) : dict :=
  match ts with
  | Some (Scored t) => component_results t
  | _ => []
  end.

Definition interpretation_of (ts : option trust_score_entry) : string :=
  match ts with
  | Some (Scored t) => score_interpretation t
  | _ => "Unable to determine"
  end.

(** One entry of ["detailed_component_analysis"]:
    [component_results.get(c, {}).get(...)]. *)
Definition detail (component_results : dict) (component : string) (w : string)
  : result (string * component_detail) :=
  let r := dict_get_default component_results component (PDict []) in
  s <- py_get r (component ++ "_score") (PInt 0) ;;
  c <- py_get r "confidence_level" (PStr "Unknown") ;;
  k <- py_get r "key_factors" (PList []) ;;
  Ok (component, mk_component_detail s c k w).

Fixpoint details (component_results : dict) (cs : list (string * string))
  : result (list (string * component_detail)) :=
  match cs with
  | [] => Ok []
  | (c, w) :: cs' =>
      d <- detail component_results c w ;;
      rest <- details component_results cs' ;;
      Ok (d :: rest)
  end.

Definition strengths (bd : list (string * breakdown_entry)) : list (string * float * string) :=
  map (fun ce => (fst ce, score (snd ce), weight (snd ce)))
      (filter (fun ce => fle f7_5 (score (snd ce))) bd).

Definition concerns (bd : list (string * breakdown_entry)) : list (string * float * string) :=
  map (fun ce => (fst ce, score (snd ce), weight (snd ce)))
      (filter (fun ce => (negb (fle f7_5 (score (snd ce))) && flt (score (snd ce)) f5_5)%bool) bd).

(** [generate_comprehensive_report(state)]. *)
Definition generate_comprehensive_report (st : state) : result summary :=
  let ts := trust_score_value st in
  let final_score := final_score_of ts f0_0 in
  let component_breakdown := breakdown_of ts in
  let component_results := results_of ts in
  n_google <- py_len (BrandTrustScorer.get_or (google_reviews (data st)) (PList [])) ;;
  n_reddit <- py_len (BrandTrustScorer.get_or (reddit_reviews (data st)) (PList [])) ;;
  let has_website := truthy (BrandTrustScorer.get_or (website_trust_data (data st)) (PDict [])) in
  ds <- details component_results
          [ ("ratings", "55%"); ("business_legitimacy", "10%");
            ("review_sentiment", "20%"); ("social_media", "10%");
            ("customer_support", "5%") ] ;;
  Ok (mk_summary (brand_name st) final_score (interpretation_of ts)
        (n_google, n_reddit, has_website)
        component_breakdown ds
        (strengths component_breakdown) (concerns component_breakdown)
        (match collection_status st with Some cs => cs | None => [] end)
        ts None).

End ReportGenerator.

(* ================================================================== *)
(** ** The orchestrator *)
(* ================================================================== *)

(** What a collector node does when it is run: it returns its payload or
    it raises. *)
Inductive collector_result : Type :=
| Fetched (payload : pyval)
| Crashed (message : string).

(** The world outside the core: the three collector nodes, and the
    scorer [BrandTrustScorer()] builds from the environment. *)
Record environment : Type := mk_environment {
  scrape_google_reviews_node : state -> collector_result;
  scrape_reddit_reviews_node : state -> collector_result;
  analyze_brand_website_node : state -> collector_result;
  make_scorer : BrandTrustScorer.scorer
}.

(** What [analyze_brand] returns: the final state, or the record of its
    [except] branch, [{"brand_name", "error", "trust_score":
    {"final_score": 0.0, "error"}}]. *)
Inductive run_result : Type :=
| Finished (final_state : state)
| Aborted (brand : pyval) (e : exn).

Module BrandAnalyzer.

Definition pending_status : list (string * string) :=
  [ ("google_reviews", "pending"); ("reddit_reviews", "pending");
    ("website_analysis", "pending") ].

(** [validate_input_node(state)]. *)
Definition validate_input_node (st : state) : state :=
  let errors := if negb (truthy (brand_name st)) then [BrandNameRequired] else [] in
  mk_state (brand_name st) (twitter_handle st) (website st)
    (mk_collected (Some (PList [])) (Some (PList [])) (Some (PDict [])))
    (trust_score_value st) (final_report st)
    (Some pending_status) (Some errors).

(** [status[key] = value] on the status dict. *)
Fixpoint status_set (cs : list (string * string)) (k v : string) : list (string * string) :=
  match cs with
  | [] => [(k, v)]
  | (k', v') :: cs' =>
      if String.eqb k k' then (k', v) :: cs' else (k', v') :: status_set cs' k v
  end.

(** One collection task: the payload (or the empty default) and the
    status text. *)
Definition task (r : collector_result) (empty : pyval) : pyval * string :=
  match r with
  | Fetched payload => (payload, "completed")
  | Crashed message => (empty, "failed: " ++ message)
  end.

(** [parallel_data_collection_node(state)].  The three tasks write
    distinct keys, so the order in which they complete does not show. *)
Definition parallel_data_collection_node (env : environment) (st : state)
  : result state :=
  match errors st, collection_status st with
  | Some errs, Some status =>
      match errs with
      | _ :: _ => Ok st
      | [] =>
          let g := task (scrape_google_reviews_node env st) (PList []) in
          let r := task (scrape_reddit_reviews_node env st) (PList []) in
          let w := task (analyze_brand_website_node env st) (PDict []) in
          let status' :=
            status_set (status_set (status_set status "google_reviews" (snd g))
                          "reddit_reviews" (snd r))
              "website_trust_data" (snd w) in
          Ok (mk_state (brand_name st) (twitter_handle st) (website st)
                (mk_collected (Some (fst g)) (Some (fst r)) (Some (fst w)))
                (trust_score_value st) (final_report st)
                (Some status') (errors st))
      end
  | _, _ => Raise KeyError
  end.

(** [trust_scoring_node(state)]. *)
Definition trust_scoring_node (env : environment) (st : state) : result state :=
  match BrandTrustScorer.calculate_trust_score (make_scorer env) (data st) with
  | Ok t =>
      Ok (mk_state (brand_name st) (twitter_handle st) (website st) (data st)
            (Some (Scored t)) (final_report st) (collection_status st) (errors st))
  | Raise e =>
      match errors st with
      | Some errs =>
          Ok (mk_state (brand_name st) (twitter_handle st) (website st) (data st)
                (Some (ScoringError e)) (final_report st) (collection_status st)
                (Some (errs ++ [TrustScoringFailed e])%list))
      | None => Raise KeyError
      end
  end.

(** [trust_score] is a non-empty dict in both of its shapes. *)
Definition summary_of (ts : option trust_score_entry)
  : option (float * list (string * breakdown_entry) * dict) :=
  match ts with
  | Some _ =>
      Some (final_score_of ts f0_0, ReportGenerator.breakdown_of ts,
            ReportGenerator.results_of ts)
  | None => None
  end.

(** The name of the saved file: [state['brand_name'].lower().replace(' ',
    '_')] and the suffix. *)
Definition filename (brand : pyval) : result string :=
  match brand with
  | PStr s =>
      Ok (string_of_list_ascii
            (map (fun c => if Ascii.eqb c " " then "_"%char else lower c)
                 (list_ascii_of_string s)) ++ "_analysis.json")
  | _ => Raise AttributeError
  end.

(** The counts of ["complete_analysis_data"]: products, reviews
    collected, posts.  The subreddit names go through a [set], which needs
    them hashable. *)
Definition count_reviews (total : Z) (product : pyval) : result Z :=
  reviews <- py_get product "reviews" (PList []) ;;
  n <- py_len reviews ;;
  Ok (total + n).

Definition check_subreddit (u : unit) (r : pyval) : result unit :=
  s <- py_get r "subreddit" PNone ;;
  if truthy s then
    match s with
    | PList _ => Raise TypeError
    | PDict _ => Raise TypeError
    | _ => Ok tt
    end
  else Ok tt.

Definition complete_analysis_data (d : collected) : result (Z * Z * Z) :=
  let google := BrandTrustScorer.get_or (google_reviews d) (PList []) in
  let reddit := BrandTrustScorer.get_or (reddit_reviews d) (PList []) in
  total_products <- py_len google ;;
  products <- py_iter google ;;
  total_reviews <- for_each count_reviews products 0 ;;
  total_posts <- py_len reddit ;;
  posts <- py_iter reddit ;;
  _ <- for_each check_subreddit posts tt ;;
  Ok (total_products, total_reviews, total_posts).

(** [generate_report_node(state)].  Writing the file cannot fail the
    node ([save_json_files] catches what it raises) and is not modelled. *)
Definition generate_report_node (st : state) : result state :=
  let '(final_report, st') :=
    match ReportGenerator.generate_comprehensive_report st with
    | Ok s =>
        (FullReport
           (mk_summary (summary_brand_name s) (overall_score s) (recommendation s)
              (data_sources_analyzed s) (component_scores s)
              (detailed_component_analysis s) (key_strengths s) (areas_of_concern s)
              (data_collection_status s) (trust_score_details s)
              (summary_of (trust_score_value st))),
         st)
    | Raise e =>
        (DegradedReport e (brand_name st) (trust_score_value st),
         mk_state (brand_name st) (twitter_handle st) (website st) (data st)
           (trust_score_value st) (final_report st) (collection_status st)
           (Some ((match errors st with Some errs => errs | None => [] end)
                    ++ [ReportGenerationFailed e])%list))
    end in
  _ <- filename (brand_name st') ;;
  _ <- complete_analysis_data (data st') ;;
  Ok (mk_state (brand_name st') (twitter_handle st') (website st') (data st')
        (trust_score_value st') (Some final_report) (collection_status st')
        (errors st')).

Definition initial_state (brand twitter site : pyval) : state :=
  mk_state brand twitter site (mk_collected None None None) None None None None.

(** [analyze_brand(brand_name, twitter_handle, website)]. *)
Definition analyze_brand (env : environment) (brand twitter site : pyval)
  : run_result :=
  let st0 := validate_input_node (initial_state brand twitter site) in
  match
    (st1 <- parallel_data_collection_node env st0 ;;
     st2 <- trust_scoring_node env st1 ;;
     generate_report_node st2)
  with
  | Ok final_state => Finished final_state
  | Raise e => Aborted brand e
  end.

(** The final score a caller reads from the result:
    [result["trust_score"]["final_score"]]. *)
Definition result_final_score (r : run_result) : float :=
  match r with
  | Finished st => final_score_of (trust_score_value st) f0_0
  | Aborted _ _ => f0_0
  end.

End BrandAnalyzer.

Import BrandTrustScorer.

(* ================================================================== *)
(** ** Vocabulary of the statements *)
(* ================================================================== *)

(** *** Values of doubles, in integers *)

(** A finite float that fits the significand and the least exponent of
    binary64.  Every result of a rounding is shaped, and so is every
    double. *)
Definition shaped (x : float) : Prop :=
  match x with
  | S754_finite _ m e => Zdigits2 (Zpos m) <= 53 /\ -1074 <= e
  | _ => True
  end.

(** A non-negative float whose value is at most [B] units of 2^-1074. *)
Definition nonneg_le (x : float) (B : Z) : Prop :=
  match x with
  | S754_zero false => 0 <= B
  | S754_finite false m e => -1074 <= e /\ Zpos m * 2 ^ (e + 1074) <= B
  | _ => False
  end.

(** The value of a positive finite float in units of 2^-1074. *)
Definition exact_units (w : float) : Z :=
  match w with
  | S754_finite false m e => Zpos m * 2 ^ (e + 1074)
  | _ => 0
  end.

(** One unit of 2^-1074 in units of 2^-2200, and 1.0 in units of
    2^-1074. *)
Definition units_ratio : Z := 2 ^ 1126.

Definition one_unit : Z := 2 ^ 1074.

(** A bound, in units of 2^-1074, on the float that one rounding makes of
    an exact value of [X] units of 2^-2200: a relative error of 2^-52 and
    one unit for the subnormal range. *)
Definition round_bound (X : Z) : Z := (X + X / 2 ^ 52 + units_ratio) / units_ratio.

(** The exact values the bounds are applied to stay below this many units
    of 2^-2200, far from overflow. *)
Definition exact_limit : Z := 2 ^ 2264.

(** Ten, in units of 2^-1074. *)
Definition ten_units : Z := 10 * one_unit.

(** The bounds that follow a clamped score through one product and one
    addition, and through the whole weighted sum of the table. *)
Definition term_bound (w : float) : Z := round_bound (ten_units * exact_units w * 2 ^ 52).

Definition sum_bound (acc t : Z) : Z := round_bound ((acc + t) * units_ratio).

Definition final_bound : Z :=
  fold_left (fun acc cw => sum_bound acc (term_bound (snd cw))) weights 0.

Definition f5_8 : float := Eval vm_compute in float_of_decimal false 58 (-1).


Ltac zcompute :=
  first [ apply Z.leb_le | apply Z.ltb_lt ]; vm_compute; reflexivity.

(** *** Component results *)

(** A value [float] accepts; a float inside a record is a double. *)
Definition parseable (v : pyval) : Prop :=
  (exists f, py_float v = Ok f) /\
  match v with
  | PFloat g => is_double g
  | _ => True
  end.

(** A component result that is a record whose score field, the one the
    aggregator reads, is parseable when it is there. *)
Definition record_with_parseable_score (component : string) (r : pyval) : Prop :=
  exists d, r = PDict d /\
    (dict_has d "error" = true \/
     match dict_get d (component ++ "_score") with
     | Some v => parseable v
     | None =>
         match dict_get d "score" with
         | Some v => parseable v
         | None => True
         end
     end).

(** A component result that carries the score [n] in its score field,
    under either of the two names. *)
Definition carries_score (component : string) (r : pyval) (n : Z) : Prop :=
  exists d v, r = PDict d /\ dict_has d "error" = false /\
    (dict_get d (component ++ "_score") = Some v \/
     (dict_get d (component ++ "_score") = None /\ dict_get d "score" = Some v)) /\
    py_float v = Ok (float_of_Z n).



(** What [_fallback_scoring] returns, whatever the data. *)
Definition fallback_record : pyval := _fallback_scoring PNone.

(** *** Weight tables *)

Definition dimensions : list string :=
  ["ratings"; "business_legitimacy"; "review_sentiment"; "social_media";
   "customer_support"].

(** [0 < w <= 1]. *)
Definition weight_in_range (w : float) : bool := (flt f0_0 w && fle w f1_0)%bool.

(** [abs(sum(weights.values()) - 1.0) <= 1e-6], in floats. *)
Definition sum_within_tolerance (t : weight_table) : bool :=
  fle (SFabs (fsub (py_sum (map snd t)) f1_0)) (float_of_decimal false 1 (-6)).

(** The same for the exact values of the stored doubles: the distance of
    their sum from 1, times 10^6, is at most 1. *)
Definition exact_sum_within_tolerance (t : weight_table) : bool :=
  Z.abs (fold_right Z.add 0 (map (fun cw => exact_units (snd cw)) t) - 2 ^ 1074) * 10 ^ 6
  <=? 2 ^ 1074.

(** *** The weighted sum and its rounding *)

(** The unrounded [final_score] of [_calculate_final_score]. *)
Definition weighted_sum (cs : dict) (ws : weight_table) : result float :=
  scores <- extract_scores cs ws ;;
  Ok (py_sum (weighted_terms scores ws)).

(** Following the specification's words, not the source: the integer
    nearest to [m * 2^e], a half going up. *)
Definition half_up_scaled (m : Z) (e : Z) : Z :=
  match e with
  | Zneg k => (2 * m + Z.pow_pos 2 k) / (2 * Z.pow_pos 2 k)
  | _ => m * 2 ^ e
  end.

(** Following the specification's words, not the source: rounding to
    [ndigits] decimals, a half going away from zero. *)
Definition spec_round_half_up (x : float) (ndigits : positive) : float :=
  match x with
  | S754_finite s m e =>
      match half_up_scaled (Zpos m * Zpos (Pos.pow 10 ndigits)) e with
      | Zpos q => fdiv (S754_finite s q 0) (S754_finite false (Pos.pow 10 ndigits) 0)
      | _ => S754_zero s
      end
  | _ => x
  end.

(** The claim of half-up rounding, as the specification states it. *)
Definition half_up_claim : Prop :=
  forall cs t final,
    _calculate_final_score cs weights = Ok t ->
    weighted_sum cs weights = Ok final ->
    final_score t = spec_round_half_up final 1.

(** [q] tenths is a nearest decimal of [m * 2^e]: twice the distance between
    [10 * m * 2^e] and [q] is at most 1, and when it is 1 (a tie) [q] is
    even.  Both sides are scaled by a power of two that clears the
    denominator. *)
Definition nearest_tenth_ties_even (m : positive) (e : Z) (q : Z) : Prop :=
  let k := Z.max 0 (- e) in
  let twice_err := Z.abs (20 * Zpos m * 2 ^ (e + k) - 2 * q * 2 ^ k) in
  twice_err <= 2 ^ k /\ (twice_err = 2 ^ k -> Z.even q = true).

(** Scores 0, 0, 0, 0 and 5: the weighted sum is exactly 0.25. *)
Definition half_tie_input : dict :=
  [ ("ratings", PDict [("ratings_score", PInt 0)]);
    ("business_legitimacy", PDict [("business_legitimacy_score", PInt 0)]);
    ("review_sentiment", PDict [("review_sentiment_score", PInt 0)]);
    ("social_media", PDict [("social_media_score", PInt 0)]);
    ("customer_support", PDict [("customer_support_score", PInt 5)]) ].

(** Scores 9, 8, 7, 6 and 5, under both field names and as an integer, a
    float and a numeric string. *)
Definition boundary_input : dict :=
  [ ("ratings", PDict [("ratings_score", PInt 9)]);
    ("business_legitimacy", PDict [("business_legitimacy_score", PFloat (float_of_Z 8))]);
    ("review_sentiment", PDict [("score", PInt 7)]);
    ("social_media", PDict [("social_media_score", PStr "6")]);
    ("customer_support", PDict [("customer_support_score", PInt 5)]) ].

(** *** Responses of the reasoning service *)

(** Texts with double quotes are written with ['] in their place. *)
Definition q (s : string) : string :=
  string_of_list_ascii
    (map (fun c => if Ascii.eqb c "'" then "034"%char else c) (list_ascii_of_string s)).





(** A service that answers every call with the same text. *)
Definition answers (text : string) : service := fun _ _ => Responded text.



(** A flat record and a nested record, each cut before its last closing
    brace. *)
Definition truncated_flat : string := q "{'a':1,'b':2".

Definition truncated_nested : string := q "{'a':{'b':1}".



(** *** Collected data and runs *)

(** One product with one review of more than ten characters. *)
Definition one_review : pyval :=
  PList [PDict [("reviews",
                 PList [PDict [("content", PStr "Great product, works well");
                               ("rating", PInt 5)]])]].

Definition one_review_state : collected :=
  mk_collected (Some one_review) (Some (PList [])) (Some (PDict [])).

(** The data of a state on which no collector has run. *)
Definition empty_state : collected :=
  mk_collected (Some (PList [])) (Some (PList [])) (Some (PDict [])).


(** An environment whose reasoning service answers every call with an
    empty text. *)
Definition silent_env : environment :=
  mk_environment (fun _ => Fetched (PList [])) (fun _ => Fetched (PList []))
                 (fun _ => Fetched (PDict [])) (Some (answers "")).

(** An environment with no reasoning service configured. *)
Definition offline_env : environment :=
  mk_environment (fun _ => Fetched (PList [])) (fun _ => Fetched (PList []))
                 (fun _ => Fetched (PDict [])) None.




(** *** The extractor and the repair pass *)

(** An atom that neither opens nor closes the group. *)
Definition plain (a : Re.atom) : bool :=
  match a with
  | Re.Lit _ => true
  | Re.Star _ _ => true
  | _ => false
  end.

(** The stack of the decoder rests on an object frame. *)
Fixpoint bottom_obj (stack : list Json.frame) : bool :=
  match stack with
  | [] => false
  | f :: st =>
      match st with
      | [] => match f with Json.FObj _ _ => true | Json.FArr _ => false end
      | _ :: _ => bottom_obj st
      end
  end.

(** The states the decoder goes through once it has read an opening
    brace: inside the outer object, or done with a record. *)
Definition inside_record (m : Json.mode) (stack : list Json.frame) : Prop :=
  (bottom_obj stack = true /\ forall v, m <> Json.Done v) \/
  (stack = [] /\ exists d, m = Json.Done (PDict d)).

(** A text without a closing brace. *)
Definition no_closing_brace (text : string) : Prop :=
  ~ In "}"%char (list_ascii_of_string text).

(** A response cut before the record closes. *)
Definition unclosed_response : string := q "The score is {'ratings_score': 7, 'notes': ['a'".

(** *** Review texts *)

(** A review text that passes the filter of the extraction: more than
    ten characters once the surrounding whitespace is dropped. *)
Definition long_enough (t : review_text) : Prop :=
  (10 < List.length (strip (list_ascii_of_string (text t))))%nat.

(** *** Records and runs *)

(** A record that carries an error marker beside a full score. *)
Definition error_with_score : pyval :=
  PDict [("ratings_score", PInt 9); ("error", PStr "quota exceeded")].

(** An environment whose three collectors raise. *)
Definition crashing_env : environment :=
  mk_environment (fun _ => Crashed "quota") (fun _ => Crashed "no client")
                 (fun _ => Crashed "timeout") None.

(** The error list holds failures of the scoring and of the report
    only. *)
Definition no_validation_error (st : state) : Prop :=
  exists errs, errors st = Some errs /\ ~ In BrandNameRequired errs.

(** *** Websites, fetched products and subreddits *)

(** The points of the certificate check. *)
Definition certificate_points (p : https_probe) : Z :=
  match p with
  | Reached final_url => if String.prefix "https://" final_url then 25 else 0
  | SslFailure _ _ => 10
  | _ => 0
  end.

(** A site whose page cannot be fetched. *)
Definition unreachable_page (web : web_environment) (website : string) : Prop :=
  fetch_website_content web (Website.with_scheme website) = None \/
  fetch_website_content web (Website.with_scheme website) = Some "".

(** A web where the certificate check succeeds and no page comes back. *)
Definition blank_web : web_environment :=
  mk_web_environment (fun url => Reached url) (fun _ => None)
                     (fun _ => PDict []) (fun _ => PDict []) (fun _ => "error").


(** A page with every trust signal. *)
Definition full_trust_data : pyval :=
  PDict [ ("ssl_info", PDict [("certificate_valid", PBool true)]);
          ("contact_info", PDict [("phone", PStr "+911234567890");
                                  ("address", PStr "12 Main Road, Pune");
                                  ("email", PStr "help@acme.in")]);
          ("page_sections",
           PDict [ ("about_us", PDict [("found", PBool true)]);
                   ("privacy_policy", PDict [("found", PBool true)]);
                   ("terms", PDict [("found", PBool true)]);
                   ("support", PDict [("found", PBool true)]);
                   ("social_media", PDict [("found", PBool true)]) ]);
          ("analysis_details", PDict [("content_length", PInt 6000)]) ].

(** The reviews of a product record. *)
Definition reviews_field (product_data : pyval) : list pyval :=
  match product_data with
  | PDict d =>
      match dict_get d "reviews" with
      | Some (PList l) => l
      | _ => []
      end
  | _ => []
  end.

(** A review record whose content is a text that passes the length
    filter. *)
Definition long_review (review : pyval) : Prop :=
  exists d s, review = PDict d /\ dict_get d "content" = Some (PStr s) /\
              long_text (PStr s) = Ok (Some s).

(** A search whose results have a product without a review count. *)
Definition uncounted_search : GoogleReviews.search :=
  fun _ _ =>
    Ok (PDict [ ("product_results", PDict [("title", PStr "Acme Kettle")]);
                ("reviews_results",
                 PDict [("reviews",
                         PList [PDict [("content", PStr "Boils fast and stays quiet.");
                                       ("rating", PInt 5)]])]) ]).

(** The names found so far and their lower-case keys go together, and no
    key is there twice. *)
Definition distinct_names (seen subreddits : list string) : Prop :=
  seen = map (fun m => lower_string (list_ascii_of_string m)) subreddits /\ NoDup seen.

(** A name of a subreddit: one word character or more. *)
Definition word (m : string) : Prop :=
  m <> "" /\ forallb Reddit.is_word (list_ascii_of_string m) = true.

(** *** Weights and uniform scores *)


(** Every dimension has a record that carries the score [n]. *)
Definition uniform_scores (cs : dict) (n : Z) : Prop :=
  forall c, In c dimensions -> exists r, dict_get cs c = Some r /\ carries_score c r n.

(** A map of component results that all carry 7. *)
Definition all_sevens : dict :=
  [ ("ratings", PDict [("ratings_score", PInt 7)]);
    ("business_legitimacy", PDict [("score", PInt 7)]);
    ("review_sentiment", PDict [("review_sentiment_score", PStr "7")]);
    ("social_media", PDict [("social_media_score", PInt 7)]);
    ("customer_support", PDict [("customer_support_score", PInt 7)]) ].

(* ================================================================== *)
(** ** Rounding in binary64 *)
(* ================================================================== *)

(** *** Shifting and digit counts *)

Lemma shr_1_m (mrs : shr_record) :
  0 <= shr_m mrs -> shr_m (shr_1 mrs) = shr_m mrs / 2.
Proof.
  destruct mrs as [m r s]; simpl; intros Hm.
  destruct m as [|p|p]; try lia; try reflexivity.
  destruct p as [p|p|]; simpl.
  - rewrite Pos2Z.inj_xI. apply Z.div_unique with (r := 1); lia.
  - rewrite Pos2Z.inj_xO. apply Z.div_unique with (r := 0); lia.
  - reflexivity.
Qed.

Lemma shr_1_nonneg (mrs : shr_record) : 0 <= shr_m mrs -> 0 <= shr_m (shr_1 mrs).
Proof.
  intros H. rewrite shr_1_m by assumption. apply Z.div_pos; lia.
Qed.

Lemma iter_shr_m (n : positive) :
  forall mrs, 0 <= shr_m mrs ->
    shr_m (iter_pos shr_1 n mrs) = shr_m mrs / 2 ^ Zpos n.
Proof.
  induction n as [n IH|n IH|]; intros mrs Hm; simpl iter_pos.
  - assert (H1 : 0 <= shr_m (shr_1 mrs)) by now apply shr_1_nonneg.
    assert (H2 : 0 <= shr_m (iter_pos shr_1 n (shr_1 mrs))).
    { rewrite IH by assumption. apply Z.div_pos; lia. }
    rewrite IH, IH, shr_1_m by assumption.
    rewrite !Z.div_div by lia.
    f_equal. change (Zpos n~1) with (1 + Zpos n + Zpos n) || idtac.
    replace (Zpos n~1) with (1 + Zpos n + Zpos n) by lia.
    rewrite !Z.pow_add_r by lia. lia.
  - assert (H2 : 0 <= shr_m (iter_pos shr_1 n mrs)).
    { rewrite IH by assumption. apply Z.div_pos; lia. }
    rewrite IH, IH by assumption.
    rewrite Z.div_div by lia.
    f_equal.
    replace (Zpos n~0) with (Zpos n + Zpos n) by lia.
    rewrite Z.pow_add_r by lia. lia.
  - rewrite shr_1_m by assumption. reflexivity.
Qed.

(** The mantissa after [shr]: a floor division. *)
Lemma shr_m_spec (mrs : shr_record) (e n : Z) :
  0 <= shr_m mrs ->
  shr_m (fst (shr mrs e n)) = shr_m mrs / 2 ^ Z.max 0 n /\
  snd (shr mrs e n) = e + Z.max 0 n.
Proof.
  intros Hm. destruct n as [|p|p]; simpl.
  - rewrite Z.div_1_r. split; [reflexivity | lia].
  - rewrite iter_shr_m by assumption. split; reflexivity.
  - rewrite Z.div_1_r. split; [reflexivity | lia].
Qed.

Lemma shr_record_of_loc_m (m : Z) (l : location) : shr_m (shr_record_of_loc m l) = m.
Proof. destruct l as [|[| |]]; reflexivity. Qed.

Lemma digits2_bounds (p : positive) :
  2 ^ (Zpos (digits2_pos p) - 1) <= Zpos p < 2 ^ Zpos (digits2_pos p).
Proof.
  induction p as [p IH|p IH|]; simpl digits2_pos.
  - rewrite Pos2Z.inj_succ.
    replace (Z.succ (Zpos (digits2_pos p)) - 1) with (Z.succ (Zpos (digits2_pos p) - 1)) by lia.
    rewrite !Z.pow_succ_r by lia. lia.
  - rewrite Pos2Z.inj_succ.
    replace (Z.succ (Zpos (digits2_pos p)) - 1) with (Z.succ (Zpos (digits2_pos p) - 1)) by lia.
    rewrite !Z.pow_succ_r by lia. lia.
  - simpl. lia.
Qed.

Lemma Zdigits2_bounds (m : Z) :
  0 < m -> 2 ^ (Zdigits2 m - 1) <= m < 2 ^ Zdigits2 m.
Proof.
  destruct m as [|p|p]; try lia. intros _. apply digits2_bounds.
Qed.

Lemma Zdigits2_nonneg (m : Z) : 0 <= Zdigits2 m.
Proof. destruct m; simpl; lia. Qed.

Lemma Zdigits2_pos (m : Z) : 0 < m -> 0 < Zdigits2 m.
Proof. destruct m; simpl; lia. Qed.

(** [m < 2^k] bounds the digit count by [k]. *)
Lemma Zdigits2_le (m k : Z) : 0 <= k -> 0 <= m < 2 ^ k -> Zdigits2 m <= k.
Proof.
  intros Hk [Hm Hlt].
  destruct (Z.eq_dec m 0) as [->|Hne]; [simpl; lia|].
  assert (H := Zdigits2_bounds m ltac:(lia)).
  destruct (Z_le_gt_dec (Zdigits2 m) k) as [|Hgt]; [assumption|exfalso].
  assert (2 ^ k <= 2 ^ (Zdigits2 m - 1)) by (apply Z.pow_le_mono_r; lia).
  lia.
Qed.

(** Dropping [n] low bits drops [n] digits. *)
Lemma Zdigits2_div (m n : Z) :
  0 < m -> 0 <= n -> Zdigits2 (m / 2 ^ n) <= Z.max 0 (Zdigits2 m - n).
Proof.
  intros Hm Hn.
  assert (H := Zdigits2_bounds m Hm).
  assert (Hd := Zdigits2_pos m Hm).
  destruct (Z_le_gt_dec (Zdigits2 m) n) as [Hle|Hgt].
  - assert (m / 2 ^ n = 0) as ->.
    { apply Z.div_small. split; [lia|].
      assert (2 ^ Zdigits2 m <= 2 ^ n) by (apply Z.pow_le_mono_r; lia). lia. }
    simpl. lia.
  - rewrite Z.max_r by lia.
    apply Zdigits2_le; [lia|]. split.
    + apply Z.div_pos; [lia|]. apply Z.pow_pos_nonneg; lia.
    + apply Z.div_lt_upper_bound; [apply Z.pow_pos_nonneg; lia|].
      rewrite <- Z.pow_add_r by lia.
      replace (n + (Zdigits2 m - n)) with (Zdigits2 m) by lia. lia.
Qed.

Lemma pow2_le_inv (a b : Z) : 0 <= b -> 2 ^ a <= 2 ^ b -> a <= b.
Proof.
  intros Hb H. destruct (Z_le_gt_dec a b) as [|Hgt]; [assumption|exfalso].
  assert (2 ^ b < 2 ^ a) by (apply Z.pow_lt_mono_r; lia). lia.
Qed.

Lemma pow2_split (a b : Z) : 0 <= a -> 0 <= b -> 2 ^ (a + b) = 2 ^ a * 2 ^ b.
Proof. intros; apply Z.pow_add_r; assumption. Qed.

(** *** The rounding step of the float operations *)

Lemma fexp_eq (e : Z) : fexp prec emax e = Z.max (e - 53) (-1074).
Proof. reflexivity. Qed.

Lemma shr_fexp_spec (m e : Z) (l : location) :
  0 <= m ->
  let n := fexp prec emax (Zdigits2 m + e) - e in
  shr_m (fst (shr_fexp prec emax m e l)) = m / 2 ^ Z.max 0 n /\
  snd (shr_fexp prec emax m e l) = e + Z.max 0 n.
Proof.
  intros Hm n. unfold shr_fexp. fold n.
  destruct (shr_m_spec (shr_record_of_loc m l) e n) as [H1 H2].
  - now rewrite shr_record_of_loc_m.
  - rewrite shr_record_of_loc_m in H1. split; assumption.
Qed.

Lemma round_nearest_even_bounds (m : Z) (l : location) :
  m <= round_nearest_even m l <= m + 1.
Proof.
  destruct l as [|[| |]]; simpl; try lia.
  destruct (Z.even m); lia.
Qed.

Lemma shr_fexp_exact_noshift (m e : Z) :
  fexp prec emax (Zdigits2 m + e) - e <= 0 ->
  shr_fexp prec emax m e loc_Exact = (Build_shr_record m false false, e).
Proof.
  intros H. unfold shr_fexp, shr.
  destruct (fexp prec emax (Zdigits2 m + e) - e); try reflexivity. lia.
Qed.

(** Whatever goes in, a finite result has at most 53 digits and an
    exponent of at least -1074. *)
Lemma binary_round_aux_shaped (sx : bool) (mx ex : Z) (lx : location) :
  0 <= mx -> shaped (binary_round_aux prec emax sx mx ex lx).
Proof.
  intros Hmx. unfold binary_round_aux.
  destruct (shr_fexp prec emax mx ex lx) as [mrs1 e1] eqn:E1.
  pose proof (shr_fexp_spec mx ex lx Hmx) as [Hm1 _]. rewrite E1 in Hm1; cbn [fst snd] in Hm1.
  set (m2 := round_nearest_even (shr_m mrs1) (loc_of_shr_record mrs1)).
  assert (Hm2 : 0 <= m2).
  { pose proof (round_nearest_even_bounds (shr_m mrs1) (loc_of_shr_record mrs1)).
    assert (0 <= shr_m mrs1) by (rewrite Hm1; apply Z.div_pos; [lia|apply Z.pow_pos_nonneg; lia]).
    unfold m2; lia. }
  destruct (shr_fexp prec emax m2 e1 loc_Exact) as [mrs2 e2] eqn:E2.
  pose proof (shr_fexp_spec m2 e1 loc_Exact Hm2) as [Hm3 He3].
  rewrite E2 in Hm3, He3; cbn [fst snd] in Hm3, He3.
  destruct (shr_m mrs2) as [|m3|m3] eqn:E3; simpl; trivial.
  destruct (e2 <=? 971); simpl; trivial.
  change (Z.pos (digits2_pos m3)) with (Zdigits2 (Z.pos m3)).
  rewrite fexp_eq in Hm3, He3.
  set (d2 := Zdigits2 m2) in *.
  assert (Hpos : 0 < m2).
  { destruct (Z.eq_dec m2 0) as [Hz|]; [|lia].
    rewrite Hz in Hm3. rewrite Z.div_0_l in Hm3; [lia|].
    apply Z.pow_nonzero; lia. }
  destruct (Z_le_gt_dec (Z.max (d2 + e1 - 53) (-1074) - e1) 0) as [Hle|Hgt].
  - rewrite Z.max_l in Hm3, He3 by lia.
    rewrite Z.pow_0_r, Z.div_1_r in Hm3. rewrite Hm3. fold d2. lia.
  - rewrite Z.max_r in Hm3, He3 by lia.
    pose proof (Zdigits2_div m2 (Z.max (d2 + e1 - 53) (-1074) - e1) Hpos ltac:(lia)) as Hd.
    rewrite <- Hm3 in Hd. fold d2 in Hd. lia.
Qed.

Lemma units_ratio_pos : 0 < units_ratio.
Proof. apply Z.pow_pos_nonneg; [reflexivity|discriminate]. Qed.

Lemma pow2_units (a : Z) : 0 <= a -> 2 ^ (a + 1126) = 2 ^ a * units_ratio.
Proof. intros H. apply Z.pow_add_r; [exact H|discriminate]. Qed.

Lemma units_ratio_le_limit : units_ratio <= exact_limit.
Proof. apply Z.pow_le_mono_r; [reflexivity|discriminate]. Qed.

Lemma four_limits : 2 ^ 2266 = 4 * exact_limit.
Proof.
  change 2266 with (2 + 2264). unfold exact_limit.
  rewrite Z.pow_add_r; [reflexivity|discriminate|discriminate].
Qed.

Lemma round_bound_mono (X Y : Z) : X <= Y -> round_bound X <= round_bound Y.
Proof.
  intros H. unfold round_bound.
  apply Z.div_le_mono; [exact units_ratio_pos|].
  assert (X / 2 ^ 52 <= Y / 2 ^ 52) by (apply Z.div_le_mono; [apply Z.pow_pos_nonneg; lia|lia]).
  lia.
Qed.

Lemma round_bound_ge (X : Z) : 0 <= X -> X / units_ratio <= round_bound X.
Proof.
  intros HX. unfold round_bound.
  apply Z.div_le_mono; [exact units_ratio_pos|].
  assert (0 <= X / 2 ^ 52) by (apply Z.div_pos; [lia|apply Z.pow_pos_nonneg; lia]).
  pose proof units_ratio_pos. lia.
Qed.

(** A positive exact value of [X] units of 2^-2200, far from overflow,
    rounds to a float of at most [round_bound X] units of 2^-1074. *)
Lemma binary_round_aux_upper (p : positive) (ex : Z) :
  -2200 <= ex ->
  Zpos p * 2 ^ (ex + 2200) <= exact_limit ->
  nonneg_le (binary_round_aux prec emax false (Zpos p) ex loc_Exact)
            (round_bound (Zpos p * 2 ^ (ex + 2200))).
Proof.
  intros Hex HX.
  pose proof units_ratio_pos as HU.
  set (X := Zpos p * 2 ^ (ex + 2200)) in *.
  assert (HXpos : 0 < X) by (unfold X; apply Z.mul_pos_pos; [lia|apply Z.pow_pos_nonneg; lia]).
  assert (HX52 : 0 <= X / 2 ^ 52) by (apply Z.div_pos; [lia|apply Z.pow_pos_nonneg; lia]).
  set (d := Zdigits2 (Zpos p)).
  assert (Hd := Zdigits2_bounds (Zpos p) ltac:(lia)). fold d in Hd.
  assert (Hdpos : 0 < d) by (apply Zdigits2_pos; lia).
  (* the exponents are small *)
  assert (Hde : d + ex <= 65).
  { assert (H : 2 ^ (d - 1 + (ex + 2200)) <= exact_limit).
    { rewrite pow2_split by lia.
      apply Z.le_trans with X; [|assumption]. unfold X.
      apply Z.mul_le_mono_nonneg_r; [apply Z.pow_nonneg; lia|lia]. }
    unfold exact_limit in H. apply pow2_le_inv in H; [|discriminate].
    clear HX. lia. }
  unfold binary_round_aux.
  set (n1 := fexp prec emax (d + ex) - ex).
  assert (Hn1 : n1 = Z.max (d + ex - 53) (-1074) - ex) by (unfold n1; now rewrite fexp_eq).
  destruct (shr_fexp prec emax (Zpos p) ex loc_Exact) as [mrs1 e1] eqn:E1.
  pose proof (shr_fexp_spec (Zpos p) ex loc_Exact ltac:(lia)) as [Hm1 He1].
  rewrite E1 in Hm1, He1; cbn [fst snd] in Hm1, He1. fold d in Hm1, He1. fold n1 in Hm1, He1.
  set (m2 := round_nearest_even (shr_m mrs1) (loc_of_shr_record mrs1)).
  (* the value after the first shift and the rounding *)
  assert (Hm2 : 0 <= m2 /\ m2 * 2 ^ (e1 + 2200) <= X + X / 2 ^ 52 + units_ratio).
  { destruct (Z_le_gt_dec n1 0) as [Hle|Hgt].
    - rewrite shr_fexp_exact_noshift in E1 by (fold d; fold n1; lia).
      injection E1 as <- <-. unfold m2.
      cbn [round_nearest_even loc_of_shr_record shr_m]. fold X.
      split; [lia|]. lia.
    - rewrite Z.max_r in Hm1, He1 by lia.
      assert (H1 : 0 <= shr_m mrs1) by (rewrite Hm1; apply Z.div_pos; [lia|apply Z.pow_pos_nonneg; lia]).
      pose proof (round_nearest_even_bounds (shr_m mrs1) (loc_of_shr_record mrs1)) as Hr.
      fold m2 in Hr. split; [lia|].
      assert (Hfloor : shr_m mrs1 * 2 ^ (e1 + 2200) <= X).
      { rewrite He1. replace (ex + n1 + 2200) with (n1 + (ex + 2200)) by lia.
        rewrite pow2_split by lia. rewrite Z.mul_assoc. unfold X.
        apply Z.mul_le_mono_nonneg_r; [apply Z.pow_nonneg; lia|].
        rewrite Hm1, Z.mul_comm. apply Z.mul_div_le. apply Z.pow_pos_nonneg; lia. }
      assert (Hulp : 2 ^ (e1 + 2200) <= X / 2 ^ 52 + units_ratio).
      { destruct (Z_le_gt_dec (d + ex - 53) (-1074)) as [Hs|Hn].
        - replace (e1 + 2200) with 1126 by lia. fold units_ratio. lia.
        - assert (e1 = d + ex - 53) by lia.
          assert (2 ^ (e1 + 2200) <= X / 2 ^ 52); [|lia].
          apply Z.div_le_lower_bound; [apply Z.pow_pos_nonneg; lia|].
          rewrite <- pow2_split by lia.
          replace (52 + (e1 + 2200)) with (d - 1 + (ex + 2200)) by lia.
          rewrite pow2_split by lia. unfold X.
          apply Z.mul_le_mono_nonneg_r; [apply Z.pow_nonneg; lia|lia]. }
      assert (0 < 2 ^ (e1 + 2200)) by (apply Z.pow_pos_nonneg; lia).
      nia. }
  destruct Hm2 as [Hm2 Hv2].
  assert (He1lo : Z.max ex (-1074) <= e1 <= 65) by lia.
  destruct (shr_fexp prec emax m2 e1 loc_Exact) as [mrs2 e2] eqn:E2.
  pose proof (shr_fexp_spec m2 e1 loc_Exact Hm2) as [Hm3 He3].
  rewrite E2 in Hm3, He3; cbn [fst snd] in Hm3, He3.
  rewrite fexp_eq in Hm3, He3.
  set (n2 := Z.max (Zdigits2 m2 + e1 - 53) (-1074) - e1) in *.
  assert (Hbig : X + X / 2 ^ 52 + units_ratio <= 4 * exact_limit).
  { assert (X / 2 ^ 52 <= X).
    { apply Z.div_le_upper_bound; [apply Z.pow_pos_nonneg; lia|].
      assert (1 <= 2 ^ 52) by (apply Z.lt_pred_le, Z.pow_pos_nonneg; lia). nia. }
    pose proof units_ratio_le_limit. lia. }
  (* the value after the second shift *)
  assert (Hv3 : shr_m mrs2 * 2 ^ (e2 + 2200) <= m2 * 2 ^ (e1 + 2200)).
  { rewrite He3. replace (e1 + Z.max 0 n2 + 2200) with (Z.max 0 n2 + (e1 + 2200)) by lia.
    rewrite pow2_split by lia. rewrite Z.mul_assoc.
    apply Z.mul_le_mono_nonneg_r; [apply Z.pow_nonneg; lia|].
    rewrite Hm3, Z.mul_comm. apply Z.mul_div_le. apply Z.pow_pos_nonneg; lia. }
  assert (He2 : e2 <= 971).
  { destruct (Z.eq_dec m2 0) as [Hz|Hnz].
    - unfold n2 in He3. rewrite Hz in He3. simpl Zdigits2 in He3. lia.
    - assert (Hdm := Zdigits2_bounds m2 ltac:(lia)).
      assert (Hdmpos := Zdigits2_pos m2 ltac:(lia)).
      assert (H : 2 ^ (Zdigits2 m2 - 1 + (e1 + 2200)) <= 2 ^ 2266).
      { rewrite four_limits. rewrite pow2_split by lia.
        apply Z.le_trans with (m2 * 2 ^ (e1 + 2200)); [|lia].
        apply Z.mul_le_mono_nonneg_r; [apply Z.pow_nonneg; lia|lia]. }
      apply pow2_le_inv in H; [|discriminate].
      clear HX Hbig Hv2 Hv3. lia. }
  destruct (shr_m mrs2) as [|m3|m3] eqn:E3.
  - cbn [nonneg_le]. unfold round_bound. apply Z.div_pos; [|exact HU]. lia.
  - replace (e2 <=? emax - prec) with true by (symmetry; apply Z.leb_le; unfold emax, prec; lia).
    cbn [nonneg_le]. split; [lia|].
    unfold round_bound. apply Z.div_le_lower_bound; [exact HU|].
    replace (units_ratio * (Z.pos m3 * 2 ^ (e2 + 1074))) with (Z.pos m3 * 2 ^ (e2 + 2200)).
    + lia.
    + replace (e2 + 2200) with (e2 + 1074 + 1126) by lia.
      rewrite pow2_units by lia. ring.
  - exfalso.
    assert (0 <= m2 / 2 ^ Z.max 0 n2) by (apply Z.div_pos; [lia|apply Z.pow_pos_nonneg; lia]).
    lia.
Qed.

Lemma nonneg_le_mono (x : float) (B B' : Z) :
  nonneg_le x B -> B <= B' -> nonneg_le x B'.
Proof.
  destruct x as [[|]|[|]| |[|] m e]; cbn [nonneg_le]; try tauto; lia.
Qed.

Lemma nonneg_le_nonneg (x : float) (B : Z) : nonneg_le x B -> 0 <= B.
Proof.
  destruct x as [[|]|[|]| |[|] m e]; cbn [nonneg_le]; try tauto.
  intros [He Hv].
  assert (0 < 2 ^ (e + 1074)) by (apply Z.pow_pos_nonneg; lia). nia.
Qed.

(** *** Multiplication and addition of bounded floats *)

Lemma fmul_nonneg_le (x y : float) (Bx By : Z) :
  nonneg_le x Bx -> nonneg_le y By ->
  Bx * By * 2 ^ 52 <= exact_limit ->
  nonneg_le (fmul x y) (round_bound (Bx * By * 2 ^ 52)).
Proof.
  intros Hx Hy HB.
  assert (HBx := nonneg_le_nonneg _ _ Hx). assert (HBy := nonneg_le_nonneg _ _ Hy).
  assert (H52 : 0 < 2 ^ 52) by (apply Z.pow_pos_nonneg; lia).
  assert (Hrb : 0 <= round_bound (Bx * By * 2 ^ 52)).
  { apply Z.le_trans with (Bx * By * 2 ^ 52 / units_ratio).
    - apply Z.div_pos; [nia|exact units_ratio_pos].
    - apply round_bound_ge. nia. }
  destruct x as [[|]|[|]| |[|] mx ex]; cbn [nonneg_le] in Hx; try tauto;
  destruct y as [[|]|[|]| |[|] my ey]; cbn [nonneg_le] in Hy; try tauto;
  try exact Hrb.
  destruct Hx as [Hex Hvx], Hy as [Hey Hvy].
  unfold fmul, SFmul. cbn [xorb].
  assert (Hpx : 0 < 2 ^ (ex + 1074)) by (apply Z.pow_pos_nonneg; lia).
  assert (Hpy : 0 < 2 ^ (ey + 1074)) by (apply Z.pow_pos_nonneg; lia).
  assert (HX : Zpos (mx * my) * 2 ^ (ex + ey + 2200) <= Bx * By * 2 ^ 52).
  { replace (ex + ey + 2200) with ((ex + 1074) + (ey + 1074) + 52) by lia.
    rewrite (pow2_split (ex + 1074 + (ey + 1074)) 52), (pow2_split (ex + 1074) (ey + 1074)) by lia.
    rewrite Pos2Z.inj_mul.
    replace (Zpos mx * Zpos my * (2 ^ (ex + 1074) * 2 ^ (ey + 1074) * 2 ^ 52))
      with ((Zpos mx * 2 ^ (ex + 1074)) * (Zpos my * 2 ^ (ey + 1074)) * 2 ^ 52) by ring.
    apply Z.mul_le_mono_nonneg_r; [lia|].
    apply Z.mul_le_mono_nonneg; nia. }
  eapply nonneg_le_mono.
  - apply binary_round_aux_upper; lia.
  - apply round_bound_mono. exact HX.
Qed.

Lemma pos_iter_xO (d m : positive) : Zpos (Pos.iter xO m d) = Zpos m * 2 ^ Zpos d.
Proof.
  revert m. induction d as [|d IH] using Pos.peano_ind; intros m.
  - simpl. lia.
  - rewrite Pos.iter_succ, Pos2Z.inj_xO, IH, Pos2Z.inj_succ, Z.pow_succ_r by lia. ring.
Qed.

Lemma shl_align_spec (m : positive) (e e' : Z) :
  snd (shl_align m e e') = Z.min e e' /\
  Zpos (fst (shl_align m e e')) = Zpos m * 2 ^ (e - Z.min e e').
Proof.
  unfold shl_align. destruct (e' - e) as [|d|d] eqn:E; cbn [fst snd].
  - rewrite Z.min_l by lia. rewrite Z.sub_diag. simpl. split; lia.
  - rewrite Z.min_l by lia. rewrite Z.sub_diag. simpl. split; lia.
  - rewrite Z.min_r by lia. split; [reflexivity|].
    rewrite pos_iter_xO. f_equal. f_equal. lia.
Qed.

Lemma fadd_nonneg_le (x y : float) (Bx By : Z) :
  nonneg_le x Bx -> nonneg_le y By ->
  (Bx + By) * units_ratio <= exact_limit ->
  nonneg_le (fadd x y) (round_bound ((Bx + By) * units_ratio)).
Proof.
  intros Hx Hy HB.
  assert (HBx := nonneg_le_nonneg _ _ Hx). assert (HBy := nonneg_le_nonneg _ _ Hy).
  pose proof units_ratio_pos as H1126.
  assert (Hge : Bx + By <= round_bound ((Bx + By) * units_ratio)).
  { apply Z.le_trans with ((Bx + By) * units_ratio / units_ratio).
    - rewrite Z.div_mul by lia. lia.
    - apply round_bound_ge. nia. }
  destruct x as [[|]|[|]| |[|] mx ex]; cbn [nonneg_le] in Hx; try tauto;
  destruct y as [[|]|[|]| |[|] my ey]; cbn [nonneg_le] in Hy; try tauto.
  - unfold fadd, SFadd. cbn [nonneg_le]. lia.
  - unfold fadd, SFadd. eapply nonneg_le_mono; [exact Hy|lia].
  - unfold fadd, SFadd. eapply nonneg_le_mono; [exact Hx|lia].
  - destruct Hx as [Hex Hvx], Hy as [Hey Hvy].
    unfold fadd, SFadd. cbn [cond_Zopp].
    set (ez := Z.min ex ey).
    destruct (shl_align_spec mx ex ez) as [_ Hax].
    destruct (shl_align_spec my ey ez) as [_ Hay].
    rewrite (Z.min_r ex ez) in Hax by (unfold ez; lia).
    rewrite (Z.min_r ey ez) in Hay by (unfold ez; lia).
    rewrite <- Pos2Z.inj_add.
    set (mz := (fst (shl_align mx ex ez) + fst (shl_align my ey ez))%positive).
    assert (Hmz : Zpos mz = Zpos mx * 2 ^ (ex - ez) + Zpos my * 2 ^ (ey - ez)).
    { unfold mz. rewrite Pos2Z.inj_add. lia. }
    cbn [binary_normalize]. unfold binary_round.
    set (e3 := fexp prec emax (Zpos (digits2_pos mz) + ez)).
    destruct (shl_align_spec mz ez e3) as [Hs Hm].
    destruct (shl_align mz ez e3) as [m4 e4]. cbn [fst snd] in Hs, Hm.
    assert (He3 : -1074 <= e3) by (unfold e3; rewrite fexp_eq; lia).
    assert (Hez : -1074 <= ez) by (unfold ez; lia).
    assert (HX : Zpos m4 * 2 ^ (e4 + 2200) <= (Bx + By) * units_ratio).
    { rewrite Hm, Hs, Hmz.
      rewrite <- Z.mul_assoc, <- pow2_split by lia.
      replace (ez - Z.min ez e3 + (Z.min ez e3 + 2200)) with (ez + 2200) by lia.
      rewrite Z.mul_add_distr_r.
      rewrite <- !Z.mul_assoc, <- !pow2_split by (unfold ez; lia).
      replace (ex - ez + (ez + 2200)) with (ex + 1074 + 1126) by lia.
      replace (ey - ez + (ez + 2200)) with (ey + 1074 + 1126) by lia.
      rewrite (pow2_units (ex + 1074)), (pow2_units (ey + 1074)) by lia.
      rewrite !Z.mul_assoc, <- Z.mul_add_distr_r.
      apply Z.mul_le_mono_nonneg_r; lia. }
    eapply nonneg_le_mono.
    + apply binary_round_aux_upper; lia.
    + apply round_bound_mono. exact HX.
Qed.

(** *** The floats that [float] returns *)

Lemma is_double_shaped (f : float) : is_double f -> shaped f.
Proof.
  unfold is_double. destruct f as [| | |s m e]; simpl; trivial.
  unfold bounded, canonical_mantissa. intros H.
  apply andb_true_iff in H as [H _]. apply Z.eqb_eq in H.
  rewrite fexp_eq in H. lia.
Qed.

Lemma binary_normalize_shaped (z e : Z) (s : bool) :
  shaped (binary_normalize prec emax z e s).
Proof.
  destruct z as [|p|p]; cbn [binary_normalize]; [exact I| |];
  unfold binary_round;
  destruct (shl_align p e _) as [mz ez]; apply binary_round_aux_shaped; lia.
Qed.

Lemma float_of_Z_shaped (z : Z) : shaped (float_of_Z z).
Proof. apply binary_normalize_shaped. Qed.

Lemma fdiv_finite_shaped (s1 s2 : bool) (m1 m2 : positive) (e1 e2 : Z) :
  shaped (fdiv (S754_finite s1 m1 e1) (S754_finite s2 m2 e2)).
Proof.
  unfold fdiv, SFdiv, SFdiv_core_binary.
  match goal with |- context [Z.div_eucl ?a ?b] =>
    pose proof (Z_div_mod a b ltac:(lia)) as H;
    assert (Ha : 0 <= a); [|destruct (Z.div_eucl a b) as [q r]]
  end.
  - destruct (e1 - e2 - _) as [|k|k]; try lia.
    apply Z.shiftl_nonneg. lia.
  - apply binary_round_aux_shaped. destruct H as [H1 H2]. nia.
Qed.

Lemma float_of_decimal_shaped (neg : bool) (m e10 : Z) :
  shaped (float_of_decimal neg m e10).
Proof.
  unfold float_of_decimal. destruct m as [|p|p]; try exact I.
  destruct e10 as [|k|k].
  - apply binary_normalize_shaped.
  - apply binary_normalize_shaped.
  - apply fdiv_finite_shaped.
Qed.

Lemma scan_floatnumber_shaped (neg : bool) (s : list ascii) (f : float) :
  scan_floatnumber neg s = Some f -> shaped f.
Proof.
  unfold scan_floatnumber. intros H.
  repeat match type of H with
         | context [match ?x with _ => _ end] => destruct x; try discriminate
         end;
  injection H as <-; apply float_of_decimal_shaped.
Qed.

Lemma float_of_string_shaped (s : string) (f : float) :
  float_of_string s = Some f -> shaped f.
Proof.
  unfold float_of_string.
  destruct (scan_sign _) as [neg body].
  destruct (_ || _)%bool; [intros H; injection H as <-; exact I|].
  destruct (String.eqb _ _); [intros H; injection H as <-; exact I|].
  apply scan_floatnumber_shaped.
Qed.

Lemma py_float_shaped (v : pyval) (f : float) :
  match v with PFloat g => is_double g | _ => True end ->
  py_float v = Ok f -> shaped f.
Proof.
  destruct v as [|b|z|g|s|l|d]; simpl; intros Hv H; try discriminate.
  - injection H as <-. destruct b; simpl; lia.
  - pose proof (float_of_Z_shaped z) as Hs.
    destruct (float_of_Z z); try discriminate; injection H as <-; exact Hs.
  - injection H as <-. now apply is_double_shaped.
  - destruct (float_of_string s) eqn:E; try discriminate.
    injection H as <-. eapply float_of_string_shaped; eassumption.
Qed.

(** *** The clamp and the rounding to one decimal *)

Lemma SFcompare_pos (m1 m2 : positive) (e1 e2 : Z) :
  SFcompare (S754_finite false m1 e1) (S754_finite false m2 e2) =
  Some match e1 ?= e2 with
       | Lt => Lt
       | Gt => Gt
       | Eq => Pos.compare m1 m2
       end.
Proof. reflexivity. Qed.

(** The clamp leaves a value between 0 and 10, whatever float goes in:
    a NaN and [+inf] become 10.0, negative values and [-inf] become 0.0. *)
Lemma clamp_nonneg_le (f : float) :
  shaped f -> nonneg_le (py_max f0_0 (py_min f10_0 f)) ten_units.
Proof.
  assert (H10 : nonneg_le f10_0 ten_units).
  { unfold f10_0, nonneg_le, ten_units. split; [lia|zcompute]. }
  assert (H0 : nonneg_le f0_0 ten_units).
  { unfold f0_0, nonneg_le, ten_units. zcompute. }
  destruct f as [[|]|[|]| |s m e]; intros Hs.
  1-5: (vm_compute py_max; first [exact H10 | exact H0]).
  destruct s; [exact H0|].
  destruct Hs as [Hd He].
  assert (Hm : Zpos m < 2 ^ 53).
  { pose proof (Zdigits2_bounds (Zpos m) ltac:(lia)) as [_ Hb].
    apply Z.lt_le_trans with (1 := Hb). apply Z.pow_le_mono_r; lia. }
  unfold py_min, flt, SFltb, f10_0. rewrite SFcompare_pos.
  destruct (e ?= -49) eqn:Ee.
  - apply Z.compare_eq in Ee. subst e.
    destruct (Pos.compare m 5629499534213120) eqn:Em; [exact H10| |exact H10].
    apply Pos.compare_lt_iff in Em.
    unfold py_max, flt, SFltb, f0_0. cbn [SFcompare nonneg_le]. split; [exact He|].
    unfold ten_units, one_unit.
    replace (10 * 2 ^ 1074) with (5629499534213120 * 2 ^ (-49 + 1074)) by (vm_compute; reflexivity).
    apply Z.mul_le_mono_nonneg_r; [apply Z.pow_nonneg; lia|].
    apply Z.lt_le_incl. apply Pos2Z.pos_lt_pos. exact Em.
  - unfold py_max, flt, SFltb, f0_0. cbn [SFcompare nonneg_le]. split; [exact He|].
    change (e < -49) in Ee.
    apply Z.le_trans with (2 ^ 53 * 2 ^ 1024).
    + apply Z.mul_le_mono_nonneg.
      * lia.
      * apply Z.lt_le_incl; exact Hm.
      * apply Z.pow_nonneg; lia.
      * apply Z.pow_le_mono_r; lia.
    + unfold ten_units. zcompute.
  - exact H10.
Qed.

Lemma rne_scaled_range (m : positive) (e B : Z) :
  -1074 <= e -> Zpos m * 2 ^ (e + 1074) <= B -> 20 * B < 201 * one_unit ->
  0 <= rne_scaled (Zpos m * 10) e <= 100.
Proof.
  intros He Hv HB.
  assert (HP : 0 < one_unit) by (apply Z.pow_pos_nonneg; [reflexivity|discriminate]).
  destruct e as [|k|k]; cbn [rne_scaled].
  - change (2 ^ (0 + 1074)) with one_unit in Hv. rewrite Z.pow_0_r. nia.
  - rewrite (pow2_split (Zpos k) 1074) in Hv by lia. fold one_unit in Hv.
    assert (0 < 2 ^ Zpos k) by (apply Z.pow_pos_nonneg; lia). nia.
  - rewrite Z.pow_pos_fold.
    set (d := 2 ^ Zpos k).
    assert (Hd : 0 < d) by (apply Z.pow_pos_nonneg; lia).
    assert (Hsplit : one_unit = d * 2 ^ (Zneg k + 1074)).
    { unfold d, one_unit. rewrite <- pow2_split by lia. f_equal. lia. }
    assert (Hq : 0 < 2 ^ (Zneg k + 1074)) by (apply Z.pow_pos_nonneg; lia).
    assert (Hm : 20 * Zpos m < 201 * d).
    { apply Z.mul_lt_mono_pos_r with (p := 2 ^ (Zneg k + 1074)); [assumption|].
      rewrite <- (Z.mul_assoc 201), <- Hsplit. nia. }
    pose proof (Z_div_mod_eq_full (Zpos m * 10) d) as Heq.
    pose proof (Z.mod_pos_bound (Zpos m * 10) d Hd) as Hr.
    assert (Hq0 : 0 <= Zpos m * 10 / d) by (apply Z.div_pos; lia).
    destruct (2 * (Zpos m * 10 mod d) ?= d) eqn:Ec.
    + apply Z.compare_eq in Ec. destruct (Z.even _); nia.
    + nia.
    + apply Z.compare_gt_iff in Ec. nia.
Qed.

Lemma py_round_one_decimal (x : float) (B : Z) :
  nonneg_le x B -> 20 * B < 201 * one_unit ->
  exists n, 0 <= n <= 100 /\ py_round x 1 = float_of_decimal false n (-1).
Proof.
  intros Hx HB.
  destruct x as [[|]|[|]| |[|] m e]; cbn [nonneg_le] in Hx; try tauto.
  - exists 0. split; [lia|reflexivity].
  - destruct Hx as [He Hv].
    pose proof (rne_scaled_range m e B He Hv HB) as Hq.
    exists (rne_scaled (Zpos m * 10) e). split; [assumption|].
    unfold py_round. change (Zpos (10 ^ 1)) with 10.
    destruct (rne_scaled (Zpos m * 10) e) as [|q|q]; reflexivity.
Qed.

Lemma tenths_in_range :
  forallb (fun n => fle f0_0 (float_of_decimal false (Z.of_nat n) (-1)) &&
                    fle (float_of_decimal false (Z.of_nat n) (-1)) f10_0)%bool
          (seq 0 101) = true.
Proof. vm_compute. reflexivity. Qed.

Lemma tenth_in_range (n : Z) :
  0 <= n <= 100 ->
  fle f0_0 (float_of_decimal false n (-1)) = true /\
  fle (float_of_decimal false n (-1)) f10_0 = true.
Proof.
  intros Hn. pose proof tenths_in_range as H.
  rewrite forallb_forall in H.
  specialize (H (Z.to_nat n)). rewrite Z2Nat.id in H by lia.
  apply andb_true_iff. apply H. apply in_seq. lia.
Qed.

Lemma rne_scaled_nearest (m : positive) (e : Z) :
  0 <= rne_scaled (Zpos m * 10) e /\
  nearest_tenth_ties_even m e (rne_scaled (Zpos m * 10) e).
Proof.
  unfold nearest_tenth_ties_even.
  destruct e as [|k|k]; cbn [rne_scaled].
  - cbn [Z.opp Z.max Z.add]. rewrite Z.pow_0_r.
    replace (20 * Zpos m * 1 - 2 * (Zpos m * 10 * 1) * 1) with 0 by ring.
    cbn [Z.abs]. split; [lia|]. split; [lia|]. intros; lia.
  - assert (Hp : 0 < 2 ^ Zpos k) by (apply Z.pow_pos_nonneg; lia).
    rewrite Z.max_l by lia. rewrite Z.add_0_r, Z.pow_0_r.
    replace (20 * Zpos m * 2 ^ Zpos k - 2 * (Zpos m * 10 * 2 ^ Zpos k) * 1) with 0 by ring.
    cbn [Z.abs]. split; [nia|]. split; [lia|]. intros; lia.
  - rewrite Z.pow_pos_fold.
    replace (Z.max 0 (- Zneg k)) with (Zpos k) by lia.
    replace (Zneg k + Zpos k) with 0 by lia. rewrite Z.pow_0_r, Z.mul_1_r.
    set (d := 2 ^ Zpos k).
    assert (Hd : 0 < d) by (apply Z.pow_pos_nonneg; lia).
    pose proof (Z_div_mod_eq_full (Zpos m * 10) d) as Heq.
    pose proof (Z.mod_pos_bound (Zpos m * 10) d Hd) as Hr.
    assert (Hq0 : 0 <= Zpos m * 10 / d) by (apply Z.div_pos; lia).
    set (q0 := Zpos m * 10 / d) in *. set (r := Zpos m * 10 mod d) in *.
    assert (Hm : 20 * Zpos m = 2 * (d * q0 + r)) by lia.
    rewrite Hm.
    destruct (2 * r ?= d) eqn:Ec.
    + apply Z.compare_eq in Ec.
      destruct (Z.even q0) eqn:Ev.
      * split; [lia|]. split; [|intros _; exact Ev].
        replace (2 * (d * q0 + r) - 2 * q0 * d) with (2 * r) by ring. lia.
      * split; [lia|].
        replace (2 * (d * q0 + r) - 2 * (q0 + 1) * d) with (2 * r - 2 * d) by ring.
        split; [lia|]. intros _. rewrite Z.even_add, Ev. reflexivity.
    + change (2 * r < d) in Ec. split; [lia|].
      replace (2 * (d * q0 + r) - 2 * q0 * d) with (2 * r) by ring.
      split; [lia|]. intros; lia.
    + apply Z.compare_gt_iff in Ec. split; [lia|].
      replace (2 * (d * q0 + r) - 2 * (q0 + 1) * d) with (2 * r - 2 * d) by ring.
      split; [lia|]. intros; lia.
Qed.

(* ================================================================== *)
(** ** The score aggregator *)
(* ================================================================== *)

(** What a returned trust score is made of. *)
Lemma calculate_final_score_inv (cs : dict) (ws : weight_table) (t : trust_score) :
  _calculate_final_score cs ws = Ok t ->
  exists scores bd,
    extract_scores cs ws = Ok scores /\
    breakdown scores ws ws = Ok bd /\
    t = mk_trust_score (py_round (py_sum (weighted_terms scores ws)) 1) bd
          (interpret_score (py_sum (weighted_terms scores ws))) cs.
Proof.
  unfold _calculate_final_score. intros H.
  destruct (extract_scores cs ws) as [scores|] eqn:Es; [|discriminate].
  cbn [bind] in H.
  destruct (breakdown scores ws ws) as [bd|] eqn:Eb; [|discriminate].
  cbn [bind] in H. injection H as <-.
  exists scores, bd. split; [reflexivity|]. split; [exact Eb|reflexivity].
Qed.

Lemma extract_scores_weights (cs : dict) :
  extract_scores cs weights =
  (s1 <- extract_score cs "ratings" ;;
   s2 <- extract_score cs "business_legitimacy" ;;
   s3 <- extract_score cs "review_sentiment" ;;
   s4 <- extract_score cs "social_media" ;;
   s5 <- extract_score cs "customer_support" ;;
   Ok [("ratings", s1); ("business_legitimacy", s2); ("review_sentiment", s3);
       ("social_media", s4); ("customer_support", s5)]).
Proof.
  unfold weights. cbn [extract_scores].
  destruct (extract_score cs "ratings"); [|reflexivity].
  destruct (extract_score cs "business_legitimacy"); [|reflexivity].
  destruct (extract_score cs "review_sentiment"); [|reflexivity].
  destruct (extract_score cs "social_media"); [|reflexivity].
  destruct (extract_score cs "customer_support"); reflexivity.
Qed.

Lemma extract_scores_lookup (cs : dict) (ws : weight_table) (scores : list (string * float))
      (d : string) (s : float) :
  extract_scores cs ws = Ok scores ->
  In d (map fst ws) ->
  extract_score cs d = Ok s ->
  lookup scores d f0_0 = s.
Proof.
  revert scores. induction ws as [|[c w] ws IH]; intros scores Hs Hin Hd.
  - destruct Hin.
  - cbn [extract_scores] in Hs.
    destruct (extract_score cs c) as [sc|] eqn:Ec; [|discriminate].
    cbn [bind] in Hs.
    destruct (extract_scores cs ws) as [rest|]; [|discriminate].
    cbn [bind] in Hs. injection Hs as <-.
    cbn [lookup]. destruct (String.eqb d c) eqn:E.
    + apply String.eqb_eq in E. subst c. congruence.
    + apply IH; [reflexivity| |assumption].
      destruct Hin as [Hin|Hin]; [|assumption].
      cbn [fst] in Hin. subst c. rewrite String.eqb_refl in E. discriminate.
Qed.

Lemma lookup_nth_nodup {A : Type} (ws : list (string * A)) (i : nat) (d : string) (w def : A) :
  NoDup (map fst ws) -> nth_error ws i = Some (d, w) -> lookup ws d def = w.
Proof.
  revert i. induction ws as [|[c v] ws IH]; intros i Hnd Hi.
  - destruct i; discriminate.
  - cbn [map fst] in Hnd. inversion Hnd as [|? ? Hnotin Hnd']; subst.
    cbn [lookup]. destruct i as [|i]; cbn [nth_error] in Hi.
    + injection Hi as -> ->. now rewrite String.eqb_refl.
    + destruct (String.eqb d c) eqn:E.
      * apply String.eqb_eq in E. subst c. exfalso. apply Hnotin.
        apply nth_error_In in Hi. apply (in_map fst) in Hi. exact Hi.
      * eapply IH; eassumption.
Qed.

Lemma breakdown_nth (scores : list (string * float)) (ws all : weight_table)
      (bd : list (string * breakdown_entry)) (i : nat) (d : string) (w0 : float) :
  breakdown scores ws all = Ok bd ->
  nth_error ws i = Some (d, w0) ->
  exists label,
    nth_error bd i =
    Some (d, mk_breakdown_entry (lookup scores d f0_0) label
               (py_round (fmul (lookup scores d f0_0) (lookup all d f0_0)) 2)).
Proof.
  revert bd i. induction ws as [|[c w] ws IH]; intros bd i Hb Hi.
  - destruct i; discriminate.
  - cbn [breakdown] in Hb.
    destruct (weight_label (lookup all c f0_0)) as [label|]; [|discriminate].
    cbn [bind] in Hb.
    destruct (breakdown scores ws all) as [rest|]; [|discriminate].
    cbn [bind] in Hb. injection Hb as <-.
    destruct i as [|i]; cbn [nth_error] in Hi |- *.
    + injection Hi as -> ->. exists label. reflexivity.
    + eapply IH; [reflexivity|eassumption].
Qed.


(** The doubles of the weight table. *)
Lemma weights_eq :
  weights =
  [ ("ratings", S754_finite false 4953959590107546 (-53));
    ("business_legitimacy", S754_finite false 7205759403792794 (-56));
    ("review_sentiment", S754_finite false 7205759403792794 (-55));
    ("social_media", S754_finite false 7205759403792794 (-56));
    ("customer_support", S754_finite false 7205759403792794 (-57)) ].
Proof. vm_compute. reflexivity. Qed.

Lemma breakdown_weights (scores : list (string * float)) :
  exists bd, breakdown scores weights weights = Ok bd.
Proof.
  rewrite weights_eq.
  cbv [breakdown lookup String.eqb Ascii.eqb Bool.eqb].
  assert (L1 : weight_label (S754_finite false 4953959590107546 (-53)) = Ok "55%") by (vm_compute; reflexivity).
  assert (L2 : weight_label (S754_finite false 7205759403792794 (-56)) = Ok "10%") by (vm_compute; reflexivity).
  assert (L3 : weight_label (S754_finite false 7205759403792794 (-55)) = Ok "20%") by (vm_compute; reflexivity).
  assert (L4 : weight_label (S754_finite false 7205759403792794 (-57)) = Ok "5%") by (vm_compute; reflexivity).
  rewrite L1, L2, L3, L4. cbn [bind]. eexists. reflexivity.
Qed.

Lemma clamp_score_ok (v : pyval) :
  parseable v -> exists s, clamp_score v = Ok s /\ nonneg_le s ten_units.
Proof.
  intros [[f Hf] Hv]. unfold clamp_score. rewrite Hf. cbn [bind].
  eexists. split; [reflexivity|].
  apply clamp_nonneg_le. eapply py_float_shaped; eassumption.
Qed.

Lemma five_nonneg_le : nonneg_le f5_0 ten_units.
Proof. unfold f5_0, nonneg_le, ten_units. split; [lia|zcompute]. Qed.

Lemma extract_score_ok (cs : dict) (c : string) :
  (forall r, dict_get cs c = Some r -> record_with_parseable_score c r) ->
  exists s, extract_score cs c = Ok s /\ nonneg_le s ten_units.
Proof.
  intros H. unfold extract_score, dict_get_default.
  assert (Hd : record_with_parseable_score c
                 match dict_get cs c with Some v => v | None => PDict [] end).
  { destruct (dict_get cs c) as [r|].
    - apply H. reflexivity.
    - exists []. split; [reflexivity|]. right. reflexivity. }
  destruct Hd as (d & -> & Hd).
  cbn [py_contains bind]. destruct (dict_has d "error").
  { exists f5_0. split; [reflexivity|apply five_nonneg_le]. }
  destruct Hd as [Hd|Hd]; [discriminate|].
  unfold dict_has, py_getitem.
  destruct (dict_get d (c ++ "_score")) as [v|].
  { cbn [bind]. now apply clamp_score_ok. }
  destruct (dict_get d "score") as [v|].
  { cbn [bind]. now apply clamp_score_ok. }
  exists f5_0. split; [reflexivity|apply five_nonneg_le].
Qed.

(** The score the aggregator takes from a record that carries [n]. *)
Lemma extract_score_carries (cs : dict) (c : string) (r : pyval) (n : Z) :
  dict_get cs c = Some r -> carries_score c r n ->
  extract_score cs c = Ok (py_max f0_0 (py_min f10_0 (float_of_Z n))).
Proof.
  intros Hr (d & v & -> & Herr & Hv & Hf).
  unfold extract_score, dict_get_default. rewrite Hr.
  cbn [py_contains bind]. rewrite Herr.
  unfold dict_has, py_getitem, clamp_score.
  destruct Hv as [Hv|[Hn Hv]].
  - rewrite Hv. cbn [bind]. rewrite Hf. reflexivity.
  - rewrite Hn, Hv. cbn [bind]. rewrite Hf. reflexivity.
Qed.


Lemma weighted_term_bound (s w : float) :
  nonneg_le s ten_units ->
  nonneg_le w (exact_units w) ->
  (ten_units * exact_units w * 2 ^ 52 <=? exact_limit) = true ->
  nonneg_le (fmul s w) (term_bound w).
Proof.
  intros Hs Hw Hb. apply fmul_nonneg_le; try assumption. now apply Z.leb_le.
Qed.

Lemma sum_step_bound (acc t : float) (A T : Z) :
  nonneg_le acc A -> nonneg_le t T ->
  ((A + T) * units_ratio <=? exact_limit) = true ->
  nonneg_le (fadd acc t) (sum_bound A T).
Proof.
  intros Ha Ht Hb. apply fadd_nonneg_le; try assumption. now apply Z.leb_le.
Qed.

Lemma final_nonneg_le (s1 s2 s3 s4 s5 : float) :
  nonneg_le s1 ten_units -> nonneg_le s2 ten_units -> nonneg_le s3 ten_units ->
  nonneg_le s4 ten_units -> nonneg_le s5 ten_units ->
  nonneg_le
    (py_sum (weighted_terms
               [("ratings", s1); ("business_legitimacy", s2); ("review_sentiment", s3);
                ("social_media", s4); ("customer_support", s5)] weights))
    final_bound.
Proof.
  intros H1 H2 H3 H4 H5.
  unfold final_bound. rewrite weights_eq.
  cbv [py_sum weighted_terms map fold_left lookup fst snd String.eqb Ascii.eqb Bool.eqb].
  assert (H0 : nonneg_le f0_0 0) by (unfold f0_0, nonneg_le; lia).
  repeat (apply sum_step_bound;
          [ | apply weighted_term_bound;
              [assumption | unfold exact_units, nonneg_le; split; [lia|apply Z.le_refl]
              | vm_compute; reflexivity]
            | vm_compute; reflexivity ]).
  exact H0.
Qed.

Lemma final_bound_small : 20 * final_bound < 201 * one_unit.
Proof. zcompute. Qed.

(** *** The boundary scenario and the weight tables *)

(** Claim C1.  With the weight table in force (0.55, 0.10, 0.20, 0.10,
    0.05) and component results that carry the scores 9, 8, 7, 6 and 5 in
    their score fields, the aggregator returns [final_score = 8.0] and the
    interpretation of the Good tier. *)
Theorem boundary_scenario (cs : dict) (r1 r2 r3 r4 r5 : pyval) :
  dict_get cs "ratings" = Some r1 -> carries_score "ratings" r1 9 ->
  dict_get cs "business_legitimacy" = Some r2 -> carries_score "business_legitimacy" r2 8 ->
  dict_get cs "review_sentiment" = Some r3 -> carries_score "review_sentiment" r3 7 ->
  dict_get cs "social_media" = Some r4 -> carries_score "social_media" r4 6 ->
  dict_get cs "customer_support" = Some r5 -> carries_score "customer_support" r5 5 ->
  exists t, _calculate_final_score cs weights = Ok t /\
            final_score t = float_of_decimal false 80 (-1) /\
            score_interpretation t = "Good - Generally trustworthy".
Proof.
  intros G1 H1 G2 H2 G3 H3 G4 H4 G5 H5.
  unfold _calculate_final_score. rewrite extract_scores_weights.
  rewrite (extract_score_carries _ _ _ _ G1 H1), (extract_score_carries _ _ _ _ G2 H2),
    (extract_score_carries _ _ _ _ G3 H3), (extract_score_carries _ _ _ _ G4 H4),
    (extract_score_carries _ _ _ _ G5 H5).
  vm_compute. eexists. split; [reflexivity|]. split; reflexivity.
Qed.

(** The boundary scenario on a concrete map of component results. *)
Lemma boundary_scenario_witness :
  exists t, _calculate_final_score boundary_input weights = Ok t /\
            final_score t = float_of_decimal false 80 (-1) /\
            score_interpretation t = "Good - Generally trustworthy".
Proof.
  apply (boundary_scenario boundary_input
           (PDict [("ratings_score", PInt 9)])
           (PDict [("business_legitimacy_score", PFloat (float_of_Z 8))])
           (PDict [("score", PInt 7)])
           (PDict [("social_media_score", PStr "6")])
           (PDict [("customer_support_score", PInt 5)]));
  try reflexivity.
  - exists [("ratings_score", PInt 9)], (PInt 9). repeat split. left. reflexivity.
  - exists [("business_legitimacy_score", PFloat (float_of_Z 8))], (PFloat (float_of_Z 8)).
    repeat split. left. reflexivity.
  - exists [("score", PInt 7)], (PInt 7). repeat split. right. split; reflexivity.
  - exists [("social_media_score", PStr "6")], (PStr "6"). repeat split. left. reflexivity.
  - exists [("customer_support_score", PInt 5)], (PInt 5). repeat split. left. reflexivity.
Defined.

(** Claim C2.  Each of the two configured weight tables maps the five
    dimensions to weights in (0, 1] whose sum is 1.0 within 1e-6: as
    Python's [sum] computes it in floats, and for the exact values of the
    stored doubles. *)
Theorem weight_tables_sum_to_one :
  Forall (fun t => map fst t = dimensions /\
                   forallb weight_in_range (map snd t) = true /\
                   sum_within_tolerance t = true /\
                   exact_sum_within_tolerance t = true)
         configured_weight_tables.
Proof.
  unfold configured_weight_tables.
  repeat constructor; vm_compute; reflexivity.
Qed.

(** *** Range and precision of the final score *)

(** Claim C3.  For every map of component results in which each result
    of a dimension is a record whose score field is parseable, the
    aggregator returns a trust score, its [final_score] lies between 0 and
    10, and it has one decimal digit: it is the double of [n / 10] for an
    integer [n] between 0 and 100. *)
Theorem final_score_in_range_one_decimal (cs : dict) :
  (forall c r, In c dimensions -> dict_get cs c = Some r ->
               record_with_parseable_score c r) ->
  exists t, _calculate_final_score cs weights = Ok t /\
    fle f0_0 (final_score t) = true /\
    fle (final_score t) f10_0 = true /\
    exists n, 0 <= n <= 100 /\ final_score t = float_of_decimal false n (-1).
Proof.
  intros H.
  assert (H' : forall c, In c dimensions ->
                 exists s, extract_score cs c = Ok s /\ nonneg_le s ten_units).
  { intros c Hc. apply extract_score_ok. intros r. now apply H. }
  destruct (H' "ratings") as (s1 & E1 & B1); [cbn; tauto|].
  destruct (H' "business_legitimacy") as (s2 & E2 & B2); [cbn; tauto|].
  destruct (H' "review_sentiment") as (s3 & E3 & B3); [cbn; tauto|].
  destruct (H' "social_media") as (s4 & E4 & B4); [cbn; tauto|].
  destruct (H' "customer_support") as (s5 & E5 & B5); [cbn; tauto|].
  unfold _calculate_final_score.
  rewrite extract_scores_weights, E1, E2, E3, E4, E5. cbn [bind].
  match goal with |- context [breakdown ?sc weights weights] =>
    destruct (breakdown_weights sc) as [bd ->]
  end.
  eexists. split; [reflexivity|]. cbn [final_score].
  destruct (py_round_one_decimal _ _ (final_nonneg_le s1 s2 s3 s4 s5 B1 B2 B3 B4 B5)
              final_bound_small) as (n & Hn & ->).
  destruct (tenth_in_range n Hn) as [Hlo Hhi].
  repeat split; try assumption. exists n. split; [assumption|reflexivity].
Qed.

(** The range of the final score on the map of the boundary scenario. *)
Lemma final_score_in_range_one_decimal_witness :
  (forall c r, In c dimensions -> dict_get boundary_input c = Some r ->
               record_with_parseable_score c r) /\
  exists t, _calculate_final_score boundary_input weights = Ok t /\
    fle f0_0 (final_score t) = true /\
    fle (final_score t) f10_0 = true /\
    exists n, 0 <= n <= 100 /\ final_score t = float_of_decimal false n (-1).
Proof.
  assert (H : forall c r, In c dimensions -> dict_get boundary_input c = Some r ->
                          record_with_parseable_score c r).
  { intros c r _ Hr. unfold boundary_input in Hr. cbn [dict_get] in Hr.
    repeat match type of Hr with
           | (if String.eqb c ?k then _ else _) = _ =>
               let E := fresh "E" in
               destruct (String.eqb c k) eqn:E;
               [apply String.eqb_eq in E; subst c; injection Hr as <-;
                eexists; split; [reflexivity|]; right; vm_compute;
                (split; [eexists; reflexivity | reflexivity || exact I])
               | ]
           end.
    discriminate Hr. }
  split; [exact H|].
  exact (final_score_in_range_one_decimal boundary_input H).
Defined.

(** *** Missing dimensions *)



(** *** The rounding rule *)

(** Counterexample to claim C5 as stated.  With the scores 0, 0, 0, 0 and
    5 the weighted sum is exactly 0.25; the aggregator returns 0.2 where
    half-up rounding gives 0.3. *)
Lemma half_up_fails_on_exact_tie :
  (exists t, _calculate_final_score half_tie_input weights = Ok t /\
             weighted_sum half_tie_input weights = Ok (float_of_decimal false 25 (-2)) /\
             final_score t = float_of_decimal false 2 (-1) /\
             spec_round_half_up (float_of_decimal false 25 (-2)) 1 = float_of_decimal false 3 (-1)) /\
  ~ half_up_claim.
Proof.
  assert (H : exists t, _calculate_final_score half_tie_input weights = Ok t /\
             weighted_sum half_tie_input weights = Ok (float_of_decimal false 25 (-2)) /\
             final_score t = float_of_decimal false 2 (-1) /\
             spec_round_half_up (float_of_decimal false 25 (-2)) 1 = float_of_decimal false 3 (-1)).
  { vm_compute. eexists. repeat split. }
  split; [exact H|].
  intros Hc. destruct H as (t & Ht & Hw & Hf & Hs).
  specialize (Hc _ _ _ Ht Hw). rewrite Hf, Hs in Hc.
  vm_compute in Hc. discriminate Hc.
Qed.

(** Claim C5, amended.  The aggregator rounds the weighted sum to the
    nearest tenth, an exact tie of the binary value going to the even
    digit, and returns the double nearest to that decimal; a sum that is
    a zero is returned as it is. *)
Theorem final_score_rounds_half_even (cs : dict) (ws : weight_table) (t : trust_score)
        (final : float) :
  _calculate_final_score cs ws = Ok t ->
  weighted_sum cs ws = Ok final ->
  match final with
  | S754_finite s m e =>
      exists q, 0 <= q /\ nearest_tenth_ties_even m e q /\
                final_score t = float_of_decimal s q (-1)
  | _ => final_score t = final
  end.
Proof.
  intros Ht Hw.
  destruct (calculate_final_score_inv cs ws t Ht) as (scores & bd & Hs & _ & ->).
  unfold weighted_sum in Hw. rewrite Hs in Hw. cbn [bind] in Hw. injection Hw as <-.
  cbn [final_score].
  destruct (py_sum (weighted_terms scores ws)) as [s0|s0| |s m e]; try reflexivity.
  destruct (rne_scaled_nearest m e) as [Hq Hn].
  exists (rne_scaled (Zpos m * 10) e). split; [exact Hq|]. split; [exact Hn|].
  unfold py_round. change (Zpos (10 ^ 1)) with 10.
  destruct (rne_scaled (Zpos m * 10) e) as [|q|q]; reflexivity.
Qed.

(** The rounding at the tie 0.25. *)
Lemma final_score_rounds_half_even_witness :
  exists t final,
    _calculate_final_score half_tie_input weights = Ok t /\
    weighted_sum half_tie_input weights = Ok final /\
    match final with
    | S754_finite s m e =>
        exists q, 0 <= q /\ nearest_tenth_ties_even m e q /\
                  final_score t = float_of_decimal s q (-1)
    | _ => final_score t = final
    end.
Proof.
  destruct (_calculate_final_score half_tie_input weights) as [t|e] eqn:Ht.
  2:{ vm_compute in Ht. discriminate Ht. }
  destruct (weighted_sum half_tie_input weights) as [final|e] eqn:Hw.
  2:{ vm_compute in Hw. discriminate Hw. }
  exists t, final. split; [reflexivity|]. split; [reflexivity|].
  exact (final_score_rounds_half_even half_tie_input weights t final Ht Hw).
Defined.

(* ================================================================== *)
(** ** The structured extractor *)
(* ================================================================== *)

(** *** Equations of the matcher *)



Lemma match_greedy_cons (cls : ascii -> bool) (re : Re.regex) (c : ascii) (s : list ascii)
      (grp : bool) (acc : list ascii) :
  Re.match_here (Re.Star true cls :: re) (c :: s) grp acc =
  if cls c then
    match Re.match_here (Re.Star true cls :: re) s grp (if grp then c :: acc else acc) with
    | Some r => Some r
    | None => Re.match_here re (c :: s) grp acc
    end
  else Re.match_here re (c :: s) grp acc.
Proof. reflexivity. Qed.

Lemma match_greedy_nil (cls : ascii -> bool) (re : Re.regex) (grp : bool) (acc : list ascii) :
  Re.match_here (Re.Star true cls :: re) [] grp acc = Re.match_here re [] grp acc.
Proof. reflexivity. Qed.

Lemma match_lazy_cons (cls : ascii -> bool) (re : Re.regex) (c : ascii) (s : list ascii)
      (grp : bool) (acc : list ascii) :
  Re.match_here (Re.Star false cls :: re) (c :: s) grp acc =
  match Re.match_here re (c :: s) grp acc with
  | Some r => Some r
  | None =>
      if cls c
      then Re.match_here (Re.Star false cls :: re) s grp (if grp then c :: acc else acc)
      else None
  end.
Proof. reflexivity. Qed.

Lemma match_lazy_nil (cls : ascii -> bool) (re : Re.regex) (grp : bool) (acc : list ascii) :
  Re.match_here (Re.Star false cls :: re) [] grp acc = Re.match_here re [] grp acc.
Proof. cbn [Re.match_here]. destruct (Re.match_here re [] grp acc); reflexivity. Qed.




Lemma list_ascii_of_string_app (a b : string) :
  list_ascii_of_string (a ++ b) = (list_ascii_of_string a ++ list_ascii_of_string b)%list.
Proof.
  induction a as [|c a IH]; cbn [String.append list_ascii_of_string app].
  - reflexivity.
  - now rewrite IH.
Qed.





(** *** A labelled fenced block *)




(** *** Repair and round trip *)

(** Claim C6, at the failing input.  For the response text
    [{"a":1,"b":2] none of the four patterns finds a candidate, because
    each of them ends with a closing brace, so the repair pass is not
    reached and the adaptor returns the fallback record.  The repair pass
    itself, given that text, yields [{"a":1,"b":2}]. *)
Theorem truncated_flat_record_falls_back (p : prompt) (data : pyval) :
  _call_component_analyzer (Some (answers truncated_flat)) p data = _fallback_scoring data /\
  map (fun pat => Re.findall pat truncated_flat) json_patterns = [[]; []; []; []] /\
  parse_candidate truncated_flat = Some (PDict [("a", PInt 1); ("b", PInt 2)]).
Proof. vm_compute. repeat split. Qed.

(** The repair pass is reached when an inner brace closes: the nested
    record cut before its last brace is repaired and returned. *)
Lemma repair_pass_reaches_nested_record (p : prompt) (data : pyval) :
  Json.loads truncated_nested = None /\
  _call_component_analyzer (Some (answers truncated_nested)) p data =
  PDict [("a", PDict [("b", PInt 1)])].
Proof. vm_compute. split; reflexivity. Qed.




(* ================================================================== *)
(** ** The analysers and the orchestrator *)
(* ================================================================== *)

(** *** The sentiment analyser *)

(** Claim C8, at the failing input.  With one review text and a reasoning
    service that is not available, or that answers with an empty text,
    [analyze_review_sentiment] returns [None] instead of a record, and
    [calculate_trust_score] then raises [TypeError]. *)
Theorem sentiment_analysis_returns_none :
  analyze_review_sentiment None one_review (PList []) = Ok PNone /\
  analyze_review_sentiment (Some (answers "")) one_review (PList []) = Ok PNone /\
  calculate_trust_score None one_review_state = Raise TypeError.
Proof. vm_compute. repeat split. Qed.

(** *** Empty responses *)









(** *** A run with an empty brand name *)






(* ================================================================== *)
(** ** The adaptor on arbitrary responses *)
(* ================================================================== *)

(** *** What a match captures *)

(** The capture extends what the group holds when the match starts. *)
Lemma match_here_capture (re : Re.regex) :
  forall s grp acc cap rest,
    Re.match_here re s grp acc = Some (cap, rest) ->
    exists suffix, cap = (rev acc ++ suffix)%list.
Proof.
  induction re as [|a re IH]; intros s grp acc cap rest H.
  - cbn [Re.match_here] in H. injection H as <- <-. exists []. now rewrite app_nil_r.
  - destruct a as [c|[|] cls| |].
    + destruct s as [|c' s]; [discriminate|].
      cbn [Re.match_here] in H. destruct (Ascii.eqb c c'); [|discriminate].
      apply IH in H. destruct H as [suffix ->]. destruct grp.
      * exists (c' :: suffix). cbn [rev]. now rewrite <- app_assoc.
      * now exists suffix.
    + revert acc H. induction s as [|c s IHs]; intros acc H.
      * rewrite match_greedy_nil in H. eapply IH; eassumption.
      * rewrite match_greedy_cons in H. destruct (cls c).
        -- destruct (Re.match_here (Re.Star true cls :: re) s grp _) as [r|] eqn:E.
           ++ injection H as ->. apply IHs in E. destruct E as [suffix ->]. destruct grp.
              ** exists (c :: suffix). cbn [rev]. now rewrite <- app_assoc.
              ** now exists suffix.
           ++ eapply IH; eassumption.
        -- eapply IH; eassumption.
    + revert acc H. induction s as [|c s IHs]; intros acc H.
      * rewrite match_lazy_nil in H. eapply IH; eassumption.
      * rewrite match_lazy_cons in H.
        destruct (Re.match_here re (c :: s) grp acc) as [r|] eqn:E.
        -- injection H as ->. eapply IH; eassumption.
        -- destruct (cls c); [|discriminate].
           apply IHs in H. destruct H as [suffix ->]. destruct grp.
           ++ exists (c :: suffix). cbn [rev]. now rewrite <- app_assoc.
           ++ now exists suffix.
    + cbn [Re.match_here] in H. eapply IH; eassumption.
    + cbn [Re.match_here] in H. eapply IH; eassumption.
Qed.

(** Atoms outside the group leave the capture as it is. *)
Lemma match_here_plain_prefix (pre re : Re.regex) :
  forallb plain pre = true ->
  forall s acc r,
    Re.match_here (pre ++ re)%list s false acc = Some r ->
    exists s', Re.match_here re s' false acc = Some r.
Proof.
  induction pre as [|a pre IH]; intros Hp s acc r H.
  - now exists s.
  - cbn [forallb] in Hp. apply andb_true_iff in Hp as [Ha Hp].
    specialize (IH Hp). cbn [app] in H.
    destruct a as [c|[|] cls| |]; try discriminate.
    + destruct s as [|c' s]; [discriminate|].
      cbn [Re.match_here] in H. destruct (Ascii.eqb c c'); [|discriminate].
      eapply IH; eassumption.
    + revert H. induction s as [|c s IHs]; intros H.
      * rewrite match_greedy_nil in H. eapply IH; eassumption.
      * rewrite match_greedy_cons in H. destruct (cls c).
        -- destruct (Re.match_here (Re.Star true cls :: pre ++ re)%list s false acc) as [r'|] eqn:E.
           ++ injection H as ->. apply IHs. reflexivity.
           ++ eapply IH; eassumption.
        -- eapply IH; eassumption.
    + revert H. induction s as [|c s IHs]; intros H.
      * rewrite match_lazy_nil in H. eapply IH; eassumption.
      * rewrite match_lazy_cons in H.
        destruct (Re.match_here (pre ++ re)%list (c :: s) false acc) as [r'|] eqn:E.
        -- injection H as ->. eapply IH; eassumption.
        -- destruct (cls c); [|discriminate]. apply IHs. exact H.
Qed.

(** A group that starts with a literal captures a text that starts with
    it. *)
Lemma match_here_group_head (pre re : Re.regex) (c : ascii) (s cap rest : list ascii) :
  forallb plain pre = true ->
  Re.match_here (pre ++ Re.GroupOpen :: Re.Lit c :: re)%list s false [] = Some (cap, rest) ->
  exists tl, cap = c :: tl.
Proof.
  intros Hp H.
  apply match_here_plain_prefix in H; [|exact Hp]. destruct H as [s' H].
  cbn [Re.match_here] in H. destruct s' as [|c' s']; [discriminate|].
  destruct (Ascii.eqb_spec c c') as [<-|]; [|discriminate].
  apply match_here_capture in H. destruct H as [suffix ->]. now exists suffix.
Qed.

(** Each of the four patterns captures a text that starts with an
    opening brace. *)
Lemma json_patterns_capture (p : Re.regex) (s cap rest : list ascii) :
  In p json_patterns ->
  Re.match_here p s false [] = Some (cap, rest) ->
  exists tl, cap = "{"%char :: tl.
Proof.
  unfold json_patterns. intros [<-|[<-|[<-|[<-|[]]]]] H.
  - rewrite app_assoc in H.
    change (Re.lits "```json" ++ [Re.Star true Re.space; Re.GroupOpen; Re.Lit "{";
              Re.Star false Re.any; Re.Lit "}"; Re.GroupClose; Re.Star true Re.space])%list
      with ((Re.lits "```json" ++ [Re.Star true Re.space]) ++
            Re.GroupOpen :: Re.Lit "{" ::
              [Re.Star false Re.any; Re.Lit "}"; Re.GroupClose; Re.Star true Re.space])%list in H.
    rewrite <- app_assoc in H. cbn [app] in H.
    eapply match_here_group_head with (pre := (Re.lits "```json" ++ [Re.Star true Re.space])%list);
      [reflexivity|].
    rewrite <- app_assoc. exact H.
  - eapply match_here_group_head with (pre := (Re.lits fence ++ [Re.Star true Re.space])%list);
      [reflexivity|].
    rewrite <- app_assoc. exact H.
  - eapply match_here_group_head with (pre := []); [reflexivity|exact H].
  - eapply match_here_group_head with (pre := []); [reflexivity|exact H].
Qed.

(** Every text [findall] returns is the capture of a match. *)
Lemma findall_from_captures (re : Re.regex) (s : list ascii) :
  forall k cap,
    In cap (Re.findall_from re k s) ->
    exists s' rest, Re.match_here re s' false [] = Some (cap, rest).
Proof.
  induction s as [|c s IH]; intros k cap H; cbn [Re.findall_from] in H.
  - destruct H.
  - destruct k as [|k].
    + destruct (Re.match_here re (c :: s) false []) as [[cap' rest]|] eqn:E.
      * destruct H as [<-|H]; [now exists (c :: s), rest|]. eapply IH; eassumption.
      * eapply IH; eassumption.
    + eapply IH; eassumption.
Qed.

Lemma findall_starts_with_brace (p : Re.regex) (text m : string) :
  In p json_patterns -> In m (Re.findall p text) ->
  exists tl, m = String "{" tl.
Proof.
  intros Hp Hm. unfold Re.findall in Hm. apply in_map_iff in Hm.
  destruct Hm as (cap & <- & Hin).
  apply findall_from_captures in Hin. destruct Hin as (s' & rest & Hm).
  destruct (json_patterns_capture p s' cap rest Hp Hm) as [tl ->].
  exists (string_of_list_ascii tl). reflexivity.
Qed.

(** *** What the decoder makes of a text that starts with a brace *)

Lemma deliver_inside (v : pyval) (stack : list Json.frame) (m' : Json.mode)
      (stack' : list Json.frame) :
  bottom_obj stack = true ->
  Json.deliver v stack = Some (m', stack') ->
  inside_record m' stack'.
Proof.
  intros Hb H. destruct stack as [|[acc [k|]|acc] st]; try discriminate;
    cbn [Json.deliver] in H; injection H as <- <-; left; (split; [|discriminate]);
    destruct st; (exact Hb || reflexivity).
Qed.

Lemma close_inside (v : pyval) (f : Json.frame) (st : list Json.frame) (m' : Json.mode)
      (stack' : list Json.frame) :
  bottom_obj (f :: st) = true ->
  (st = [] -> exists d, v = PDict d) ->
  Json.deliver v st = Some (m', stack') ->
  inside_record m' stack'.
Proof.
  intros Hb Hv H. destruct st as [|g st].
  - destruct (Hv eq_refl) as [d ->]. cbn [Json.deliver] in H. injection H as <- <-.
    right. split; [reflexivity|]. now exists d.
  - eapply deliver_inside; [|exact H]. exact Hb.
Qed.

Lemma step_inside (m : Json.mode) (stack : list Json.frame) (t : Json.token)
      (m' : Json.mode) (stack' : list Json.frame) :
  inside_record m stack ->
  Json.step m stack t = Some (m', stack') ->
  inside_record m' stack'.
Proof.
  intros [[Hb Hm]|[-> [d ->]]] H; [|destruct t; discriminate].
  destruct m as [e|e| | |v]; [| | | |exfalso; now apply (Hm v)];
    destruct t; try discriminate; cbn [Json.step] in H;
    try destruct e; try discriminate;
    try (eapply deliver_inside; [exact Hb|exact H]);
    destruct stack as [|[acc [k|]|acc] st]; try discriminate;
    try (injection H as <- <-; left; split; [|discriminate];
         first [exact Hb | destruct st; first [reflexivity | exact Hb]]);
    (eapply close_inside; [exact Hb| |exact H]);
    first [ intros _; eexists; reflexivity | intros ->; discriminate Hb ].
Qed.

Lemma run_inside (ts : list Json.token) :
  forall m stack v,
    inside_record m stack -> Json.run m stack ts = Some v -> exists d, v = PDict d.
Proof.
  induction ts as [|t ts IH]; intros m stack v Hi H; cbn [Json.run] in H.
  - destruct Hi as [[_ Hm]|[_ [d ->]]].
    + destruct m; try discriminate. exfalso. now apply (Hm v0).
    + injection H as <-. now exists d.
  - destruct (Json.step m stack t) as [[m' stack']|] eqn:E; [|discriminate].
    eapply IH; [|exact H]. eapply step_inside; eassumption.
Qed.

(** A text that starts with an opening brace decodes to a record, if it
    decodes. *)
Lemma loads_brace_record (tl : string) (v : pyval) :
  Json.loads (String "{" tl) = Some v -> exists d, v = PDict d.
Proof.
  unfold Json.loads. cbn [list_ascii_of_string Json.lex].
  change (Json.is_ws "{") with false. cbv iota.
  change (Json.scan_token ("{"%char :: list_ascii_of_string tl)) with (Some (Json.TLBrace, 1%nat)).
  cbv iota beta. change (1 - 1)%nat with 0%nat.
  destruct (Json.lex 0 (list_ascii_of_string tl)) as [ts|]; [|discriminate].
  cbn [Json.run Json.step]. apply run_inside.
  left. split; [reflexivity|discriminate].
Qed.

(** *** The repair pass *)

Lemma count_char_app (c : ascii) (a b : string) :
  count_char c (a ++ b) = (count_char c a + count_char c b)%nat.
Proof.
  unfold count_char. rewrite list_ascii_of_string_app, filter_app, length_app. reflexivity.
Qed.

Lemma count_char_repeat (c d : ascii) (n : nat) :
  count_char c (repeat_char d n) = if Ascii.eqb c d then n else 0%nat.
Proof.
  unfold count_char, repeat_char. rewrite list_ascii_of_string_of_list_ascii.
  induction n as [|n IH]; cbn [repeat filter].
  - destruct (Ascii.eqb c d); reflexivity.
  - destruct (Ascii.eqb c d); cbn [List.length]; now rewrite IH.
Qed.

Lemma string_app_assoc (a b c : string) : (a ++ b) ++ c = a ++ (b ++ c).
Proof.
  induction a as [|x a IH]; cbn [String.append]; [reflexivity|now rewrite IH].
Qed.

Lemma string_app_nil_r (a : string) : a ++ "" = a.
Proof.
  induction a as [|x a IH]; cbn [String.append]; [reflexivity|now rewrite IH].
Qed.

(** The repair pass appends closing braces and then closing brackets,
    and nothing else. *)
Lemma fix_json_appends (m : string) :
  exists a b, fix_json m = m ++ repeat_char "}" a ++ repeat_char "]" b.
Proof.
  unfold fix_json.
  destruct (count_char "}" m <? count_char "{" m)%nat;
    match goal with |- context [if ?c then _ else _] => destruct c end.
  - eexists. eexists. rewrite string_app_assoc. reflexivity.
  - eexists. exists 0%nat. change (repeat_char "]" 0) with "".
    now rewrite string_app_nil_r.
  - exists 0%nat. eexists. reflexivity.
  - exists 0%nat, 0%nat. change (repeat_char "}" 0 ++ repeat_char "]" 0) with "".
    now rewrite string_app_nil_r.
Qed.

Lemma fix_json_brace (tl : string) : exists tl', fix_json (String "{" tl) = String "{" tl'.
Proof.
  destruct (fix_json_appends (String "{" tl)) as (a & b & ->).
  eexists. reflexivity.
Qed.

(** *** The adaptor *)

Lemma parse_candidate_record (tl : string) (v : pyval) :
  parse_candidate (String "{" tl) = Some v -> exists d, v = PDict d.
Proof.
  unfold parse_candidate.
  destruct (Json.loads (String "{" tl)) as [v'|] eqn:E.
  - intros H; injection H as <-. eapply loads_brace_record; eassumption.
  - destruct (fix_json_brace tl) as [tl' ->]. apply loads_brace_record.
Qed.

Lemma first_parsed_record (ms : list string) (v : pyval) :
  (forall m, In m ms -> exists tl, m = String "{" tl) ->
  first_parsed ms = Some v -> exists d, v = PDict d.
Proof.
  induction ms as [|m ms IH]; intros Hm H; cbn [first_parsed] in H; [discriminate|].
  destruct (parse_candidate m) as [v'|] eqn:E.
  - injection H as <-. destruct (Hm m (or_introl eq_refl)) as [tl ->].
    eapply parse_candidate_record; eassumption.
  - apply IH; [|exact H]. intros m' Hin. apply Hm. now right.
Qed.

Lemma extract_record (ps : list Re.regex) (text : string) (r0 : option pyval) (v : pyval) :
  (forall p, In p ps -> In p json_patterns) ->
  (forall v0, r0 = Some v0 -> exists d, v0 = PDict d) ->
  extract ps text r0 = Some v -> exists d, v = PDict d.
Proof.
  revert r0. induction ps as [|p ps IH]; intros r0 Hp H0 H; cbn [extract] in H.
  - now apply H0.
  - assert (Hr : forall v0,
               match first_parsed (Re.findall p text) with
               | Some v1 => Some v1
               | None => r0
               end = Some v0 -> exists d, v0 = PDict d).
    { intros v0 Hv. destruct (first_parsed (Re.findall p text)) as [v1|] eqn:E.
      - injection Hv as <-. eapply first_parsed_record; [|exact E].
        intros m Hin. eapply findall_starts_with_brace; [|exact Hin].
        apply Hp. now left.
      - now apply H0. }
    destruct (is_true _).
    + now apply Hr.
    + eapply IH; [|exact Hr|exact H]. intros p' Hin. apply Hp. now right.
Qed.

(** The adaptor returns a non-empty record, whatever the service does. *)
Lemma call_component_analyzer_record (self : scorer) (p : prompt) (data : pyval) :
  exists kv d, _call_component_analyzer self p data = PDict (kv :: d).
Proof.
  assert (Hf : exists kv d, _fallback_scoring data = PDict (kv :: d)).
  { eexists. eexists. reflexivity. }
  unfold _call_component_analyzer.
  destruct self as [model|]; [|exact Hf].
  destruct (model p data) as [| |text]; try exact Hf.
  destruct (truthy (PStr text)); [|exact Hf].
  destruct (extract json_patterns (strip_string text) None) as [v|] eqn:E; [|exact Hf].
  apply extract_record in E; [|tauto|discriminate].
  destruct E as [d ->]. destruct d as [|kv d]; [exact Hf|].
  cbn [truthy]. now exists kv, d.
Qed.

(** X1.  Whatever the reasoning service does (it raises, gives no
    response, or answers any text), [_call_component_analyzer] returns a
    record (a dict) with at least one field: the parsed record of the
    response or the fallback record, never an empty record, a list, a
    number or [None]. *)
Theorem adaptor_returns_nonempty_record (self : scorer) (p : prompt) (data : pyval) :
  exists d, _call_component_analyzer self p data = PDict d /\ d <> [].
Proof.
  destruct (call_component_analyzer_record self p data) as (kv & d & ->).
  exists (kv :: d). split; [reflexivity|discriminate].
Qed.

(** *** A response without a closing brace *)

Lemma match_here_needs_lit (c : ascii) (re : Re.regex) :
  In (Re.Lit c) re ->
  forall s grp acc, ~ In c s -> Re.match_here re s grp acc = None.
Proof.
  induction re as [|a re IH]; intros Hin s grp acc Hs; [destruct Hin|].
  destruct a as [c'|[|] cls| |].
  - destruct s as [|x s]; [reflexivity|]. cbn [Re.match_here].
    destruct (Ascii.eqb_spec c' x) as [<-|Hne]; [|reflexivity].
    destruct Hin as [Hin|Hin].
    + injection Hin as ->. exfalso. apply Hs. now left.
    + apply IH; [exact Hin|]. intros Hx. apply Hs. now right.
  - destruct Hin as [Hin|Hin]; [discriminate|].
    revert acc. induction s as [|x s IHs]; intros acc.
    + rewrite match_greedy_nil. now apply IH.
    + rewrite match_greedy_cons.
      rewrite IHs by (intros Hx; apply Hs; now right).
      rewrite IH by assumption. now destruct (cls x).
  - destruct Hin as [Hin|Hin]; [discriminate|].
    revert acc. induction s as [|x s IHs]; intros acc.
    + rewrite match_lazy_nil. now apply IH.
    + rewrite match_lazy_cons. rewrite IH by assumption.
      rewrite IHs by (intros Hx; apply Hs; now right). now destruct (cls x).
  - destruct Hin as [Hin|Hin]; [discriminate|]. cbn [Re.match_here]. now apply IH.
  - destruct Hin as [Hin|Hin]; [discriminate|]. cbn [Re.match_here]. now apply IH.
Qed.

Lemma findall_needs_lit (c : ascii) (re : Re.regex) (s : list ascii) :
  In (Re.Lit c) re -> ~ In c s -> forall k, Re.findall_from re k s = [].
Proof.
  intros Hin. induction s as [|x s IH]; intros Hs k; cbn [Re.findall_from]; [reflexivity|].
  assert (Hs' : ~ In c s) by (intros Hx; apply Hs; now right).
  destruct k as [|k]; [|now apply IH].
  rewrite (match_here_needs_lit c re Hin) by assumption. now apply IH.
Qed.

Lemma lstrip_incl (c : ascii) (s : list ascii) : In c (lstrip s) -> In c s.
Proof.
  induction s as [|x s IH]; cbn [lstrip]; [tauto|].
  destruct (is_space x); [|tauto]. intros H. right. now apply IH.
Qed.

Lemma strip_incl (c : ascii) (s : list ascii) : In c (strip s) -> In c s.
Proof.
  unfold strip. intros H. apply in_rev in H. apply lstrip_incl in H.
  apply in_rev in H. now apply lstrip_incl.
Qed.

Lemma json_patterns_close (p : Re.regex) : In p json_patterns -> In (Re.Lit "}") p.
Proof.
  unfold json_patterns. intros [<-|[<-|[<-|[<-|[]]]]].
  - apply in_or_app. right. apply in_or_app. left. cbn. tauto.
  - apply in_or_app. right. apply in_or_app. left. cbn. tauto.
  - cbn. tauto.
  - cbn. tauto.
Qed.

Lemma extract_nothing (ps : list Re.regex) (text : string) :
  (forall p, In p ps -> Re.findall p text = []) ->
  extract ps text None = None.
Proof.
  induction ps as [|p ps IH]; intros H; cbn [extract]; [reflexivity|].
  rewrite (H p (or_introl eq_refl)). cbn [first_parsed is_true].
  apply IH. intros p' Hin. apply H. now right.
Qed.

(** X2.  When the response of the service has no closing brace, none of
    the four patterns finds a candidate, the repair pass is not reached,
    and [_call_component_analyzer] returns the fallback record: a record
    cut before any closing brace is never repaired. *)
Theorem response_without_closing_brace_falls_back
        (model : service) (p : prompt) (data : pyval) (text : string) :
  model p data = Responded text ->
  no_closing_brace text ->
  _call_component_analyzer (Some model) p data = _fallback_scoring data.
Proof.
  intros Hm Hn. unfold _call_component_analyzer. rewrite Hm.
  destruct (truthy (PStr text)); [|reflexivity].
  rewrite extract_nothing; [reflexivity|].
  intros pat Hp. unfold Re.findall.
  rewrite (findall_needs_lit "}" pat); [reflexivity|now apply json_patterns_close|].
  unfold strip_string. rewrite list_ascii_of_string_of_list_ascii.
  intros Hin. apply Hn. eapply strip_incl. exact Hin.
Qed.

Lemma response_without_closing_brace_falls_back_witness :
  _call_component_analyzer (Some (answers unclosed_response)) RatingsPrompt PNone
  = _fallback_scoring PNone.
Proof.
  apply (response_without_closing_brace_falls_back
           (answers unclosed_response) RatingsPrompt PNone unclosed_response).
  - reflexivity.
  - unfold no_closing_brace. vm_compute. intuition discriminate.
Defined.

(* ================================================================== *)
(** ** The repair pass, the review texts and the sentiment result *)
(* ================================================================== *)

(** X3.  The repair pass only appends closing braces followed by closing
    brackets; in the repaired text the closing braces are at least as many
    as the opening ones, and so are the brackets; a text that is already
    balanced in this sense is left as it is, so repairing twice is
    repairing once. *)
Theorem repair_appends_and_balances (m : string) :
  (exists a b, fix_json m = m ++ repeat_char "}" a ++ repeat_char "]" b) /\
  (count_char "{" (fix_json m) <= count_char "}" (fix_json m))%nat /\
  (count_char "[" (fix_json m) <= count_char "]" (fix_json m))%nat /\
  fix_json (fix_json m) = fix_json m.
Proof.
  split; [apply fix_json_appends|].
  assert (Hb : (count_char "{" (fix_json m) <= count_char "}" (fix_json m))%nat /\
               (count_char "[" (fix_json m) <= count_char "]" (fix_json m))%nat).
  { unfold fix_json.
    destruct (Nat.ltb_spec (count_char "}" m) (count_char "{" m)) as [H1|H1];
      match goal with |- context [if (?a <? ?b)%nat then _ else _] =>
        destruct (Nat.ltb_spec a b) as [H2|H2] end;
      rewrite ?count_char_app, ?count_char_repeat in *;
      cbn [Ascii.eqb Bool.eqb] in *; lia. }
  split; [apply Hb|]. split; [apply Hb|].
  destruct Hb as [H1 H2]. generalize dependent (fix_json m). intros f H1 H2.
  unfold fix_json.
  destruct (Nat.ltb_spec (count_char "}" f) (count_char "{" f)) as [H|_]; [lia|].
  destruct (Nat.ltb_spec (count_char "]" f) (count_char "[" f)) as [H|_]; [lia|].
  reflexivity.
Qed.

(** *** The review texts *)

Lemma for_each_invariant {A S : Type} (P : S -> Prop) (body : S -> A -> result S)
      (items : list A) :
  (forall st x st', P st -> body st x = Ok st' -> P st') ->
  forall st st', P st -> for_each body items st = Ok st' -> P st'.
Proof.
  intros Hbody. induction items as [|x items IH]; intros st st' Hst H; cbn [for_each] in H.
  - injection H as <-. exact Hst.
  - destruct (body st x) as [st1|] eqn:E; [|discriminate].
    eapply IH; [|exact H]. eapply Hbody; eassumption.
Qed.

Lemma long_text_long (v : pyval) (s : string) :
  long_text v = Ok (Some s) ->
  (10 < List.length (strip (list_ascii_of_string s)))%nat.
Proof.
  unfold long_text. destruct (truthy v); [|discriminate].
  destruct v; try discriminate.
  destruct (Z.ltb_spec 10 (Z.of_nat (List.length (strip (list_ascii_of_string s0)))))
    as [Hlt|_]; [|discriminate].
  intros H; injection H as <-. lia.
Qed.

Lemma keep_long (texts : list review_text) (v rating : pyval) (src : review_source)
      (keep : option string) :
  Forall long_enough texts ->
  long_text v = Ok keep ->
  Forall long_enough
    match keep with
    | Some s => (texts ++ [mk_review_text s rating src])%list
    | None => texts
    end.
Proof.
  intros Ht Hk. destruct keep as [s|]; [|exact Ht].
  apply Forall_app. split; [exact Ht|]. constructor; [|constructor].
  unfold long_enough. cbn [text]. eapply long_text_long. exact Hk.
Qed.

Lemma google_review_body_long (texts : list review_text) (review : pyval)
      (texts' : list review_text) :
  Forall long_enough texts -> google_review_body texts review = Ok texts' ->
  Forall long_enough texts'.
Proof.
  intros Ht H. unfold google_review_body in H.
  destruct review as [| | | | | |r]; try (injection H as <-; exact Ht).
  destruct (long_text (dict_get_default r "content" (PStr ""))) as [keep|] eqn:E;
    [|discriminate].
  cbn [bind] in H.
  pose proof (keep_long texts _ (dict_get_default r "rating" (PInt 0)) Google keep Ht E) as Hk.
  destruct keep; injection H as <-; exact Hk.
Qed.

Lemma google_product_body_long (texts : list review_text) (product_data : pyval)
      (texts' : list review_text) :
  Forall long_enough texts -> google_product_body texts product_data = Ok texts' ->
  Forall long_enough texts'.
Proof.
  intros Ht H. unfold google_product_body in H.
  destruct product_data as [| | | | | |d]; try (injection H as <-; exact Ht).
  destruct (dict_get d "reviews") as [reviews|]; [|injection H as <-; exact Ht].
  destruct (py_iter reviews) as [items|]; [|discriminate]. cbn [bind] in H.
  eapply for_each_invariant; [|exact Ht|exact H].
  intros st x st'. apply google_review_body_long.
Qed.

Lemma reddit_comment_body_long (texts : list review_text) (comment : pyval)
      (texts' : list review_text) :
  Forall long_enough texts -> reddit_comment_body texts comment = Ok texts' ->
  Forall long_enough texts'.
Proof.
  intros Ht H. unfold reddit_comment_body in H.
  destruct (py_get comment "body" (PStr "")) as [body|]; [|discriminate]. cbn [bind] in H.
  destruct (long_text body) as [keep|] eqn:E; [|discriminate]. cbn [bind] in H.
  pose proof (keep_long texts _ (PStr "N/A") Reddit keep Ht E) as Hk.
  destruct keep; injection H as <-; exact Hk.
Qed.

Lemma reddit_post_body_long (texts : list review_text) (reddit_post : pyval)
      (texts' : list review_text) :
  Forall long_enough texts -> reddit_post_body texts reddit_post = Ok texts' ->
  Forall long_enough texts'.
Proof.
  intros Ht H. unfold reddit_post_body in H.
  destruct reddit_post as [| | | | | |d]; try (injection H as <-; exact Ht).
  destruct (long_text (dict_get_default d "post_text" (PStr ""))) as [keep|] eqn:E;
    [|discriminate].
  cbn [bind] in H.
  pose proof (keep_long texts _ (PStr "N/A") Reddit keep Ht E) as Hk.
  destruct (py_slice3 _) as [first3|]; [|discriminate]. cbn [bind] in H.
  destruct (py_iter first3) as [items|]; [|discriminate]. cbn [bind] in H.
  eapply for_each_invariant; [|exact Hk|exact H].
  intros st x st'. apply reddit_comment_body_long.
Qed.

(** X4.  Every review text that [analyze_review_sentiment] collects from
    the Google reviews, the Reddit posts and their comments has more than
    ten characters after its surrounding whitespace is dropped: a shorter
    or empty text never reaches the reasoning service. *)
Theorem extracted_review_texts_are_long (google_reviews reddit_reviews : pyval)
        (texts : list review_text) :
  extract_review_texts google_reviews reddit_reviews = Ok texts ->
  Forall long_enough texts.
Proof.
  unfold extract_review_texts. intros H.
  destruct (py_iter google_reviews) as [gs|]; [|discriminate]. cbn [bind] in H.
  destruct (for_each google_product_body gs []) as [texts1|] eqn:E1; [|discriminate].
  cbn [bind] in H.
  destruct (py_iter reddit_reviews) as [rs|]; [|discriminate]. cbn [bind] in H.
  assert (H1 : Forall long_enough texts1).
  { eapply for_each_invariant; [|constructor|exact E1].
    intros st x st'. apply google_product_body_long. }
  eapply for_each_invariant; [|exact H1|exact H].
  intros st x st'. apply reddit_post_body_long.
Qed.

Lemma extracted_review_texts_are_long_witness :
  Forall long_enough
    [mk_review_text "Works well, arrived on time." (PInt 5) Google].
Proof.
  apply (extracted_review_texts_are_long
           (PList [PDict [("reviews",
                     PList [PDict [("content", PStr "Works well, arrived on time.");
                                   ("rating", PInt 5)];
                            PDict [("content", PStr "  ok   "); ("rating", PInt 3)]])]])
           (PList [PDict [("post_text", PStr "")]])).
  vm_compute. reflexivity.
Defined.

(** X5.  [analyze_review_sentiment] returns one of three things: the
    fixed default record (when no review text is found), a record that
    carries the field [review_sentiment_score], or [None].  The fallback
    record of the adaptor, which has no such field, is never returned. *)
Theorem sentiment_result_shapes (self : scorer) (google_reviews reddit_reviews v : pyval) :
  analyze_review_sentiment self google_reviews reddit_reviews = Ok v ->
  v = no_review_default \/
  v = PNone \/
  exists d, v = PDict d /\ dict_has d "review_sentiment_score" = true.
Proof.
  unfold analyze_review_sentiment. intros H.
  destruct (extract_review_texts google_reviews reddit_reviews) as [texts|]; [|discriminate].
  cbn [bind] in H. destruct texts as [|x texts].
  - injection H as <-. now left.
  - right.
    destruct (call_component_analyzer_record self (SentimentPrompt (x :: texts))
                (PDict [("total_reviews", PInt (Z.of_nat (List.length (x :: texts))));
                        ("reviews_analyzed", PInt (Z.of_nat (List.length (x :: texts))))]))
      as (kv & d & Hr).
    rewrite Hr in H. cbn [truthy py_contains] in H.
    destruct (dict_has (kv :: d) "review_sentiment_score") eqn:E; injection H as <-.
    + right. exists (kv :: d). now split.
    + now left.
Qed.

Lemma sentiment_result_shapes_witness :
  PNone = no_review_default \/
  PNone = PNone \/
  exists d, PNone = PDict d /\ dict_has d "review_sentiment_score" = true.
Proof.
  apply (sentiment_result_shapes None one_review (PList []) PNone).
  vm_compute. reflexivity.
Defined.

(* ================================================================== *)
(** ** Scores, reports and a missing service *)
(* ================================================================== *)

(** *** Records with an error marker, records with a generic score *)

(** X6.  A component result that has an [error] key is scored 5.0 whatever
    score fields it also carries: for such a dimension of the weight table
    the breakdown of every output records the score 5.0 and the
    contribution of 5.0 times the weight. *)
Theorem error_record_counts_as_five
        (cs : dict) (ws : weight_table) (i : nat) (d : string) (w : float) (r : dict) :
  NoDup (map fst ws) ->
  nth_error ws i = Some (d, w) ->
  dict_get cs d = Some (PDict r) ->
  dict_has r "error" = true ->
  extract_score cs d = Ok f5_0 /\
  forall t, _calculate_final_score cs ws = Ok t ->
    exists label,
      nth_error (component_breakdown t) i =
      Some (d, mk_breakdown_entry f5_0 label (py_round (fmul f5_0 w) 2)).
Proof.
  intros Hnd Hi Hr He.
  assert (H5 : extract_score cs d = Ok f5_0).
  { unfold extract_score, dict_get_default. rewrite Hr. cbn [py_contains bind].
    now rewrite He. }
  split; [exact H5|].
  intros t Ht.
  destruct (calculate_final_score_inv cs ws t Ht) as (scores & bd & Hs & Hb & ->).
  assert (Hin : In d (map fst ws)).
  { apply nth_error_In in Hi. apply (in_map fst) in Hi. exact Hi. }
  pose proof (extract_scores_lookup cs ws scores d f5_0 Hs Hin H5) as Hl.
  pose proof (lookup_nth_nodup ws i d w f0_0 Hnd Hi) as Hw.
  cbn [component_breakdown].
  destruct (breakdown_nth scores ws ws bd i d w Hb Hi) as [label Hn].
  exists label. rewrite Hn, Hl, Hw. reflexivity.
Qed.

Lemma error_record_counts_as_five_witness :
  let cs := [("ratings", error_with_score)] in
  extract_score cs "ratings" = Ok f5_0 /\
  forall t, _calculate_final_score cs weights = Ok t ->
    exists label,
      nth_error (component_breakdown t) 0 =
      Some ("ratings",
            mk_breakdown_entry f5_0 label
              (py_round (fmul f5_0 (float_of_decimal false 55 (-2))) 2)).
Proof.
  intros cs.
  apply (error_record_counts_as_five cs weights 0 "ratings"
           (float_of_decimal false 55 (-2))
           [("ratings_score", PInt 9); ("error", PStr "quota exceeded")]).
  - unfold weights. cbn [map fst].
    repeat constructor; cbn [In]; intuition discriminate.
  - reflexivity.
  - reflexivity.
  - reflexivity.
Defined.

(** X7.  A component result that carries its score under the generic
    name [score] only (as the fallback record does) is scored by the
    aggregator with that value, clamped, while the detailed component
    analysis of the report, which reads the dimension's own score field
    only, shows the score 0 for the same record. *)
Theorem generic_score_is_reported_as_zero
        (cs : dict) (c w : string) (d : dict) (v : pyval) (s : float) :
  dict_get cs c = Some (PDict d) ->
  dict_has d "error" = false ->
  dict_get d (c ++ "_score") = None ->
  dict_get d "score" = Some v ->
  clamp_score v = Ok s ->
  extract_score cs c = Ok s /\
  exists dt, ReportGenerator.detail cs c w = Ok (c, dt) /\ detail_score dt = PInt 0.
Proof.
  intros Hc He Hk Hs Hv. split.
  - unfold extract_score, dict_get_default. rewrite Hc.
    cbn [py_contains bind py_getitem]. unfold dict_has in *.
    rewrite Hk, Hs. destruct (dict_get d "error"); [discriminate|]. exact Hv.
  - unfold ReportGenerator.detail, dict_get_default. rewrite Hc.
    cbn [py_get bind]. unfold dict_get_default. rewrite Hk.
    eexists. split; reflexivity.
Qed.

Lemma generic_score_is_reported_as_zero_witness :
  extract_score [("ratings", fallback_record)] "ratings" = Ok f6_0 /\
  exists dt, ReportGenerator.detail [("ratings", fallback_record)] "ratings" "55%"
             = Ok ("ratings", dt) /\
             detail_score dt = PInt 0.
Proof.
  apply (generic_score_is_reported_as_zero
           [("ratings", fallback_record)] "ratings" "55%"
           [ ("score", PFloat f6_0);
             ("confidence_level", PStr "Low");
             ("key_factors", PList [PStr "Fallback scoring due to API unavailability"]);
             ("method", PStr "fallback") ]
           (PFloat f6_0) f6_0); reflexivity.
Defined.

(** *** Strengths and concerns of the report *)




(** *** No reasoning service *)

Lemma sentiment_without_service (g r v : pyval) :
  analyze_review_sentiment None g r = Ok v ->
  (extract_review_texts g r = Ok [] /\ v = no_review_default) \/
  ((exists x texts, extract_review_texts g r = Ok (x :: texts)) /\ v = PNone).
Proof.
  unfold analyze_review_sentiment.
  destruct (extract_review_texts g r) as [texts|]; cbn [bind]; [|discriminate].
  destruct texts as [|x texts].
  - intros H; injection H as <-. left. split; reflexivity.
  - cbn [_call_component_analyzer]. intros H. vm_compute in H. injection H as <-.
    right. split; [|reflexivity]. now exists x, texts.
Qed.

Lemma component_scores_without_service (state : collected) (cs : dict) :
  component_scores_of None state = Ok cs ->
  exists r3,
    analyze_review_sentiment None (get_or (google_reviews state) (PList []))
      (get_or (reddit_reviews state) (PList [])) = Ok r3 /\
    cs = [ ("ratings", fallback_record); ("business_legitimacy", fallback_record);
           ("review_sentiment", r3); ("social_media", fallback_record);
           ("customer_support", fallback_record) ].
Proof.
  unfold component_scores_of.
  set (g := get_or (google_reviews state) (PList [])).
  set (r := get_or (reddit_reviews state) (PList [])).
  set (w := get_or (website_trust_data state) (PDict [])).
  unfold analyze_ratings, analyze_business_legitimacy, analyze_social_media,
    analyze_customer_support.
  destruct (_prepare_ratings_data g); cbn [bind]; [|discriminate].
  destruct (analyze_review_sentiment None g r) as [r3|] eqn:E3; cbn [bind]; [|discriminate].
  destruct (py_len _); cbn [bind]; [|discriminate].
  destruct (py_add g r); cbn [bind]; [|discriminate].
  destruct (_prepare_support_data _); cbn [bind]; [|discriminate].
  intros H; injection H as <-.
  exists r3. split; reflexivity.
Qed.

(** X9.  When no reasoning service is configured, the scoring node
    records 5.8 with the interpretation of the Average tier, or it records
    a scoring error with the final score 0.0 and appends the error to the
    list; and it is the error whenever at least one review text is found
    in the collected data. *)
Theorem scoring_without_service (env : environment) (st : state) (errs : list error_entry) :
  make_scorer env = None ->
  errors st = Some errs ->
  exists st',
    BrandAnalyzer.trust_scoring_node env st = Ok st' /\
    ((exists t, trust_score_value st' = Some (Scored t) /\
                final_score t = f5_8 /\
                score_interpretation t = "Average - Proceed with research" /\
                errors st' = Some errs) \/
     (exists e, trust_score_value st' = Some (ScoringError e) /\
                final_score_of (trust_score_value st') f0_0 = f0_0 /\
                errors st' = Some (errs ++ [TrustScoringFailed e])%list)) /\
    ((exists x texts,
        extract_review_texts (get_or (google_reviews (data st)) (PList []))
          (get_or (reddit_reviews (data st)) (PList [])) = Ok (x :: texts)) ->
     exists e, trust_score_value st' = Some (ScoringError e)).
Proof.
  intros Hs He. unfold BrandAnalyzer.trust_scoring_node. rewrite Hs, He.
  unfold calculate_trust_score.
  destruct (component_scores_of None (data st)) as [cs|e] eqn:Ec; cbn [bind].
  - destruct (component_scores_without_service (data st) cs Ec) as (r3 & H3 & ->).
    destruct (sentiment_without_service _ _ _ H3) as [[Hx ->]|[Hx ->]].
    + match goal with |- context [_calculate_final_score ?c ?w] =>
        destruct (_calculate_final_score c w) as [t|e] eqn:Et end;
        vm_compute in Et; [|discriminate Et].
      injection Et as <-.
      eexists. split; [reflexivity|]. cbn [trust_score_value errors]. split.
      * left. eexists. repeat split.
      * intros (x & texts & Hx'). rewrite Hx in Hx'. discriminate Hx'.
    + match goal with |- context [_calculate_final_score ?c ?w] =>
        destruct (_calculate_final_score c w) as [t|e] eqn:Et end;
        vm_compute in Et; [discriminate Et|].
      eexists. split; [reflexivity|]. cbn [trust_score_value errors]. split.
      * right. exists e. repeat split.
      * intros _. now exists e.
  - eexists. split; [reflexivity|]. cbn [trust_score_value errors]. split.
    + right. exists e. repeat split.
    + intros _. now exists e.
Qed.

Lemma scoring_without_service_witness :
  let st := BrandAnalyzer.validate_input_node
              (BrandAnalyzer.initial_state (PStr "Acme") PNone PNone) in
  exists st',
    BrandAnalyzer.trust_scoring_node offline_env st = Ok st' /\
    ((exists t, trust_score_value st' = Some (Scored t) /\
                final_score t = f5_8 /\
                score_interpretation t = "Average - Proceed with research" /\
                errors st' = Some []) \/
     (exists e, trust_score_value st' = Some (ScoringError e) /\
                final_score_of (trust_score_value st') f0_0 = f0_0 /\
                errors st' = Some ([] ++ [TrustScoringFailed e])%list)) /\
    ((exists x texts,
        extract_review_texts (get_or (google_reviews (data st)) (PList []))
          (get_or (reddit_reviews (data st)) (PList [])) = Ok (x :: texts)) ->
     exists e, trust_score_value st' = Some (ScoringError e)).
Proof.
  intros st.
  exact (scoring_without_service offline_env st [] eq_refl eq_refl).
Defined.

(* ================================================================== *)
(** ** The nodes of the workflow *)
(* ================================================================== *)

(** *** The nodes, one after the other *)

Lemma validate_initial_state (brand twitter site : pyval) :
  BrandAnalyzer.validate_input_node (BrandAnalyzer.initial_state brand twitter site) =
  mk_state brand twitter site empty_state None None
           (Some BrandAnalyzer.pending_status)
           (Some (if negb (truthy brand) then [BrandNameRequired] else [])).
Proof. reflexivity. Qed.

(** The scoring node returns a state whenever the state has an error
    list, and touches the trust score and the error list only. *)
Lemma trust_scoring_node_returns (env : environment) (st : state) (errs : list error_entry) :
  errors st = Some errs ->
  exists entry errs',
    BrandAnalyzer.trust_scoring_node env st =
    Ok (mk_state (brand_name st) (twitter_handle st) (website st) (data st)
                 (Some entry) (final_report st) (collection_status st) (Some errs')) /\
    (forall x, In x errs' -> In x errs \/ exists e, x = TrustScoringFailed e).
Proof.
  intros He. unfold BrandAnalyzer.trust_scoring_node. rewrite He.
  destruct (calculate_trust_score (make_scorer env) (data st)) as [t|e].
  - exists (Scored t), errs. split; [reflexivity|]. intros x Hx. now left.
  - exists (ScoringError e), (errs ++ [TrustScoringFailed e])%list. split; [reflexivity|].
    intros x Hx. apply in_app_or in Hx. destruct Hx as [Hx|[<-|[]]]; [now left|].
    right. now exists e.
Qed.

(** The report node fails on a brand name that is no string, and
    otherwise changes the report and the error list only. *)
Lemma generate_report_node_no_string (st : state) :
  (forall s, brand_name st <> PStr s) ->
  BrandAnalyzer.generate_report_node st = Raise AttributeError.
Proof.
  intros Hb. unfold BrandAnalyzer.generate_report_node.
  destruct (ReportGenerator.generate_comprehensive_report st) as [s|e];
    cbn [brand_name]; destruct (brand_name st) as [| | | |s'| |] eqn:E;
    try reflexivity; exfalso; now apply (Hb s').
Qed.

Lemma generate_report_node_keeps (st st' : state) :
  BrandAnalyzer.generate_report_node st = Ok st' ->
  brand_name st' = brand_name st /\ data st' = data st /\
  trust_score_value st' = trust_score_value st /\
  collection_status st' = collection_status st /\
  (exists rep, final_report st' = Some rep) /\
  (forall errs, errors st = Some errs ->
     exists errs', errors st' = Some errs' /\
       forall x, In x errs' -> In x errs \/ exists e, x = ReportGenerationFailed e).
Proof.
  unfold BrandAnalyzer.generate_report_node.
  destruct (ReportGenerator.generate_comprehensive_report st) as [s|e];
    cbn [brand_name data];
    (destruct (BrandAnalyzer.filename (brand_name st)); cbn [bind]; [|discriminate]);
    (destruct (BrandAnalyzer.complete_analysis_data (data st)); cbn [bind]; [|discriminate]);
    intros H; injection H as <-;
    cbn [brand_name data trust_score_value collection_status final_report errors];
    repeat (split; [reflexivity|]); (split; [eexists; reflexivity|]); intros errs He.
  - exists errs. split; [exact He|]. intros x Hx. now left.
  - rewrite He. eexists. split; [reflexivity|].
    intros x Hx. apply in_app_or in Hx. destruct Hx as [Hx|[<-|[]]]; [now left|].
    right. now exists e.
Qed.

Lemma generate_report_node_no_data (st : state) (s : string) :
  brand_name st = PStr s -> data st = empty_state ->
  exists st', BrandAnalyzer.generate_report_node st = Ok st'.
Proof.
  intros Hb Hd. unfold BrandAnalyzer.generate_report_node.
  destruct (ReportGenerator.generate_comprehensive_report st) as [r|e];
    cbn [brand_name data]; rewrite Hb, Hd; cbn [BrandAnalyzer.filename bind];
    change (BrandAnalyzer.complete_analysis_data empty_state) with (Ok (0, 0, 0));
    cbn [bind]; eexists; reflexivity.
Qed.

(** The collection node on a validated state. *)
Lemma collection_after_validation (env : environment) (brand twitter site : pyval) :
  let st0 := BrandAnalyzer.validate_input_node
               (BrandAnalyzer.initial_state brand twitter site) in
  BrandAnalyzer.parallel_data_collection_node env st0 =
  Ok (if truthy brand then
        let g := BrandAnalyzer.task (scrape_google_reviews_node env st0) (PList []) in
        let r := BrandAnalyzer.task (scrape_reddit_reviews_node env st0) (PList []) in
        let w := BrandAnalyzer.task (analyze_brand_website_node env st0) (PDict []) in
        mk_state brand twitter site
          (mk_collected (Some (fst g)) (Some (fst r)) (Some (fst w))) None None
          (Some [ ("google_reviews", snd g); ("reddit_reviews", snd r);
                  ("website_analysis", "pending"); ("website_trust_data", snd w) ])
          (Some [])
      else st0).
Proof.
  intros st0. subst st0. rewrite validate_initial_state.
  unfold BrandAnalyzer.parallel_data_collection_node.
  cbn [errors collection_status]. destruct (truthy brand); reflexivity.
Qed.

(** X10.  In every run that returns a final state, the collection status
    of [website_analysis] is still ["pending"]: the website task records
    its outcome under the key [website_trust_data], which the collection
    node adds to the statuses when it runs the collectors. *)
Theorem website_analysis_stays_pending
        (env : environment) (brand twitter site : pyval) (st : state) :
  BrandAnalyzer.analyze_brand env brand twitter site = Finished st ->
  exists cs,
    collection_status st = Some cs /\
    lookup cs "website_analysis" "" = "pending" /\
    (truthy brand = true ->
     lookup cs "website_trust_data" "" <> "" /\ List.length cs = 4%nat) /\
    (truthy brand = false -> cs = BrandAnalyzer.pending_status).
Proof.
  unfold BrandAnalyzer.analyze_brand.
  rewrite (collection_after_validation env brand twitter site). cbn [bind].
  match goal with |- context [BrandAnalyzer.trust_scoring_node env ?s] => set (st1 := s) end.
  assert (He : exists errs, errors st1 = Some errs).
  { unfold st1. destruct (truthy brand); eexists; reflexivity. }
  destruct He as [errs He].
  destruct (trust_scoring_node_returns env st1 errs He) as (entry & errs' & -> & _).
  cbn [bind].
  match goal with |- context [BrandAnalyzer.generate_report_node ?s] =>
    destruct (BrandAnalyzer.generate_report_node s) as [st3|e] eqn:E3 end; [|discriminate].
  intros H; injection H as <-.
  apply generate_report_node_keeps in E3. destruct E3 as (_ & _ & _ & Hc & _).
  cbn [collection_status] in Hc. rewrite Hc. unfold st1.
  destruct (truthy brand).
  - eexists. split; [reflexivity|]. split; [reflexivity|]. split; [|discriminate].
    intros _. split; [|reflexivity].
    cbv [lookup String.eqb Ascii.eqb Bool.eqb snd].
    destruct (analyze_brand_website_node env _); cbn [BrandAnalyzer.task snd]; discriminate.
  - eexists. split; [reflexivity|]. split; [reflexivity|]. split; [discriminate|].
    reflexivity.
Qed.

Lemma website_analysis_stays_pending_witness :
  exists st cs,
    BrandAnalyzer.analyze_brand offline_env (PStr "Acme") PNone PNone = Finished st /\
    collection_status st = Some cs /\
    lookup cs "website_analysis" "" = "pending" /\
    (truthy (PStr "Acme") = true ->
     lookup cs "website_trust_data" "" <> "" /\ List.length cs = 4%nat) /\
    (truthy (PStr "Acme") = false -> cs = BrandAnalyzer.pending_status).
Proof.
  destruct (BrandAnalyzer.analyze_brand offline_env (PStr "Acme") PNone PNone)
    as [st|b e] eqn:E.
  - destruct (website_analysis_stays_pending offline_env (PStr "Acme") PNone PNone st E)
      as (cs & H).
    exists st, cs. split; [reflexivity|exact H].
  - vm_compute in E. discriminate E.
Defined.

(** X11.  A run whose brand name is not a string ([None], a number, a
    list) never returns a final state: after validation, collection and
    scoring, the report node fails to build the file name, and
    [analyze_brand] returns its error record ([AttributeError], final score
    0.0); for a false brand name the validation error is lost with the
    state. *)
Theorem brand_that_is_no_string_aborts (env : environment) (brand twitter site : pyval) :
  (forall s, brand <> PStr s) ->
  BrandAnalyzer.analyze_brand env brand twitter site = Aborted brand AttributeError /\
  BrandAnalyzer.result_final_score
    (BrandAnalyzer.analyze_brand env brand twitter site) = f0_0.
Proof.
  intros Hb.
  assert (H : BrandAnalyzer.analyze_brand env brand twitter site
              = Aborted brand AttributeError); [|now rewrite H].
  unfold BrandAnalyzer.analyze_brand.
  rewrite (collection_after_validation env brand twitter site). cbn [bind].
  match goal with |- context [BrandAnalyzer.trust_scoring_node env ?s] => set (st1 := s) end.
  assert (He : exists errs, errors st1 = Some errs).
  { unfold st1. destruct (truthy brand); eexists; reflexivity. }
  assert (Hn : brand_name st1 = brand).
  { unfold st1. destruct (truthy brand); reflexivity. }
  destruct He as [errs He].
  destruct (trust_scoring_node_returns env st1 errs He) as (entry & errs' & -> & _).
  cbn [bind]. rewrite generate_report_node_no_string; [reflexivity|].
  cbn [brand_name]. rewrite Hn. exact Hb.
Qed.

Lemma brand_that_is_no_string_aborts_witness :
  BrandAnalyzer.analyze_brand silent_env PNone PNone PNone = Aborted PNone AttributeError /\
  BrandAnalyzer.result_final_score
    (BrandAnalyzer.analyze_brand silent_env PNone PNone PNone) = f0_0.
Proof.
  apply (brand_that_is_no_string_aborts silent_env PNone PNone PNone).
  intros s. discriminate.
Defined.

(** X12.  When the three collectors raise, a run with a non-empty brand
    name still returns a final state: the collected data are the empty
    defaults, each failure is recorded as the status ["failed: ..."] of its
    task, no validation error is recorded, and a trust score and a report
    are there. *)
Theorem run_with_crashed_collectors
        (env : environment) (s : string) (twitter site : pyval) (mg mr mw : string) :
  let st0 := BrandAnalyzer.validate_input_node
               (BrandAnalyzer.initial_state (PStr s) twitter site) in
  s <> "" ->
  scrape_google_reviews_node env st0 = Crashed mg ->
  scrape_reddit_reviews_node env st0 = Crashed mr ->
  analyze_brand_website_node env st0 = Crashed mw ->
  exists st,
    BrandAnalyzer.analyze_brand env (PStr s) twitter site = Finished st /\
    data st = empty_state /\
    collection_status st =
      Some [ ("google_reviews", "failed: " ++ mg); ("reddit_reviews", "failed: " ++ mr);
             ("website_analysis", "pending"); ("website_trust_data", "failed: " ++ mw) ] /\
    no_validation_error st /\
    (exists entry, trust_score_value st = Some entry) /\
    (exists rep, final_report st = Some rep).
Proof.
  intros st0 Hs Hg Hr Hw.
  unfold BrandAnalyzer.analyze_brand.
  rewrite (collection_after_validation env (PStr s) twitter site). cbn [bind].
  fold st0. rewrite Hg, Hr, Hw.
  replace (truthy (PStr s)) with true by (destruct s; [contradiction|reflexivity]).
  cbn [BrandAnalyzer.task fst snd].
  match goal with |- context [BrandAnalyzer.trust_scoring_node env ?x] => set (st1 := x) end.
  destruct (trust_scoring_node_returns env st1 [] eq_refl) as (entry & errs' & -> & Herr).
  cbn [bind].
  match goal with |- context [BrandAnalyzer.generate_report_node ?x] => set (st2 := x) end.
  destruct (generate_report_node_no_data st2 s eq_refl eq_refl) as [st3 E3].
  rewrite E3. exists st3. split; [reflexivity|].
  apply generate_report_node_keeps in E3.
  destruct E3 as (_ & Hd & Ht & Hc & Hrep & He).
  split; [exact Hd|]. split; [exact Hc|].
  split.
  - destruct (He errs' eq_refl) as (errs3 & He3 & Hin3).
    exists errs3. split; [exact He3|]. intros Hin.
    destruct (Hin3 _ Hin) as [Hx|[e Hx]]; [|discriminate Hx].
    destruct (Herr _ Hx) as [[]|[e Hy]]. discriminate Hy.
  - split; [|exact Hrep]. exists entry. exact Ht.
Qed.

Lemma run_with_crashed_collectors_witness :
  exists st,
    BrandAnalyzer.analyze_brand crashing_env (PStr "Acme") PNone PNone = Finished st /\
    data st = empty_state /\
    collection_status st =
      Some [ ("google_reviews", "failed: quota"); ("reddit_reviews", "failed: no client");
             ("website_analysis", "pending"); ("website_trust_data", "failed: timeout") ] /\
    no_validation_error st /\
    (exists entry, trust_score_value st = Some entry) /\
    (exists rep, final_report st = Some rep).
Proof.
  apply (run_with_crashed_collectors crashing_env "Acme" PNone PNone
           "quota" "no client" "timeout"); [discriminate|reflexivity..].
Defined.

(** X13.  When the scorer raises, the scoring node still returns a state,
    with the error added to the list, and the report built from that state
    shows the overall score 0.0, the recommendation ["Unable to
    determine"], no component scores, no strengths and no concerns. *)
Theorem failed_scoring_in_the_report
        (env : environment) (st : state) (errs : list error_entry) (e : exn) :
  errors st = Some errs ->
  calculate_trust_score (make_scorer env) (data st) = Raise e ->
  exists st',
    BrandAnalyzer.trust_scoring_node env st = Ok st' /\
    errors st' = Some (errs ++ [TrustScoringFailed e])%list /\
    forall s, ReportGenerator.generate_comprehensive_report st' = Ok s ->
      overall_score s = f0_0 /\
      recommendation s = "Unable to determine" /\
      component_scores s = [] /\
      key_strengths s = [] /\
      areas_of_concern s = [] /\
      Forall (fun cd => detail_score (snd cd) = PInt 0 /\
                        confidence (snd cd) = PStr "Unknown")
             (detailed_component_analysis s).
Proof.
  intros He Hr. unfold BrandAnalyzer.trust_scoring_node. rewrite Hr, He.
  eexists. split; [reflexivity|]. split; [reflexivity|].
  intros s. unfold ReportGenerator.generate_comprehensive_report.
  cbn [trust_score_value data collection_status brand_name
       ReportGenerator.results_of ReportGenerator.breakdown_of
       ReportGenerator.interpretation_of final_score_of].
  destruct (py_len _) as [n1|]; cbn [bind]; [|discriminate].
  destruct (py_len _) as [n2|]; cbn [bind]; [|discriminate].
  intros H. vm_compute in H. injection H as <-.
  cbn [overall_score recommendation component_scores key_strengths areas_of_concern
       detailed_component_analysis].
  repeat (split; [reflexivity|]).
  repeat constructor.
Qed.

Lemma failed_scoring_in_the_report_witness :
  let st := mk_state (PStr "Acme") PNone PNone one_review_state None None
                     (Some BrandAnalyzer.pending_status) (Some []) in
  exists st',
    BrandAnalyzer.trust_scoring_node offline_env st = Ok st' /\
    errors st' = Some ([] ++ [TrustScoringFailed TypeError])%list /\
    forall s, ReportGenerator.generate_comprehensive_report st' = Ok s ->
      overall_score s = f0_0 /\
      recommendation s = "Unable to determine" /\
      component_scores s = [] /\
      key_strengths s = [] /\
      areas_of_concern s = [] /\
      Forall (fun cd => detail_score (snd cd) = PInt 0 /\
                        confidence (snd cd) = PStr "Unknown")
             (detailed_component_analysis s).
Proof.
  intros st.
  apply (failed_scoring_in_the_report offline_env st [] TypeError).
  - reflexivity.
  - vm_compute. reflexivity.
Defined.

(* ================================================================== *)
(** ** The website analysis *)
(* ================================================================== *)

Lemma field_points_bounds (record : pyval) (key : string) (points score score' : Z) :
  0 <= points ->
  Website.field_points record key points score = Ok score' ->
  score <= score' <= score + points.
Proof.
  intros Hp. unfold Website.field_points.
  destruct (py_get record key PNone) as [v|]; cbn [bind]; [|discriminate].
  destruct (truthy v); intros H; injection H as <-; lia.
Qed.

Lemma section_points_bounds (sections : pyval) (name : string) (points score score' : Z) :
  0 <= points ->
  Website.section_points sections name points score = Ok score' ->
  score <= score' <= score + points.
Proof.
  intros Hp. unfold Website.section_points.
  destruct (py_get sections name (PDict [])) as [v|]; cbn [bind]; [|discriminate].
  now apply field_points_bounds.
Qed.

Lemma ssl_points_bounds (trust_data : pyval) (score score' : Z) :
  Website.ssl_points trust_data score = Ok score' -> score <= score' <= score + 25.
Proof.
  unfold Website.ssl_points.
  destruct (py_get trust_data "ssl_info" (PDict [])) as [i|]; cbn [bind]; [|discriminate].
  destruct (py_get i "certificate_valid" PNone) as [v|]; cbn [bind]; [|discriminate].
  destruct (truthy v); [intros H; injection H as <-; lia|].
  destruct (py_get i "https_enabled" PNone) as [h|]; cbn [bind]; [|discriminate].
  destruct (truthy h); intros H; injection H as <-; lia.
Qed.

Lemma contact_points_bounds (trust_data : pyval) (score score' : Z) :
  Website.contact_points trust_data score = Ok score' -> score <= score' <= score + 35.
Proof.
  unfold Website.contact_points.
  destruct (py_get trust_data "contact_info" (PDict [])) as [c|]; cbn [bind]; [|discriminate].
  destruct (Website.field_points c "phone" 15 score) as [s1|] eqn:E1; cbn [bind]; [|discriminate].
  destruct (Website.field_points c "address" 15 s1) as [s2|] eqn:E2; cbn [bind]; [|discriminate].
  intros E3.
  apply field_points_bounds in E1, E2, E3; lia.
Qed.

Lemma page_points_bounds (trust_data : pyval) (score score' : Z) :
  Website.page_points trust_data score = Ok score' -> score <= score' <= score + 30.
Proof.
  unfold Website.page_points.
  destruct (py_get trust_data "page_sections" (PDict [])) as [c|]; cbn [bind]; [|discriminate].
  destruct (Website.section_points c "about_us" 12 score) as [s1|] eqn:E1;
    cbn [bind]; [|discriminate].
  destruct (Website.section_points c "privacy_policy" 8 s1) as [s2|] eqn:E2;
    cbn [bind]; [|discriminate].
  destruct (Website.section_points c "terms" 5 s2) as [s3|] eqn:E3;
    cbn [bind]; [|discriminate].
  destruct (Website.section_points c "support" 3 s3) as [s4|] eqn:E4;
    cbn [bind]; [|discriminate].
  intros E5.
  apply section_points_bounds in E1, E2, E3, E4, E5; lia.
Qed.

Lemma content_points_bounds (trust_data : pyval) (score score' : Z) :
  Website.content_points trust_data score = Ok score' -> score <= score' <= score + 10.
Proof.
  unfold Website.content_points.
  destruct (py_get trust_data "analysis_details" (PDict [])) as [d|]; cbn [bind]; [|discriminate].
  destruct (py_get d "content_length" (PInt 0)) as [n|]; cbn [bind]; [|discriminate].
  destruct (Website.py_gt_int n 5000) as [[|]|]; cbn [bind]; try discriminate;
    [intros H; injection H as <-; lia|].
  destruct (Website.py_gt_int n 2000) as [[|]|]; cbn [bind]; try discriminate;
    [intros H; injection H as <-; lia|].
  destruct (Website.py_gt_int n 500) as [[|]|]; cbn [bind]; try discriminate;
    intros H; injection H as <-; lia.
Qed.

Lemma score_points_bounds (trust_data : pyval) (score : Z) :
  Website.score_points trust_data = Ok score -> 0 <= score <= 100.
Proof.
  unfold Website.score_points.
  destruct (Website.ssl_points trust_data 0) as [s1|] eqn:E1; cbn [bind]; [|discriminate].
  destruct (Website.contact_points trust_data s1) as [s2|] eqn:E2; cbn [bind]; [|discriminate].
  destruct (Website.page_points trust_data s2) as [s3|] eqn:E3; cbn [bind]; [|discriminate].
  intros E4.
  apply ssl_points_bounds in E1. apply contact_points_bounds in E2.
  apply page_points_bounds in E3. apply content_points_bounds in E4. lia.
Qed.

(** X14.  The website trust score is an integer between 0 and 100
    whenever the function returns; the points it can add sum to exactly
    100 (25 for the certificate, 35 for the contact details, 30 for the
    page sections, 10 for the content), so the final cap at 100 never
    changes the score, and a page with every signal scores 100. *)
Theorem website_score_range (trust_data : pyval) (score : Z) :
  Website.calculate_trust_score trust_data = Ok score ->
  0 <= score <= 100 /\
  Website.score_points trust_data = Ok score /\
  Website.calculate_trust_score full_trust_data = Ok 100.
Proof.
  unfold Website.calculate_trust_score at 1. intros H.
  destruct (Website.score_points trust_data) as [s|] eqn:E; cbn [bind] in H; [|discriminate].
  apply score_points_bounds in E. injection H as <-.
  rewrite Z.min_l by lia. split; [lia|]. split; [reflexivity|].
  vm_compute. reflexivity.
Qed.

Lemma website_score_range_witness :
  0 <= 100 <= 100 /\
  Website.score_points full_trust_data = Ok 100 /\
  Website.calculate_trust_score full_trust_data = Ok 100.
Proof.
  apply (website_score_range full_trust_data 100).
  vm_compute. reflexivity.
Defined.

(** X15.  When the page of the site cannot be fetched, the analysis still
    returns a record: its trust score is the points of the certificate
    check alone (25 for a verified HTTPS answer, 10 when HTTPS answered
    with a certificate failure, 0 otherwise), and its status is
    ["Failed"], whatever the certificate check found. *)
Theorem unfetched_site_is_failed (web : web_environment) (brand_name website : string) :
  unreachable_page web website ->
  exists td,
    Website.analyze_website_trust web brand_name website = Ok (PDict td) /\
    dict_get td "trust_score" =
      Some (PInt (certificate_points (probe_https web (Website.with_scheme website)))) /\
    dict_get td "status" = Some (PStr "Failed") /\
    dict_get td "contact_info" = Some (PDict []) /\
    dict_get td "page_sections" = Some (PDict []).
Proof.
  unfold unreachable_page, Website.analyze_website_trust.
  generalize (Website.with_scheme website). intros url Hu.
  assert (Hf : match fetch_website_content web url with
               | Some markdown_content =>
                   if truthy (PStr markdown_content) then Some markdown_content else None
               | None => None
               end = None).
  { destruct Hu as [-> | ->]; reflexivity. }
  rewrite Hf. clear Hf Hu.
  generalize (probe_https web url). intros p.
  destruct p as [u|m d|h|m]; cbn [Website.check_ssl_certificate certificate_points];
    try destruct (String.prefix "https://" u); try destruct d; try destruct h;
    eexists; (split; [vm_compute; reflexivity|]); repeat split.
Qed.

Lemma unfetched_site_is_failed_witness :
  exists td,
    Website.analyze_website_trust blank_web "Acme" "acme.in" = Ok (PDict td) /\
    dict_get td "trust_score" =
      Some (PInt (certificate_points (probe_https blank_web (Website.with_scheme "acme.in")))) /\
    dict_get td "status" = Some (PStr "Failed") /\
    dict_get td "contact_info" = Some (PDict []) /\
    dict_get td "page_sections" = Some (PDict []).
Proof.
  apply (unfetched_site_is_failed blank_web "Acme" "acme.in").
  left. reflexivity.
Defined.




(* ================================================================== *)
(** ** The collection of Google reviews *)
(* ================================================================== *)

Lemma long_text_string (v : pyval) (s : string) :
  long_text v = Ok (Some s) -> v = PStr s.
Proof.
  unfold long_text. destruct (truthy v); [|discriminate].
  destruct v; try discriminate.
  destruct (_ <? _); [|discriminate]. intros H. injection H as ->. reflexivity.
Qed.

Lemma review_data_of_long (r review_data : pyval) :
  GoogleReviews.review_data_of r = Ok (Some review_data) -> long_review review_data.
Proof.
  unfold GoogleReviews.review_data_of.
  destruct (py_get r "date" PNone) as [date|]; cbn [bind]; [|discriminate].
  destruct (py_get r "rating" PNone) as [rating|]; cbn [bind]; [|discriminate].
  destruct (py_get r "source" PNone) as [src|]; cbn [bind]; [|discriminate].
  destruct (py_get r "content" (PStr "")) as [content|]; cbn [bind]; [|discriminate].
  destruct (py_get r "images" (PList [])) as [images|]; cbn [bind]; [|discriminate].
  destruct (py_get r "helpful_count" PNone) as [helpful|]; cbn [bind]; [|discriminate].
  destruct (py_get r "user" (PDict [])) as [user|]; cbn [bind]; [|discriminate].
  destruct (long_text content) as [[s|]|] eqn:E; cbn [bind]; try discriminate.
  intros H. injection H as <-.
  pose proof (long_text_string content s E) as ->.
  eexists. exists s. split; [reflexivity|]. split; [reflexivity|exact E].
Qed.

Lemma collect_long (reviews all_reviews : list pyval) :
  Forall long_review all_reviews ->
  Forall long_review (GoogleReviews.collect reviews all_reviews).
Proof.
  revert all_reviews. induction reviews as [|r reviews IH]; intros all_reviews Ha;
    cbn [GoogleReviews.collect]; [exact Ha|].
  destruct (GoogleReviews.review_data_of r) as [[review_data|]|] eqn:E.
  - apply IH. apply Forall_app. split; [exact Ha|].
    constructor; [|constructor]. eapply review_data_of_long. exact E.
  - now apply IH.
  - exact Ha.
Qed.

Lemma fetch_reviews_shape (s : GoogleReviews.search) (product_id : pyval) :
  exists overall_ratings all_reviews page_count,
    GoogleReviews.fetch_reviews s product_id =
    PDict [ ("product_id", product_id); ("overall_rating", overall_ratings);
            ("reviews", PList all_reviews); ("pages_scraped", PInt page_count) ] /\
    Forall long_review all_reviews /\
    (page_count = 0 \/ page_count = 1) /\
    (page_count = 0 <-> exists e, s product_id "relevance" = Raise e).
Proof.
  unfold GoogleReviews.fetch_reviews.
  destruct (s product_id "relevance") as [results|e].
  - assert (Hp : 1 = 0 <-> exists e, @Ok pyval results = Raise e).
    { split; [discriminate|]. intros [e He]. discriminate He. }
    destruct (GoogleReviews.overall_ratings_of results) as [overall|].
    + match goal with |- context [match ?x with Ok _ => _ | Raise _ => _ end] =>
        destruct x as [items|] end.
      * eexists. eexists. eexists. split; [reflexivity|].
        split; [apply collect_long; constructor|]. split; [now right|exact Hp].
      * eexists. eexists. eexists. split; [reflexivity|].
        split; [constructor|]. split; [now right|exact Hp].
    + eexists. eexists. eexists. split; [reflexivity|].
      split; [constructor|]. split; [now right|exact Hp].
  - eexists. eexists. eexists. split; [reflexivity|].
    split; [constructor|]. split; [now left|]. split; [|reflexivity].
    intros _. now exists e.
Qed.

(** X17.  [fetch_reviews] returns a product record whatever the search
    service does: each review in it has a content that is a text of more
    than ten characters once stripped, and [pages_scraped] is 1, or 0
    exactly when the first request raised. *)
Theorem fetched_reviews_have_long_content (s : GoogleReviews.search) (product_id : pyval) :
  Forall long_review (reviews_field (GoogleReviews.fetch_reviews s product_id)) /\
  exists d page_count,
    GoogleReviews.fetch_reviews s product_id = PDict d /\
    dict_get d "product_id" = Some product_id /\
    dict_get d "pages_scraped" = Some (PInt page_count) /\
    (page_count = 0 \/ page_count = 1) /\
    (page_count = 0 <-> exists e, s product_id "relevance" = Raise e).
Proof.
  destruct (fetch_reviews_shape s product_id) as (o & l & n & -> & Hl & Hn & Hz).
  split; [exact Hl|].
  eexists. exists n. split; [reflexivity|]. repeat split; try assumption; apply Hz.
Qed.

Lemma google_reviews_kept (reviews : list pyval) :
  Forall long_review reviews ->
  forall texts, exists added,
    for_each google_review_body reviews texts = Ok (texts ++ added)%list /\
    List.length added = List.length reviews /\
    Forall (fun t => source t = Google) added.
Proof.
  induction 1 as [|r reviews Hr _ IH]; intros texts; cbn [for_each].
  - exists []. rewrite app_nil_r. repeat split. constructor.
  - destruct Hr as (d & s & -> & Hc & Hl).
    unfold google_review_body at 1. unfold dict_get_default at 1. rewrite Hc, Hl.
    cbn [bind].
    match goal with |- context [for_each _ _ (texts ++ [?t])%list] =>
      destruct (IH (texts ++ [t])%list) as (added & -> & Hlen & Hsrc); exists (t :: added) end.
    rewrite <- app_assoc. split; [reflexivity|]. split.
    + cbn [List.length]. now rewrite Hlen.
    + constructor; [reflexivity|exact Hsrc].
Qed.

(** X18.  Every review that [fetch_reviews] collects is taken up by the
    sentiment analysis: from the record of a fetched product the
    extraction of review texts adds exactly one text per collected review,
    each with Google as its source, and it does not raise. *)
Theorem fetched_reviews_reach_the_sentiment_analysis
        (s : GoogleReviews.search) (product_id : pyval) (texts : list review_text) :
  exists added,
    google_product_body texts (GoogleReviews.fetch_reviews s product_id)
    = Ok (texts ++ added)%list /\
    List.length added
    = List.length (reviews_field (GoogleReviews.fetch_reviews s product_id)) /\
    Forall (fun t => source t = Google) added.
Proof.
  destruct (fetch_reviews_shape s product_id) as (o & l & n & -> & Hl & _).
  unfold google_product_body.
  change (dict_get [ ("product_id", product_id); ("overall_rating", o);
                     ("reviews", PList l); ("pages_scraped", PInt n) ] "reviews")
    with (Some (PList l)).
  cbn [py_iter bind].
  change (reviews_field _) with l.
  apply google_reviews_kept. exact Hl.
Qed.

(** X19.  When the search results of a product carry no review count
    (or no rating), [fetch_reviews] stores [None] under that key of
    [overall_rating]; [_prepare_ratings_data] then adds [None] to its
    running total and raises [TypeError], so for a state whose Google
    reviews start with such a product the scoring node records a scoring
    error and the final score 0.0, whatever the reasoning service
    answers. *)
Theorem product_without_count_fails_the_scoring
        (s : GoogleReviews.search) (product_id results overall : pyval)
        (rest : list pyval) (env : environment) (st : state) (errs : list error_entry) :
  s product_id "relevance" = Ok results ->
  GoogleReviews.overall_ratings_of results = Ok overall ->
  py_get overall "total_reviews" (PInt 0) = Ok PNone ->
  google_reviews (data st) = Some (PList (GoogleReviews.fetch_reviews s product_id :: rest)) ->
  errors st = Some errs ->
  _prepare_ratings_data (PList (GoogleReviews.fetch_reviews s product_id :: rest))
  = Raise TypeError /\
  exists st',
    BrandAnalyzer.trust_scoring_node env st = Ok st' /\
    trust_score_value st' = Some (ScoringError TypeError) /\
    final_score_of (trust_score_value st') f0_0 = f0_0 /\
    errors st' = Some (errs ++ [TrustScoringFailed TypeError])%list.
Proof.
  intros Hs Ho Hn Hg He.
  assert (Hp : _prepare_ratings_data (PList (GoogleReviews.fetch_reviews s product_id :: rest))
               = Raise TypeError).
  { unfold _prepare_ratings_data. cbn [truthy negb py_iter bind for_each].
    assert (Hb : ratings_loop_body (PInt 0, PInt 0) (GoogleReviews.fetch_reviews s product_id)
                 = Raise TypeError).
    { unfold GoogleReviews.fetch_reviews. rewrite Hs, Ho.
      assert (Hd : exists o, overall = PDict (("average_rating", fst o) ::
                                               ("total_reviews", PNone) :: snd o)).
      { unfold GoogleReviews.overall_ratings_of in Ho.
        repeat match type of Ho with
               | context [py_get ?x ?k ?d] =>
                   destruct (py_get x k d); cbn [bind] in Ho; [|discriminate Ho]
               end.
        injection Ho as <-. cbn [py_get dict_get_default dict_get String.eqb Ascii.eqb Bool.eqb]
          in Hn.
        injection Hn as ->. eexists (_, _). reflexivity. }
      destruct Hd as [[a o] ->]. cbn [fst snd].
      match goal with |- context [match ?x with Ok _ => _ | Raise _ => _ end] =>
        destruct x end; reflexivity. }
    rewrite Hb. reflexivity. }
  split; [exact Hp|].
  unfold BrandAnalyzer.trust_scoring_node, calculate_trust_score, component_scores_of.
  rewrite Hg. cbn [get_or]. unfold analyze_ratings. rewrite Hp. cbn [bind]. rewrite He.
  eexists. split; [reflexivity|]. repeat split.
Qed.

Lemma product_without_count_fails_the_scoring_witness :
  let st := mk_state (PStr "Acme") PNone PNone
              (mk_collected (Some (PList [GoogleReviews.fetch_reviews uncounted_search (PStr "p1")]))
                            (Some (PList [])) (Some (PDict [])))
              None None (Some BrandAnalyzer.pending_status) (Some []) in
  _prepare_ratings_data (PList [GoogleReviews.fetch_reviews uncounted_search (PStr "p1")])
  = Raise TypeError /\
  exists st',
    BrandAnalyzer.trust_scoring_node silent_env st = Ok st' /\
    trust_score_value st' = Some (ScoringError TypeError) /\
    final_score_of (trust_score_value st') f0_0 = f0_0 /\
    errors st' = Some ([] ++ [TrustScoringFailed TypeError])%list.
Proof.
  intros st.
  apply (product_without_count_fails_the_scoring uncounted_search (PStr "p1")
           (PDict [ ("product_results", PDict [("title", PStr "Acme Kettle")]);
                    ("reviews_results",
                     PDict [("reviews",
                             PList [PDict [("content", PStr "Boils fast and stays quiet.");
                                           ("rating", PInt 5)]])]) ])
           (PDict [ ("average_rating", PNone); ("total_reviews", PNone);
                    ("ratings_breakdown", PList []); ("product_title", PStr "Acme Kettle") ])
           [] silent_env st []); reflexivity.
Defined.

(* ================================================================== *)
(** ** The search for subreddits *)
(* ================================================================== *)

Lemma word_run_word (s : list ascii) : forallb Reddit.is_word (Reddit.word_run s) = true.
Proof.
  induction s as [|c s IH]; cbn [Reddit.word_run]; [reflexivity|].
  destruct (Reddit.is_word c) eqn:E; [|reflexivity].
  cbn [forallb]. now rewrite E, IH.
Qed.

Lemma findall_from_words (s : list ascii) :
  forall skip, Forall word (Reddit.findall_from skip s).
Proof.
  induction s as [|c s IH]; intros skip; cbn [Reddit.findall_from]; [constructor|].
  destruct skip as [|k]; [|apply IH].
  match goal with |- context [match ?n with [] => _ | _ :: _ => _ end] =>
    assert (Hw : forallb Reddit.is_word n = true);
      [|destruct n as [|x name]; [apply IH|]] end.
  - destruct s as [|r [|c' rest]]; try reflexivity.
    destruct (_ && _)%bool; [apply word_run_word|reflexivity].
  - constructor; [|apply IH].
    split; [discriminate|]. now rewrite list_ascii_of_string_of_list_ascii.
Qed.

Lemma over_matches_invariant (k : Z) (ms : list string) :
  Forall word ms ->
  forall seen subreddits,
    distinct_names seen subreddits -> Forall word subreddits ->
    (Z.of_nat (List.length subreddits) < Z.max k 1 \/ subreddits = []) ->
    match Reddit.over_matches k ms seen subreddits with
    | Reddit.Continue seen' subreddits' =>
        distinct_names seen' subreddits' /\ Forall word subreddits' /\
        (Z.of_nat (List.length subreddits') < Z.max k 1 \/ subreddits' = [])
    | Reddit.Return subreddits' =>
        (exists seen', distinct_names seen' subreddits') /\ Forall word subreddits' /\
        Z.of_nat (List.length subreddits') <= Z.max k 1
    end.
Proof.
  induction 1 as [|m ms Hm _ IH]; intros seen subreddits Hd Hw Hl;
    cbn [Reddit.over_matches]; [split; [exact Hd|split; [exact Hw|exact Hl]]|].
  destruct (existsb _ seen) eqn:E; [now apply IH|].
  assert (Hd' : distinct_names (seen ++ [lower_string (list_ascii_of_string m)])
                               (subreddits ++ [m])).
  { destruct Hd as [Hs Hn]. split.
    - rewrite map_app, Hs. reflexivity.
    - apply NoDup_app; [exact Hn|repeat constructor; intros []|].
      intros x Hx [<-|[]].
      assert (Hex : existsb (String.eqb (lower_string (list_ascii_of_string m))) seen = true).
      { apply existsb_exists. exists (lower_string (list_ascii_of_string m)).
        split; [exact Hx|apply String.eqb_refl]. }
      rewrite Hex in E. discriminate E. }
  assert (Hw' : Forall word (subreddits ++ [m])).
  { apply Forall_app. split; [exact Hw|]. constructor; [exact Hm|constructor]. }
  assert (Hlen : Z.of_nat (List.length (subreddits ++ [m])) <= Z.max k 1).
  { rewrite length_app. cbn [List.length]. destruct Hl as [Hl| ->]; cbn [List.length]; lia. }
  destruct (Z.leb_spec k (Z.of_nat (List.length (subreddits ++ [m])))) as [Hk|Hk].
  - split; [now exists (seen ++ [lower_string (list_ascii_of_string m)])%list|].
    now split.
  - apply IH; [exact Hd'|exact Hw'|]. left. lia.
Qed.

Lemma over_texts_invariant (k : Z) (texts : list pyval) :
  forall seen subreddits f,
    distinct_names seen subreddits -> Forall word subreddits ->
    (Z.of_nat (List.length subreddits) < Z.max k 1 \/ subreddits = []) ->
    Reddit.over_texts k texts seen subreddits = Ok f ->
    match f with
    | Reddit.Continue seen' subreddits' =>
        distinct_names seen' subreddits' /\ Forall word subreddits' /\
        (Z.of_nat (List.length subreddits') < Z.max k 1 \/ subreddits' = [])
    | Reddit.Return subreddits' =>
        (exists seen', distinct_names seen' subreddits') /\ Forall word subreddits' /\
        Z.of_nat (List.length subreddits') <= Z.max k 1
    end.
Proof.
  induction texts as [|t texts IH]; intros seen subreddits f Hd Hw Hl H;
    cbn [Reddit.over_texts] in H.
  - injection H as <-. split; [exact Hd|split; [exact Hw|exact Hl]].
  - destruct (Reddit.findall t) as [ms|] eqn:Em; cbn [bind] in H; [|discriminate].
    assert (Hms : Forall word ms).
    { unfold Reddit.findall in Em. destruct t; try discriminate.
      injection Em as <-. apply findall_from_words. }
    pose proof (over_matches_invariant k ms Hms seen subreddits Hd Hw Hl) as Hi.
    destruct (Reddit.over_matches k ms seen subreddits) as [seen' subreddits'|r].
    + destruct Hi as (Hd' & Hw' & Hl'). eapply IH; eassumption.
    + injection H as <-. exact Hi.
Qed.

Lemma over_results_invariant (k : Z) (results : list pyval) :
  forall seen subreddits f,
    distinct_names seen subreddits -> Forall word subreddits ->
    (Z.of_nat (List.length subreddits) < Z.max k 1 \/ subreddits = []) ->
    Reddit.over_results k results seen subreddits = Ok f ->
    match f with
    | Reddit.Continue seen' subreddits' =>
        distinct_names seen' subreddits' /\ Forall word subreddits' /\
        (Z.of_nat (List.length subreddits') < Z.max k 1 \/ subreddits' = [])
    | Reddit.Return subreddits' =>
        (exists seen', distinct_names seen' subreddits') /\ Forall word subreddits' /\
        Z.of_nat (List.length subreddits') <= Z.max k 1
    end.
Proof.
  induction results as [|r results IH]; intros seen subreddits f Hd Hw Hl H;
    cbn [Reddit.over_results] in H.
  - injection H as <-. split; [exact Hd|split; [exact Hw|exact Hl]].
  - destruct (py_get r "link" (PStr "")) as [link|]; cbn [bind] in H; [|discriminate].
    destruct (py_get r "title" (PStr "")) as [title|]; cbn [bind] in H; [|discriminate].
    destruct (Reddit.over_texts k [link; title] seen subreddits) as [f1|] eqn:E1;
      cbn [bind] in H; [|discriminate].
    pose proof (over_texts_invariant k [link; title] seen subreddits f1 Hd Hw Hl E1) as Hi.
    destruct f1 as [seen' subreddits'|x].
    + destruct Hi as (Hd' & Hw' & Hl'). eapply IH; eassumption.
    + injection H as <-. exact Hi.
Qed.

(** X20.  The subreddit names that [google_subreddit_search] returns are
    pairwise different even when letter case is ignored, each is a
    non-empty run of letters, digits and underscores, and there are at
    most [k] of them (one, for [k] below 1); without an API key, or when
    the request or the walk over its results raises, the list is empty. *)
Theorem subreddit_names_are_distinct (api_key : bool) (response : result pyval) (k : Z) :
  let names := Reddit.google_subreddit_search api_key response k in
  NoDup (map (fun m => lower_string (list_ascii_of_string m)) names) /\
  Forall word names /\
  Z.of_nat (List.length names) <= Z.max k 1 /\
  (api_key = false \/ (exists e, response = Raise e) -> names = []).
Proof.
  intros names. subst names. unfold Reddit.google_subreddit_search.
  assert (Hnil : NoDup (map (fun m => lower_string (list_ascii_of_string m)) []) /\
                 Forall word [] /\ Z.of_nat (List.length (@nil string)) <= Z.max k 1).
  { split; [constructor|]. split; [constructor|]. cbn [List.length]. lia. }
  destruct api_key; cbn [negb]; [|split; [apply Hnil|split; [apply Hnil|split; [apply Hnil|]]];
    reflexivity].
  destruct response as [data|e]; cbn [bind];
    [|split; [apply Hnil|split; [apply Hnil|split; [apply Hnil|]]]; reflexivity].
  assert (Hside : forall l : list string,
             true = false \/ (exists e, @Ok pyval data = Raise e) -> l = []).
  { intros l [H|[e H]]; discriminate H. }
  destruct (py_get data "organic_results" (PList [])) as [organic|]; cbn [bind];
    [|split; [apply Hnil|split; [apply Hnil|split; [apply Hnil|apply Hside]]]].
  destruct (py_iter organic) as [results|]; cbn [bind];
    [|split; [apply Hnil|split; [apply Hnil|split; [apply Hnil|apply Hside]]]].
  destruct (Reddit.over_results k results [] []) as [f|] eqn:E;
    [|split; [apply Hnil|split; [apply Hnil|split; [apply Hnil|apply Hside]]]].
  assert (H0 : distinct_names [] []) by (split; [reflexivity|constructor]).
  pose proof (over_results_invariant k results [] [] f H0 (Forall_nil _)
                (or_intror eq_refl) E) as Hi.
  destruct f as [seen subreddits|subreddits].
  - destruct Hi as ([Hs Hn] & Hw & Hl). rewrite <- Hs.
    split; [exact Hn|]. split; [exact Hw|]. split; [|apply Hside].
    destruct Hl as [Hl| ->]; cbn [List.length]; lia.
  - destruct Hi as ([seen [Hs Hn]] & Hw & Hl). rewrite <- Hs.
    split; [exact Hn|]. split; [exact Hw|]. split; [exact Hl|apply Hside].
Qed.

(* ================================================================== *)
(** ** Weights of the table in force *)
(* ================================================================== *)



(** X22.  When the records of all five dimensions carry the same integer
    score between 0 and 10, the final score is that score: the rounding
    errors of the weighted sum in floats do not show after the rounding to
    one decimal. *)
Theorem uniform_scores_give_that_score (cs : dict) (n : Z) :
  0 <= n <= 10 ->
  uniform_scores cs n ->
  exists t, _calculate_final_score cs weights = Ok t /\ final_score t = float_of_Z n.
Proof.
  intros Hn Hu.
  assert (He : forall c, In c dimensions ->
             extract_score cs c = Ok (py_max f0_0 (py_min f10_0 (float_of_Z n)))).
  { intros c Hc. destruct (Hu c Hc) as (r & Hr & Hcarry).
    eapply extract_score_carries; eassumption. }
  unfold _calculate_final_score. rewrite extract_scores_weights.
  rewrite !He by (unfold dimensions; cbn [In]; tauto).
  assert (Hcases : In n (map Z.of_nat (seq 0 11))).
  { apply in_map_iff. exists (Z.to_nat n). split; [lia|]. apply in_seq. lia. }
  clear He Hu Hn. cbv [seq map In] in Hcases.
  repeat (destruct Hcases as [<-|Hcases];
          [vm_compute; eexists; split; reflexivity|]).
  destruct Hcases.
Qed.

Lemma uniform_scores_give_that_score_witness :
  exists t, _calculate_final_score all_sevens weights = Ok t /\ final_score t = float_of_Z 7.
Proof.
  apply (uniform_scores_give_that_score all_sevens 7); [lia|].
  intros c Hc. unfold dimensions in Hc. cbn [In] in Hc.
  destruct Hc as [<-|[<-|[<-|[<-|[<-|[]]]]]]; eexists; (split; [reflexivity|]);
    eexists; eexists; (split; [reflexivity|]); (split; [reflexivity|]);
    (split; [first [left; reflexivity | right; split; reflexivity]|]);
    vm_compute; reflexivity.
Defined.
